(** * three-image-transition: the gallery, its slides and the drag scrubber

    A shallow embedding of the gallery script (the source that holds
    [ImageGallery], [Slide], [getControlPoint0/1] and
    [createTweenScrubber]).

    Numbers.  JavaScript numbers and GLSL floats are idealised as exact
    rationals ([Q]); indices are integers ([Z]) and [%] is JavaScript's
    truncating remainder ([Z.rem]).  Rounding (binary64, and the
    [Float32Array] attribute buffers) is outside the model, except for the
    one constant [totalDuration], which is also evaluated in binary64.

    Asynchrony.  The program is event driven and single threaded.  Each
    handler is a function from state to state; an [async] method is cut at
    its [await]s, and the continuations wait in the state until the event
    that settles the awaited promise.  gsap's call of a timeline's
    [onComplete] is such an event ([Complete]), whether the play head got
    to the end by playing or by being set there.

    Collaborators.  [Math.random], three.js ([PlaneGeometry],
    [MathUtils]) and gsap (timelines) are not part of the repository.
    [Math.random] is an oracle, a stream of draws indexed by the number of
    calls made so far; the non-indexed position attribute of
    [PlaneGeometry] is a parameter of the slide constructor; the handful of
    [MathUtils] functions and the timeline handle are written out from
    their documented behaviour. *)

From Stdlib Require Import PrimFloat.
From Stdlib Require Import QArith Qminmax Qabs Qround Lqa ZArith List Bool Lia.
From stdpp Require Import gmap.

Local Open Scope Q_scope.

(** ** THREE.MathUtils and the GLSL built-ins the code calls *)

Module MathUtils.

(** [THREE.MathUtils.clamp(value, min, max)] is
    [Math.max(min, Math.min(max, value))]. *)
Definition clamp (value lo hi : Q) : Q := Qmax lo (Qmin hi value).

(** [THREE.MathUtils.mapLinear(x, a1, a2, b1, b2)]. *)
Definition mapLinear (x a1 a2 b1 b2 : Q) : Q :=
  b1 + (x - a1) * (b2 - b1) / (a2 - a1).

(** [THREE.MathUtils.randFloat(low, high)], given the draw [r] that its
    call of [Math.random()] returns. *)
Definition randFloat (r low high : Q) : Q := low + r * (high - low).

(** [THREE.MathUtils.randFloatSpread(range)], given its draw [r]. *)
Definition randFloatSpread (r range : Q) : Q := range * (0.5 - r).

(** [Math.sign]. *)
Definition sign (x : Q) : Q :=
  match Qcompare x 0 with
  | Lt => -(1)
  | Eq => 0
  | Gt => 1
  end.

(** GLSL [clamp(x, minVal, maxVal)] is [min(max(x, minVal), maxVal)]. *)
Definition glsl_clamp (x lo hi : Q) : Q := Qmin (Qmax x lo) hi.

End MathUtils.

(** ** Vectors *)

Record Vector3 : Type := mkVector3 { vx : Q; vy : Q; vz : Q }.

Definition vadd (a b : Vector3) : Vector3 :=
  mkVector3 (vx a + vx b) (vy a + vy b) (vz a + vz b).

Definition vsub (a b : Vector3) : Vector3 :=
  mkVector3 (vx a - vx b) (vy a - vy b) (vz a - vz b).

Definition divideScalar (a : Vector3) (s : Q) : Vector3 :=
  mkVector3 (vx a / s) (vy a / s) (vz a / s).

Inductive Phase : Type := PhaseIn | PhaseOut.

(** ** The slide constructor: per-face animation data *)

(** The constants of [Slide.constructor]. *)
Definition minDuration : Q := 0.8.
Definition maxDuration : Q := 1.2.
Definition maxDelayX : Q := 0.9.
Definition maxDelayY : Q := 0.125.
Definition stretch : Q := 0.11.

(** [const totalDuration = maxDuration + maxDelayX + maxDelayY + stretch]. *)
Definition totalDuration : Q := maxDuration + maxDelayX + maxDelayY + stretch.

(** The same sum in binary64, as JavaScript evaluates it (left to right,
    each literal rounded to the nearest double). *)
#[warnings="-inexact-float"]
Definition totalDuration_binary64 : PrimFloat.float :=
  (1.2 + 0.9 + 0.125 + 0.11)%float.

(** What the attribute buffers hold for one vertex: [aAnimation] is the pair
    (delay, duration); [position] is the rewritten position attribute. *)
Record VertexData : Type := mkVertexData {
  aAnimation : Q * Q;
  aStartPosition : Vector3;
  aControl0 : Vector3;
  aControl1 : Vector3;
  aEndPosition : Vector3;
  position : Vector3
}.

Definition tDelay (v : VertexData) : Q := fst (aAnimation v).
Definition tDuration (v : VertexData) : Q := snd (aAnimation v).

Section Builder.

(** [Math_random k] is what the [k]-th call of [Math.random()] returns. *)
Variable Math_random : nat -> Q.

(** [getControlPoint0(centroid, animationPhase)]; its three draws are
    numbers [n], [n+1], [n+2]. *)
Definition getControlPoint0 (centroid : Vector3) (animationPhase : Phase)
    (n : nat) : Vector3 :=
  let signY := MathUtils.sign (vy centroid) in
  let point := mkVector3
    (MathUtils.randFloat (Math_random n) 0.1 0.3 * 50)
    (signY * MathUtils.randFloat (Math_random (n + 1)) 0.1 0.3 * 70)
    (MathUtils.randFloatSpread (Math_random (n + 2)) 20) in
  match animationPhase with
  | PhaseIn => vsub centroid point
  | PhaseOut => vadd centroid point
  end.

(** [getControlPoint1(centroid, animationPhase)]. *)
Definition getControlPoint1 (centroid : Vector3) (animationPhase : Phase)
    (n : nat) : Vector3 :=
  let signY := MathUtils.sign (vy centroid) in
  let point := mkVector3
    (MathUtils.randFloat (Math_random n) 0.3 0.6 * 50)
    (- signY * MathUtils.randFloat (Math_random (n + 1)) 0.3 0.6 * 70)
    (MathUtils.randFloatSpread (Math_random (n + 2)) 20) in
  match animationPhase with
  | PhaseIn => vsub centroid point
  | PhaseOut => vadd centroid point
  end.

Definition faceCentroid (v0 v1 v2 : Vector3) : Vector3 :=
  divideScalar (vadd (vadd (vadd (mkVector3 0 0 0) v0) v1) v2) 3.

Definition faceDuration (n : nat) : Q :=
  MathUtils.randFloat (Math_random n) minDuration maxDuration.

Definition faceDelayX (width : Q) (centroid : Vector3) : Q :=
  MathUtils.mapLinear (vx centroid) (- width * 0.5) (width * 0.5) 0.0 maxDelayX.

Definition faceDelayY (height : Q) (animationPhase : Phase)
    (centroid : Vector3) : Q :=
  match animationPhase with
  | PhaseIn =>
      MathUtils.mapLinear (Qabs (vy centroid)) 0 (height * 0.5) 0.0 maxDelayY
  | PhaseOut =>
      MathUtils.mapLinear (Qabs (vy centroid)) 0 (height * 0.5) maxDelayY 0.0
  end.

(** The data written for vertex [v] (0, 1 or 2) of a face whose first
    draw is number [n].  The first inner loop runs
    [Math.random() * stretch * duration] once per iteration, so vertex
    [v] gets draw [n + 1 + v]; the control points use draws [n + 4] to
    [n + 9]. *)
Definition faceVertex (width height : Q) (animationPhase : Phase)
    (v0 v1 v2 : Vector3) (n : nat) (v : nat) (originalPos : Vector3)
    : VertexData :=
  let centroid := faceCentroid v0 v1 v2 in
  let duration := faceDuration n in
  let delayX := faceDelayX width centroid in
  let delayY := faceDelayY height animationPhase centroid in
  {| aAnimation :=
       (delayX + delayY + Math_random (n + 1 + v) * stretch * duration,
        duration);
     aStartPosition := centroid;
     aControl0 := getControlPoint0 centroid animationPhase (n + 4);
     aControl1 := getControlPoint1 centroid animationPhase (n + 7);
     aEndPosition := centroid;
     position := vsub originalPos centroid |}.

(** One iteration of the loop over faces: the three vertices' data. *)
Definition processFace (width height : Q) (animationPhase : Phase)
    (v0 v1 v2 : Vector3) (n : nat) : list VertexData :=
  [ faceVertex width height animationPhase v0 v1 v2 n 0 v0;
    faceVertex width height animationPhase v0 v1 v2 n 1 v1;
    faceVertex width height animationPhase v0 v1 v2 n 2 v2 ].

(** Draws one face consumes: 1 (duration) + 3 (jitter) + 3 + 3. *)
Definition drawsPerFace : nat := 10.

(** The loop [for (let i = 0; i < faceCount; i++)] over the non-indexed
    position attribute, three vertices per face; [n] counts the calls of
    [Math.random()] made before the face. *)
Fixpoint processFaces (width height : Q) (animationPhase : Phase)
    (positions : list Vector3) (n : nat) : list VertexData :=
  match positions with
  | v0 :: v1 :: v2 :: rest =>
      processFace width height animationPhase v0 v1 v2 n
      ++ processFaces width height animationPhase rest (n + drawsPerFace)
  | _ => []
  end.

End Builder.

(** ** The vertex shader's timing *)

(** [float ease(float t, float b, float c, float d)]. *)
Definition ease (t b c d : Q) : Q :=
  let t := t / (d / 2.0) in
  if Qlt_le_dec t 1.0 then c / 2.0 * t * t * t + b
  else
    let t := t - 2.0 in
    c / 2.0 * (t * t * t + 2.0) + b.

(** [tProgress] of [main()], for uniform [uTime] and a vertex's
    [aAnimation = (tDelay, tDuration)]. *)
Definition tProgress (uTime delay duration : Q) : Q :=
  let tTime := MathUtils.glsl_clamp (uTime - delay) 0.0 duration in
  ease tTime 0.0 1.0 duration.

(** The spec's normalised form of the easing: [4t^3] on the first half,
    [1 - (-2t+2)^3/2] on the second. *)
Definition easeInOutCubic (t : Q) : Q :=
  if Qlt_le_dec t 0.5 then 4 * t * t * t
  else 1 - (-2 * t + 2) * (-2 * t + 2) * (-2 * t + 2) / 2.

(** ** three.js PlaneGeometry, non-indexed

    The position attribute of
    [new THREE.PlaneGeometry(width, height, widthSegments, heightSegments)
     .toNonIndexed()], written out from three.js: a grid of
    [floor(widthSegments) x floor(heightSegments)] cells, row by row from the
    top, each cell split into the triangles (a, b, d) and (b, c, d).  The
    slide constructor takes the attribute as a parameter; this definition
    is the instance used for concrete slides. *)

Module PlaneGeometry.

Definition vertex (width height : Q) (gridX gridY : Z) (ix iy : nat)
    : Vector3 :=
  let x := inject_Z (Z.of_nat ix) * (width / inject_Z gridX) - width / 2 in
  let y := inject_Z (Z.of_nat iy) * (height / inject_Z gridY) - height / 2 in
  mkVector3 x (- y) 0.

Definition cell (width height : Q) (gridX gridY : Z) (ix iy : nat)
    : list Vector3 :=
  let a := vertex width height gridX gridY ix iy in
  let b := vertex width height gridX gridY ix (iy + 1) in
  let c := vertex width height gridX gridY (ix + 1) (iy + 1) in
  let d := vertex width height gridX gridY (ix + 1) iy in
  [a; b; d; b; c; d].

Definition positions (width height widthSegments heightSegments : Q)
    : list Vector3 :=
  let gridX := Qfloor widthSegments in
  let gridY := Qfloor heightSegments in
  flat_map
    (fun iy =>
       flat_map (fun ix => cell width height gridX gridY ix iy)
                (seq 0 (Z.to_nat gridX)))
    (seq 0 (Z.to_nat gridY)).

End PlaneGeometry.

(** ** Configuration *)

Definition MAX_WIDTH : Q := 100.
Definition MAX_HEIGHT : Q := 60.

Module GALLERY_CONFIG.
Definition autoAdvance : bool := false.
Definition preloadRadius : Z := 3.
End GALLERY_CONFIG.

(** [calculatePlaneDimensions(imageWidth, imageHeight)]. *)
Definition calculatePlaneDimensions (imageWidth imageHeight : Q) : Q * Q :=
  let imageAspect := imageWidth / imageHeight in
  let maxAspect := MAX_WIDTH / MAX_HEIGHT in
  if Qlt_le_dec maxAspect imageAspect
  then (MAX_WIDTH, MAX_WIDTH / imageAspect)
  else (MAX_HEIGHT * imageAspect, MAX_HEIGHT).

(** ** Objects *)

(** A decoded texture: what the code reads of it is [image.width] and
    [image.height]. *)
Record Texture : Type := mkTexture { image_width : Q; image_height : Q }.

(** Why an asynchronous task failed. *)
Inductive Error : Type :=
| LoadError (code : nat)   (* the loader's [onError] *)
| TypeError.               (* reading [.image] of a missing texture *)

(** A [Slide] (a [THREE.Mesh]): its geometry attributes, the material's
    uniforms and the two fields the constructor adds. *)
Record Slide : Type := mkSlide {
  slide_id : nat;
  geometry : list VertexData;
  uTime : Q;
  uTexture : option Texture;
  uPhase : Q;
  slide_totalDuration : Q;
  animationPhase : Phase
}.

Definition uPhaseOf (p : Phase) : Q :=
  match p with PhaseIn => 1.0 | PhaseOut => - 1.0 end.

(** [set time(v)]. *)
Definition Slide_set_time (v : Q) (s : Slide) : Slide :=
  {| slide_id := slide_id s; geometry := geometry s; uTime := v;
     uTexture := uTexture s; uPhase := uPhase s;
     slide_totalDuration := slide_totalDuration s;
     animationPhase := animationPhase s |}.

(** [set phase(value)]. *)
Definition Slide_set_phase (value : Phase) (s : Slide) : Slide :=
  {| slide_id := slide_id s; geometry := geometry s; uTime := uTime s;
     uTexture := uTexture s; uPhase := uPhaseOf value;
     slide_totalDuration := slide_totalDuration s;
     animationPhase := value |}.

(** [setTexture(texture)]. *)
Definition Slide_setTexture (texture : Texture) (s : Slide) : Slide :=
  {| slide_id := slide_id s; geometry := geometry s; uTime := uTime s;
     uTexture := Some texture; uPhase := uPhase s;
     slide_totalDuration := slide_totalDuration s;
     animationPhase := animationPhase s |}.

(** A gsap timeline as [transitionTo] builds it.  [tl_tweens] are the ids
    of the slides whose [transition()] tween was added (all at offset 0);
    [tl_targetIndex] is the [targetIndex] its [onComplete] closure holds. *)
Record Timeline : Type := mkTimeline {
  tl_id : nat;
  tl_progress : Q;
  tl_paused : bool;
  tl_tweens : list nat;
  tl_targetIndex : Z
}.

Definition Timeline_set_progress (p : Q) (tl : Timeline) : Timeline :=
  {| tl_id := tl_id tl; tl_progress := p; tl_paused := tl_paused tl;
     tl_tweens := tl_tweens tl; tl_targetIndex := tl_targetIndex tl |}.

(** [timeline.paused(b)]; [pause()] is [paused(true)], [play()] is
    [paused(false)]. *)
Definition Timeline_set_paused (b : bool) (tl : Timeline) : Timeline :=
  {| tl_id := tl_id tl; tl_progress := tl_progress tl; tl_paused := b;
     tl_tweens := tl_tweens tl; tl_targetIndex := tl_targetIndex tl |}.

(** The fields of [ImageGallery] ([root] and [loader] live in [World]).
    [imagePaths] is kept as the number of paths; [autoAdvanceTimer] tells
    whether a timer is armed. *)
Record ImageGallery : Type := mkImageGallery {
  imagePaths_length : Z;
  currentIndex : Z;
  textures : gmap Z Texture;
  currentSlide : option Slide;
  nextSlide : option Slide;
  isTransitioning : bool;
  isPaused : bool;
  timeline : option Timeline;
  autoAdvanceTimer : bool
}.

Inductive Direction : Type := DirNext | DirPrevious.

(** The closure variables of [createTweenScrubber]. *)
Record Scrubber : Type := mkScrubber {
  _cx : Q;
  _startX : Q;
  mouseDown : bool;
  transitionInitiated : bool;
  transitionDirection : option Direction
}.

(** [createTweenScrubber(gallery)] is called with the default
    [seekSpeed = 0.001]. *)
Definition seekSpeed : Q := 0.001.

(** ** Asynchronous tasks

    An [async] method runs synchronously up to its first [await]; what is
    left is a continuation that runs when the awaited promise settles.  A
    call of [next()] or [previous()] that gets past its guard is a task
    with an id; [Pending b] tells whether the scrubber has attached its
    [.then(pause)] callback to it. *)

Inductive TaskState : Type :=
| Pending (scrubThen : bool)
| Fulfilled
| Rejected (e : Error).

(** What runs when a texture load settles. *)
Inductive LoadCont : Type :=
| NavLoad (task : nat)     (* [textures[i] = await loadTexture(..)] in next/previous *)
| PreloadLoad.             (* the [.then/.catch] pair of [preloadAround] *)

Record Load : Type := mkLoad { ld_target : Z; ld_cont : LoadCont }.

(** The whole program state: the gallery, the scene of [root], the
    scrubber, and the run time (loads in flight, tasks awaiting a
    timeline's completion, calls of [Math.random] so far, objects
    allocated so far). *)
Record World : Type := mkWorld {
  gallery : ImageGallery;
  scene : list nat;
  disposed : list nat;
  scrubber : Scrubber;
  loads : list Load;
  awaiting : list (nat * nat);
  tasks : gmap nat TaskState;
  randomCalls : nat;
  allocated : nat
}.

(** Field updates. *)

Definition set_currentIndex (i : Z) (g : ImageGallery) : ImageGallery :=
  mkImageGallery (imagePaths_length g) i (textures g) (currentSlide g)
    (nextSlide g) (isTransitioning g) (isPaused g) (timeline g)
    (autoAdvanceTimer g).

Definition set_textures (t : gmap Z Texture) (g : ImageGallery) : ImageGallery :=
  mkImageGallery (imagePaths_length g) (currentIndex g) t (currentSlide g)
    (nextSlide g) (isTransitioning g) (isPaused g) (timeline g)
    (autoAdvanceTimer g).

Definition set_slides (cur nxt : option Slide) (g : ImageGallery)
    : ImageGallery :=
  mkImageGallery (imagePaths_length g) (currentIndex g) (textures g) cur nxt
    (isTransitioning g) (isPaused g) (timeline g) (autoAdvanceTimer g).

Definition set_isTransitioning (b : bool) (g : ImageGallery) : ImageGallery :=
  mkImageGallery (imagePaths_length g) (currentIndex g) (textures g)
    (currentSlide g) (nextSlide g) b (isPaused g) (timeline g)
    (autoAdvanceTimer g).

Definition set_isPaused (b : bool) (g : ImageGallery) : ImageGallery :=
  mkImageGallery (imagePaths_length g) (currentIndex g) (textures g)
    (currentSlide g) (nextSlide g) (isTransitioning g) b (timeline g)
    (autoAdvanceTimer g).

Definition set_timeline (t : option Timeline) (g : ImageGallery)
    : ImageGallery :=
  mkImageGallery (imagePaths_length g) (currentIndex g) (textures g)
    (currentSlide g) (nextSlide g) (isTransitioning g) (isPaused g) t
    (autoAdvanceTimer g).

Definition set_autoAdvanceTimer (b : bool) (g : ImageGallery) : ImageGallery :=
  mkImageGallery (imagePaths_length g) (currentIndex g) (textures g)
    (currentSlide g) (nextSlide g) (isTransitioning g) (isPaused g)
    (timeline g) b.

Definition set_gallery (g : ImageGallery) (w : World) : World :=
  mkWorld g (scene w) (disposed w) (scrubber w) (loads w) (awaiting w)
    (tasks w) (randomCalls w) (allocated w).

Definition upd_gallery (f : ImageGallery -> ImageGallery) (w : World) : World :=
  set_gallery (f (gallery w)) w.

Definition set_scene (sc dis : list nat) (w : World) : World :=
  mkWorld (gallery w) sc dis (scrubber w) (loads w) (awaiting w) (tasks w)
    (randomCalls w) (allocated w).

Definition set_scrubber (s : Scrubber) (w : World) : World :=
  mkWorld (gallery w) (scene w) (disposed w) s (loads w) (awaiting w)
    (tasks w) (randomCalls w) (allocated w).

Definition set_loads (l : list Load) (w : World) : World :=
  mkWorld (gallery w) (scene w) (disposed w) (scrubber w) l (awaiting w)
    (tasks w) (randomCalls w) (allocated w).

Definition set_awaiting (a : list (nat * nat)) (w : World) : World :=
  mkWorld (gallery w) (scene w) (disposed w) (scrubber w) (loads w) a
    (tasks w) (randomCalls w) (allocated w).

Definition set_tasks (t : gmap nat TaskState) (w : World) : World :=
  mkWorld (gallery w) (scene w) (disposed w) (scrubber w) (loads w)
    (awaiting w) t (randomCalls w) (allocated w).

Definition set_counters (r a : nat) (w : World) : World :=
  mkWorld (gallery w) (scene w) (disposed w) (scrubber w) (loads w)
    (awaiting w) (tasks w) r a.

(** ** The gallery *)

Section Gallery.

Variable Math_random : nat -> Q.

(** [planePositions width height widthSegments heightSegments]: the
    position attribute of the non-indexed plane geometry. *)
Variable planePositions : Q -> Q -> Q -> Q -> list Vector3.

(** [new Slide(width, height, animationPhase)], as object number [id],
    after [n] calls of [Math.random()]. *)
Definition Slide_new (id : nat) (width height : Q) (phase : Phase)
    (n : nat) : Slide :=
  let widthSegments := width * 2 in
  let heightSegments := height * 2 in
  {| slide_id := id;
     geometry :=
       processFaces Math_random width height phase
         (planePositions width height widthSegments heightSegments) n;
     uTime := 0;
     uTexture := None;
     uPhase := uPhaseOf phase;
     slide_totalDuration := totalDuration;
     animationPhase := phase |}.

(** Calls of [Math.random()] that constructor makes. *)
Definition Slide_draws (width height : Q) : nat :=
  (length (planePositions width height (width * 2) (height * 2)) / 3
   * drawsPerFace)%nat.

(** [stopAutoAdvance()]. *)
Definition stopAutoAdvance (g : ImageGallery) : ImageGallery :=
  if autoAdvanceTimer g then set_autoAdvanceTimer false g else g.

(** [startAutoAdvance()]. *)
Definition startAutoAdvance (g : ImageGallery) : ImageGallery :=
  set_autoAdvanceTimer true (stopAutoAdvance g).

(** The offsets the loop of [preloadAround] visits: [-radius .. radius]
    without 0. *)
Definition preloadOffsets (radius : Z) : list Z :=
  filter (fun offset => negb (offset =? 0)%Z)
    (map (fun k => (- radius + Z.of_nat k)%Z)
         (seq 0 (Z.to_nat (2 * radius + 1)))).

Definition cached (g : ImageGallery) (i : Z) : bool :=
  match textures g !! i with Some _ => true | None => false end.

(** [preloadAround(centerIndex)] up to its [await]: the loads it starts.
    What follows the [await] only logs. *)
Definition preloadAround (centerIndex : Z) (w : World) : World :=
  let g := gallery w in
  let targets :=
    filter (fun targetIndex => negb (cached g targetIndex))
      (map (fun offset =>
              Z.rem (centerIndex + offset + imagePaths_length g)
                    (imagePaths_length g))
           (preloadOffsets GALLERY_CONFIG.preloadRadius)) in
  set_loads (loads w ++ map (fun t => mkLoad t PreloadLoad) targets) w.

(** [transitionTo(targetIndex)] up to the promise it returns; the result
    is the new state and the id of the timeline, or [None] where
    [texture.image] throws. *)
Definition transitionTo (targetIndex : Z) (w : World)
    : option (World * nat) :=
  let g := gallery w in
  match textures g !! targetIndex with
  | None => None
  | Some texture =>
      let dims :=
        calculatePlaneDimensions (image_width texture) (image_height texture) in
      let sid := allocated w in
      let tid := S sid in
      let nxt :=
        Slide_setTexture texture
          (Slide_new sid (fst dims) (snd dims) PhaseIn (randomCalls w)) in
      let cur :=
        option_map (fun s => Slide_set_time 0 (Slide_set_phase PhaseOut s))
                   (currentSlide g) in
      let tl :=
        {| tl_id := tid; tl_progress := 0; tl_paused := false;
           tl_tweens :=
             match cur with Some s => [slide_id s] | None => [] end ++ [sid];
           tl_targetIndex := targetIndex |} in
      Some
        (set_counters
           (randomCalls w + Slide_draws (fst dims) (snd dims)) (S tid)
           (set_scene (scene w ++ [sid]) (disposed w)
              (set_gallery (set_timeline (Some tl) (set_slides cur (Some nxt) g))
                 w)),
         tid)
  end.

(** The scrubber's [.then] callback:
    [if (galleryInstance.timeline && mouseDown) timeline.pause()]. *)
Definition pauseIfHeld (w : World) : World :=
  match timeline (gallery w) with
  | Some tl =>
      if mouseDown (scrubber w)
      then upd_gallery (set_timeline (Some (Timeline_set_paused true tl))) w
      else w
  | None => w
  end.

(** A task's promise is fulfilled; its [.then] callback, if any, runs. *)
Definition fulfil (task : nat) (w : World) : World :=
  let w' := set_tasks (<[task := Fulfilled]> (tasks w)) w in
  match tasks w !! task with
  | Some (Pending true) => pauseIfHeld w'
  | _ => w'
  end.

(** [next()] / [previous()] from [await this.transitionTo(i)] on, up to
    the suspension. *)
Definition awaitTransition (task : nat) (targetIndex : Z) (w : World)
    : World :=
  match transitionTo targetIndex w with
  | Some (w', tid) => set_awaiting (awaiting w' ++ [(tid, task)]) w'
  | None => set_tasks (<[task := Rejected TypeError]> (tasks w)) w
  end.

(** [next()] / [previous()] after [await this.transitionTo(i)]. *)
Definition resumeAfterTransition (task : nat) (w : World) : World :=
  let w := preloadAround (currentIndex (gallery w)) w in
  let w :=
    if GALLERY_CONFIG.autoAdvance then upd_gallery startAutoAdvance w
    else w in
  fulfil task w.

Definition newTask (w : World) : World * nat :=
  let id := allocated w in
  (set_counters (randomCalls w) (S id)
     (set_tasks (<[id := Pending false]> (tasks w)) w),
   id).

(** [next()] up to its first suspension.  [None]: it returned at the
    guard; [Some id]: the task that goes on. *)
Definition next (w : World) : World * option nat :=
  let g := gallery w in
  if isTransitioning g || (imagePaths_length g <? 2)%Z then (w, None)
  else
    let (w, task) := newTask w in
    let w :=
      upd_gallery (fun g => set_isTransitioning true (stopAutoAdvance g)) w in
    let nextIndex := Z.rem (currentIndex g + 1) (imagePaths_length g) in
    if cached g nextIndex
    then (awaitTransition task nextIndex w, Some task)
    else (set_loads (loads w ++ [mkLoad nextIndex (NavLoad task)]) w,
          Some task).

(** [previous()] up to its first suspension. *)
Definition previous (w : World) : World * option nat :=
  let g := gallery w in
  if isTransitioning g || (imagePaths_length g <? 2)%Z then (w, None)
  else
    let (w, task) := newTask w in
    let w :=
      upd_gallery (fun g => set_isTransitioning true (stopAutoAdvance g)) w in
    let prevIndex :=
      Z.rem (currentIndex g - 1 + imagePaths_length g) (imagePaths_length g) in
    if cached g prevIndex
    then (awaitTransition task prevIndex w, Some task)
    else (set_loads (loads w ++ [mkLoad prevIndex (NavLoad task)]) w,
          Some task).

(** The [k]-th load in flight settles with a texture or an error. *)
Definition settleLoad (k : nat) (r : Texture + Error) (w : World) : World :=
  match loads w !! k with
  | None => w
  | Some ld =>
      let w := set_loads (delete k (loads w)) w in
      match ld_cont ld, r with
      | NavLoad task, inl texture =>
          awaitTransition task (ld_target ld)
            (upd_gallery
               (fun g => set_textures (<[ld_target ld := texture]> (textures g)) g)
               w)
      | NavLoad task, inr e =>
          set_tasks (<[task := Rejected e]> (tasks w)) w
      | PreloadLoad, inl texture =>
          upd_gallery
            (fun g => set_textures (<[ld_target ld := texture]> (textures g)) g)
            w
      | PreloadLoad, inr _ => w
      end
  end.

(** The [onComplete] callback of timeline [tl], and the continuations its
    [resolve()] releases. *)
Definition onComplete (tl : Timeline) (w : World) : World :=
  let g := gallery w in
  let w :=
    match currentSlide g with
    | Some s =>
        set_scene
          (filter (fun i => negb (i =? slide_id s)%nat) (scene w))
          (disposed w ++ [slide_id s]) w
    | None => w
    end in
  let w :=
    upd_gallery
      (fun g =>
         set_isTransitioning false
           (set_currentIndex (tl_targetIndex tl)
              (set_slides (nextSlide g) None g)))
      w in
  let ready := filter (fun p => (fst p =? tl_id tl)%nat) (awaiting w) in
  let rest := filter (fun p => negb (fst p =? tl_id tl)%nat) (awaiting w) in
  fold_left (fun w p => resumeAfterTransition (snd p) w) ready
    (set_awaiting rest w).

(** [togglePause()]. *)
Definition togglePause (w : World) : World :=
  let g := gallery w in
  match timeline g with
  | Some tl =>
      let p := negb (isPaused g) in
      upd_gallery
        (fun g => set_timeline (Some (Timeline_set_paused p tl))
                    (set_isPaused p g))
        w
  | None => w
  end.

(** [reset()]. *)
Definition reset (w : World) : World :=
  let w := upd_gallery stopAutoAdvance w in
  let g := gallery w in
  if negb (currentIndex g =? 0)%Z
  then fst (next (upd_gallery (set_currentIndex (imagePaths_length g - 1)) w))
  else w.

(** [new ImageGallery(root, imagePaths)]. *)
Definition ImageGallery_new (n : Z) : ImageGallery :=
  {| imagePaths_length := n; currentIndex := 0; textures := ∅;
     currentSlide := None; nextSlide := None; isTransitioning := false;
     isPaused := false; timeline := None; autoAdvanceTimer := false |}.

(** The program before [gallery.init()]. *)
Definition World_new (n : Z) : World :=
  {| gallery := ImageGallery_new n; scene := []; disposed := [];
     scrubber := mkScrubber 0 0 false false None;
     loads := []; awaiting := []; tasks := ∅;
     randomCalls := 0; allocated := 0 |}.

(** [gallery.init()] once its first load gave [texture1]. *)
Definition init (texture1 : Texture) (w : World) : World :=
  let dims1 :=
    calculatePlaneDimensions (image_width texture1) (image_height texture1) in
  let sid := allocated w in
  let slide :=
    Slide_set_time totalDuration
      (Slide_setTexture texture1
         (Slide_new sid (fst dims1) (snd dims1) PhaseIn (randomCalls w))) in
  let w :=
    set_counters (randomCalls w + Slide_draws (fst dims1) (snd dims1)) (S sid)
      (set_scene (scene w ++ [sid]) (disposed w)
         (upd_gallery
            (fun g =>
               set_slides (Some slide) (nextSlide g)
                 (set_textures (<[0%Z := texture1]> (textures g)) g))
            w)) in
  let w :=
    if (1 <? imagePaths_length (gallery w))%Z
    then preloadAround (currentIndex (gallery w)) w
    else w in
  if GALLERY_CONFIG.autoAdvance then upd_gallery startAutoAdvance w else w.

(** ** The timeline handle (gsap) *)

(** A tween of [Slide.transition()] at timeline progress [p]: [time] goes
    linearly from 0 to [totalDuration]. *)
Definition renderSlide (tl : Timeline) (s : Slide) : Slide :=
  if existsb (Nat.eqb (slide_id s)) (tl_tweens tl)
  then Slide_set_time (tl_progress tl * slide_totalDuration s) s
  else s.

(** [galleryInstance.timeline.progress(p)]. *)
Definition Timeline_progress (p : Q) (w : World) : World :=
  match timeline (gallery w) with
  | Some tl =>
      let tl' := Timeline_set_progress p tl in
      upd_gallery
        (fun g =>
           set_timeline (Some tl')
             (set_slides (option_map (renderSlide tl') (currentSlide g))
                         (option_map (renderSlide tl') (nextSlide g)) g))
        w
  | None => w
  end.

(** The ticker moves a timeline that is not paused by [d] of its
    progress. *)
Definition Timeline_tick (d : Q) (w : World) : World :=
  match timeline (gallery w) with
  | Some tl =>
      if tl_paused tl then w
      else Timeline_progress (MathUtils.clamp (tl_progress tl + d) 0 1) w
  | None => w
  end.

(** ** The scrubber *)

(** [stop()] and [resume()]. *)
Definition stop (w : World) : World :=
  match timeline (gallery w) with
  | Some tl => upd_gallery (set_timeline (Some (Timeline_set_paused true tl))) w
  | None => w
  end.

Definition resume (w : World) : World :=
  match timeline (gallery w) with
  | Some tl => upd_gallery (set_timeline (Some (Timeline_set_paused false tl))) w
  | None => w
  end.

(** [galleryInstance.next().then(pause)]: the callback is attached to the
    promise the call returned. *)
Definition thenPause (r : World * option nat) : World :=
  let (w, task) := r in
  match task with
  | None => pauseIfHeld w
  | Some id =>
      match tasks w !! id with
      | Some (Pending _) => set_tasks (<[id := Pending true]> (tasks w)) w
      | Some Fulfilled => pauseIfHeld w
      | _ => w
      end
  end.

Definition threshold : Q := 30.

(** The second half of [seek]: "Scrub the active timeline". *)
Definition scrub (dx : Q) (w : World) : World :=
  match timeline (gallery w) with
  | Some tl =>
      if transitionInitiated (scrubber w) then
        let progress := tl_progress tl in
        let effectiveDx :=
          match transitionDirection (scrubber w) with
          | Some DirPrevious => - dx
          | _ => dx
          end in
        let newProgress :=
          MathUtils.clamp (progress + effectiveDx * seekSpeed) 0 1 in
        Timeline_progress newProgress w
      else w
  | None => w
  end.

(** [seek(dx, totalDx)]. *)
Definition seek (dx totalDx : Q) (w : World) : World :=
  let g := gallery w in
  let s := scrubber w in
  let needsNewTimeline :=
    match timeline g with
    | None => true
    | Some tl => Qeq_bool (tl_progress tl) 1
    end in
  if needsNewTimeline && negb (transitionInitiated s)
     && negb (isTransitioning g)
  then
    if Qlt_le_dec threshold (Qabs totalDx) then
      let dir := if Qlt_le_dec 0 totalDx then DirNext else DirPrevious in
      let w :=
        set_scrubber
          (mkScrubber (_cx s) (_startX s) (mouseDown s) true (Some dir)) w in
      match dir with
      | DirNext => thenPause (next w)
      | DirPrevious => thenPause (previous w)
      end
    else scrub dx w
  else scrub dx w.

(** The listeners. *)
Definition mousedown (clientX : Q) (w : World) : World :=
  let w := set_scrubber (mkScrubber clientX clientX true false None) w in
  match timeline (gallery w) with
  | Some tl =>
      if Qlt_le_dec (tl_progress tl) 1 then
        set_scrubber (mkScrubber clientX clientX true true None) (stop w)
      else w
  | None => w
  end.

Definition mouseup (w : World) : World :=
  let s := scrubber w in
  resume (set_scrubber (mkScrubber (_cx s) (_startX s) false false None) w).

Definition mousemove (clientX : Q) (w : World) : World :=
  let s := scrubber w in
  if mouseDown s then
    let dx := clientX - _cx s in
    let totalDx := clientX - _startX s in
    seek dx totalDx
      (set_scrubber
         (mkScrubber clientX (_startX s) (mouseDown s)
            (transitionInitiated s) (transitionDirection s)) w)
  else w.

Definition touchstart (clientX : Q) (w : World) : World :=
  let s := scrubber w in
  let w :=
    set_scrubber (mkScrubber clientX clientX (mouseDown s) false None) w in
  match timeline (gallery w) with
  | Some tl =>
      if Qlt_le_dec (tl_progress tl) 1 then
        set_scrubber (mkScrubber clientX clientX (mouseDown s) true None)
          (stop w)
      else w
  | None => w
  end.

Definition touchend (w : World) : World :=
  let s := scrubber w in
  resume
    (set_scrubber (mkScrubber (_cx s) (_startX s) (mouseDown s) false None) w).

Definition touchmove (clientX : Q) (w : World) : World :=
  let s := scrubber w in
  let dx := clientX - _cx s in
  let totalDx := clientX - _startX s in
  seek dx totalDx
    (set_scrubber
       (mkScrubber clientX (_startX s) (mouseDown s)
          (transitionInitiated s) (transitionDirection s)) w).

(** ** Events *)

(** What can happen to the program: a key of [setupKeyboardControls], a
    pointer event, a texture load settling, the gsap ticker moving the
    timeline, gsap calling the timeline's [onComplete], the auto-advance
    timer firing. *)
Inductive Event : Type :=
| KeyNext | KeyPrevious | KeyTogglePause | KeyReset
| MouseDown (x : Q) | MouseUp | MouseMove (x : Q)
| TouchStart (x : Q) | TouchEnd | TouchMove (x : Q)
| LoadSettled (k : nat) (r : Texture + Error)
| Tick (d : Q)
| Complete
| AutoAdvance.

Definition handle (e : Event) (w : World) : World :=
  match e with
  | KeyNext => fst (next w)
  | KeyPrevious => fst (previous w)
  | KeyTogglePause => togglePause w
  | KeyReset => reset w
  | MouseDown x => mousedown x w
  | MouseUp => mouseup w
  | MouseMove x => mousemove x w
  | TouchStart x => touchstart x w
  | TouchEnd => touchend w
  | TouchMove x => touchmove x w
  | LoadSettled k r => settleLoad k r w
  | Tick d => Timeline_tick d w
  | Complete =>
      match timeline (gallery w) with
      | Some tl => onComplete tl w
      | None => w
      end
  | AutoAdvance =>
      if autoAdvanceTimer (gallery w) then fst (next w) else w
  end.

(** The program run on a list of events, oldest first. *)
Definition run (es : list Event) (w : World) : World :=
  fold_left (fun w e => handle e w) es w.

End Gallery.

(** ** Notions the properties are stated with *)

(** The two pieces of [ease], as a function of the normalised time [u]. *)
Definition easePiece (u : Q) : Q :=
  if Qlt_le_dec u 1.0 then 1.0 / 2.0 * u * u * u + 0.0
  else 1.0 / 2.0 * ((u - 2.0) * (u - 2.0) * (u - 2.0) + 2.0) + 0.0.

(** A vertex of the plane of the given size lies within its rectangle. *)
Definition inPlane (width height : Q) (v : Vector3) : Prop :=
  - (width / 2) <= vx v /\ vx v <= width / 2
  /\ - (height / 2) <= vy v /\ vy v <= height / 2.

(** All vertices of a face carry the same (delay, duration). *)
Definition sharedAnimation (face : list VertexData) : Prop :=
  forall a b, In a face -> In b face ->
    tDelay a == tDelay b /\ tDuration a == tDuration b.

(** The largest value [delay + duration] can approach: every term of the
    delay at its maximum, the jitter at [stretch * maxDuration]. *)
Definition latestFinish : Q :=
  maxDelayX + maxDelayY + stretch * maxDuration + maxDuration.

(** Two streams of draws: every call returns 0.99; the calls return
    0.0, 0.1, ..., 0.9 in turn. *)
Definition draws99 : nat -> Q := fun _ => 0.99.

Definition drawsCycle : nat -> Q :=
  fun k => inject_Z (Z.of_nat (k mod 10)) / 10.

(** Face [k] of a position attribute, and of a slide's geometry: three
    consecutive vertices. *)
Definition planeFace (k : nat) (positions : list Vector3) : list Vector3 :=
  firstn 3 (skipn (3 * k) positions).

Definition slideFace (k : nat) (s : Slide) : list VertexData :=
  firstn 3 (skipn (3 * k) (geometry s)).

(** [new Slide(100, 50, 'in')], the slide of an image twice as wide as
    high, built first (object 0, no draw made before). *)
Definition Slide_100x50 (rnd : nat -> Q) : Slide :=
  Slide_new rnd PlaneGeometry.positions 0 100 50 PhaseIn 0.

(** How the gallery's timeline handle can change in one step of the
    program: not at all, by pausing or resuming, by a progress within
    [0, 1] being set, or by a new timeline (at progress 0, playing) taking
    its place. *)
Inductive tlEvolves : option Timeline -> option Timeline -> Prop :=
| tlSame (t : option Timeline) : tlEvolves t t
| tlPaused (tl : Timeline) (b : bool) :
    tlEvolves (Some tl) (Some (Timeline_set_paused b tl))
| tlProgress (tl : Timeline) (p : Q) :
    0 <= p -> p <= 1 ->
    tlEvolves (Some tl) (Some (Timeline_set_progress p tl))
| tlNew (t : option Timeline) (tl : Timeline) :
    tl_progress tl = 0 -> tl_paused tl = false -> tlEvolves t (Some tl)
| tlTrans (t1 t2 t3 : option Timeline) :
    tlEvolves t1 t2 -> tlEvolves t2 t3 -> tlEvolves t1 t3.

(** The handle's progress lies within [0, 1]. *)
Definition progressInRange (t : option Timeline) : Prop :=
  match t with
  | Some tl => 0 <= tl_progress tl /\ tl_progress tl <= 1
  | None => True
  end.

(** Events that neither start nor end a gesture. *)
Definition withinGesture (e : Event) : Prop :=
  match e with
  | MouseDown _ | MouseUp | TouchStart _ | TouchEnd => False
  | _ => True
  end.

(** The pointer moves, or time passes, while the button stays down. *)
Definition whileHeld (e : Event) : Prop :=
  match e with
  | MouseMove _ | Tick _ => True
  | _ => False
  end.

(** A navigation command. *)
Definition isNavigation (e : Event) : Prop :=
  match e with
  | KeyNext | KeyPrevious => True
  | _ => False
  end.

(** ** Concrete runs

    The program with the real plane geometry, every draw of [Math.random]
    equal to 0.99, and every image 200 x 100 pixels. *)

Definition image2x1 : Texture := mkTexture 200 100.

Definition handle99 : Event -> World -> World :=
  handle draws99 PlaneGeometry.positions.

Definition run99 : list Event -> World -> World :=
  run draws99 PlaneGeometry.positions.

(** A gallery of [n] images once [init()] has shown the first one; its
    preloads are in flight. *)
Definition started (n : Z) : World :=
  init draws99 PlaneGeometry.positions image2x1 (World_new n).

(** Two images, the second one preloaded, nothing in motion. *)
Definition idle2 : World :=
  handle99 (LoadSettled 1 (inl image2x1)) (started 2).


(** Four images; the gallery went from the first image to the second and
    rests there. *)
Definition atSecondOf4 : World :=
  run99 [LoadSettled 0 (inl image2x1); KeyNext; Tick 1; Complete] (started 4).

(** From there, the third image arrived and [next()] was called: the
    gallery is in the middle of the transition from the second image to the
    third. *)
Definition midTransition4 : World :=
  run99 [LoadSettled 0 (inl image2x1); KeyNext; Tick 0.5] atSecondOf4.

(** Two images, both in the cache; press at x = 0, move to x = 40: the
    gesture is decided. *)
Definition dragStarted : World :=
  run99 [MouseDown 0; MouseMove 40] idle2.

(** C9 as it is stated: [reset()] starts a transition of its own to index
    0, and the index is 0 once that transition has completed. *)
Definition resetTransitionsToFirst (rnd : nat -> Q)
    (plane : Q -> Q -> Q -> Q -> list Vector3) (w : World) : Prop :=
  let w' := reset rnd plane w in
  (exists tl, timeline (gallery w') = Some tl
              /\ (allocated w <= tl_id tl)%nat
              /\ tl_targetIndex tl = 0%Z)
  /\ currentIndex (gallery (handle rnd plane Complete w')) = 0%Z.

(** The flag is set, yet nothing is left that could clear it: no timeline
    to complete, no load of [next()] / [previous()] in flight. *)
Definition stuck (w : World) : Prop :=
  isTransitioning (gallery w) = true
  /\ timeline (gallery w) = None
  /\ Forall (fun ld => ld_cont ld = PreloadLoad) (loads w).

(** A gallery differs from another at most in its timeline handle. *)
Definition sameButTimeline (g g' : ImageGallery) : Prop :=
  set_timeline (timeline g) g' = g.



(** ** More of the script: shuffling, and the shader's vertex position *)

Section Shuffle.

Context {A : Type}.

Variable Math_random : nat -> Q.

(** [[shuffled[i], shuffled[j]] = [shuffled[j], shuffled[i]]].  [None]
    where an index lies outside the array (there JavaScript would read
    [undefined] and grow the array, which the draws of [Math.random], in
    [0, 1), never cause). *)
Definition swapAt (i j : nat) (shuffled : list A) : option (list A) :=
  match shuffled !! i, shuffled !! j with
  | Some ai, Some aj => Some (<[j := ai]> (<[i := aj]> shuffled))
  | _, _ => None
  end.

(** The loop [for (let i = shuffled.length - 1; i > 0; i--)], from [i]
    down, [k] calls of [Math.random()] having been made. *)
Fixpoint shuffleFrom (i k : nat) (shuffled : list A) : option (list A) :=
  match i with
  | O => Some shuffled
  | S i' =>
      let j :=
        Z.to_nat (Qfloor (Math_random k * inject_Z (Z.of_nat (i + 1)))) in
      match swapAt i j shuffled with
      | Some shuffled' => shuffleFrom i' (S k) shuffled'
      | None => None
      end
  end.

(** [shuffleArray(array)]. *)
Definition shuffleArray (k : nat) (array : list A) : option (list A) :=
  shuffleFrom (length array - 1) k array.

End Shuffle.





(** ** What every state of a started gallery satisfies *)

(** An index into [imagePaths]. *)
Definition indexOK (n i : Z) : Prop := (0 <= i < n)%Z.

(** A slide the gallery owns: its time within [0, totalDuration], a texture
    bound, the phase uniform in step with the phase. *)
Definition slideOK (s : Slide) : Prop :=
  0 <= uTime s /\ uTime s <= totalDuration
  /\ slide_totalDuration s = totalDuration
  /\ is_Some (uTexture s)
  /\ uPhase s = uPhaseOf (animationPhase s).

(** The gallery object: [n] images, the index within them, the textures
    at the indices [C] in the cache, the slides in order, the timeline (if
    any) towards an image that exists and at a progress within [0, 1], no
    auto-advance timer armed. *)
Definition galleryOK (n : Z) (C : Z -> Prop) (g : ImageGallery) : Prop :=
  imagePaths_length g = n
  /\ indexOK n (currentIndex g)
  /\ (forall i, C i -> is_Some (textures g !! i))
  /\ (forall s, currentSlide g = Some s -> slideOK s)
  /\ (forall s, nextSlide g = Some s -> slideOK s)
  /\ (forall tl, timeline g = Some tl ->
        indexOK n (tl_targetIndex tl)
        /\ 0 <= tl_progress tl /\ tl_progress tl <= 1)
  /\ autoAdvanceTimer g = false.

(** A load in flight: one that [next()] / [previous()] waits for is for
    an image that exists. *)
Definition loadOK (n : Z) (ld : Load) : Prop :=
  match ld_cont ld with
  | NavLoad _ => indexOK n (ld_target ld)
  | PreloadLoad => True
  end.

Definition wellFormed (n : Z) (C : Z -> Prop) (w : World) : Prop :=
  galleryOK n C (gallery w) /\ Forall (loadOK n) (loads w).

(** * Properties *)

(** Evaluation of a concrete run, by need: the geometry of the slides is
    never built. *)
Ltac evaluate := with_strategy transparent [gmap_empty] lazy.

(** ** Arithmetic helpers *)

Lemma clamp_range (v lo hi : Q) :
  lo <= hi -> lo <= MathUtils.clamp v lo hi /\ MathUtils.clamp v lo hi <= hi.
Proof.
  intros Hlh. unfold MathUtils.clamp. split.
  - apply Q.le_max_l.
  - apply Q.max_lub; [exact Hlh | apply Q.le_min_l].
Qed.

Lemma glsl_clamp_low (x lo hi : Q) :
  lo <= hi -> x <= lo -> MathUtils.glsl_clamp x lo hi == lo.
Proof.
  intros Hlh Hx. unfold MathUtils.glsl_clamp.
  rewrite (Q.max_r x lo) by exact Hx. apply Q.min_l; exact Hlh.
Qed.

Lemma glsl_clamp_high (x lo hi : Q) :
  lo <= hi -> hi <= x -> MathUtils.glsl_clamp x lo hi == hi.
Proof.
  intros Hlh Hx. unfold MathUtils.glsl_clamp.
  apply Q.min_r. apply Qle_trans with x; [exact Hx | apply Q.le_max_l].
Qed.

Lemma glsl_clamp_mono (x y lo hi : Q) :
  x <= y -> MathUtils.glsl_clamp x lo hi <= MathUtils.glsl_clamp y lo hi.
Proof.
  intros Hxy. unfold MathUtils.glsl_clamp.
  apply Q.min_le_compat_r. apply Q.max_le_compat_r. exact Hxy.
Qed.

Lemma cube_mono (x y : Q) : x <= y -> x * x * x <= y * y * y.
Proof.
  intros Hxy.
  assert (Hsq : 0 <= (2 * x + y) * (2 * x + y) + 3 * (y * y)) by nra.
  assert (Hp : 0 <= (y - x) * ((2 * x + y) * (2 * x + y) + 3 * (y * y))).
  { apply Qmult_le_0_compat; [lra | exact Hsq]. }
  assert (E : (y - x) * ((2 * x + y) * (2 * x + y) + 3 * (y * y))
              == 4 * (y * y * y - x * x * x)) by ring.
  rewrite E in Hp.
  set (a := x * x * x) in *. set (b := y * y * y) in *. lra.
Qed.

Lemma ease_easePiece (t d : Q) : ease t 0.0 1.0 d = easePiece (t / (d / 2.0)).
Proof. reflexivity. Qed.

Lemma easePiece_first (u : Q) :
  1.0 / 2.0 * u * u * u + 0.0 == (1 # 2) * (u * u * u).
Proof. field. Qed.

Lemma easePiece_second (u : Q) :
  1.0 / 2.0 * ((u - 2.0) * (u - 2.0) * (u - 2.0) + 2.0) + 0.0
  == (1 # 2) * ((u - 2) * (u - 2) * (u - 2)) + 1.
Proof. field. Qed.

Lemma easePiece_mono (u v : Q) : u <= v -> easePiece u <= easePiece v.
Proof.
  intros Huv. unfold easePiece.
  destruct (Qlt_le_dec u 1.0) as [Hu | Hu];
    destruct (Qlt_le_dec v 1.0) as [Hv | Hv];
    rewrite ?easePiece_first, ?easePiece_second.
  - pose proof (cube_mono u v Huv) as Hc.
    set (a := u * u * u) in *. set (b := v * v * v) in *. lra.
  - assert (Hu1 : u <= 1) by lra.
    pose proof (cube_mono u 1 Hu1) as H1.
    assert (Hv1 : -(1) <= v - 2) by lra.
    pose proof (cube_mono (-(1)) (v - 2) Hv1) as H2.
    set (a := u * u * u) in *.
    set (b := (v - 2) * (v - 2) * (v - 2)) in *.
    assert (E1 : 1 * 1 * 1 == 1) by reflexivity.
    assert (E2 : -(1) * -(1) * -(1) == -(1)) by reflexivity.
    rewrite E1 in H1. rewrite E2 in H2. lra.
  - lra.
  - assert (Huv2 : u - 2 <= v - 2) by lra.
    pose proof (cube_mono (u - 2) (v - 2) Huv2) as Hc.
    set (a := (u - 2) * (u - 2) * (u - 2)) in *.
    set (b := (v - 2) * (v - 2) * (v - 2)) in *. lra.
Qed.

Lemma easePiece_0 (u : Q) : u == 0 -> easePiece u == 0.
Proof.
  intros Hu. unfold easePiece. destruct (Qlt_le_dec u 1.0) as [H | H].
  - rewrite easePiece_first, Hu. reflexivity.
  - lra.
Qed.

Lemma easePiece_2 (u : Q) : u == 2 -> easePiece u == 1.
Proof.
  intros Hu. unfold easePiece. destruct (Qlt_le_dec u 1.0) as [H | H].
  - lra.
  - rewrite easePiece_second, Hu. reflexivity.
Qed.

Lemma normalised_time (t d : Q) : 0 < d -> t / (d / 2.0) == 2 * (t / d).
Proof. intros Hd. field. lra. Qed.

Lemma easePiece_easeInOutCubic (s : Q) :
  easePiece (2 * s) == easeInOutCubic s.
Proof.
  unfold easePiece, easeInOutCubic.
  destruct (Qlt_le_dec (2 * s) 1.0) as [H | H];
    destruct (Qlt_le_dec s 0.5) as [H' | H']; try lra.
  - field.
  - field.
Qed.

Lemma easePiece_compat (u v : Q) : u == v -> easePiece u == easePiece v.
Proof.
  intros Huv. apply Qle_antisym; apply easePiece_mono; lra.
Qed.

(** ** The vertex shader's progress (C6) *)

(** C6.  For a vertex with attributes (delay, duration), duration > 0, the
    progress the shader evaluates is
    [easeInOutCubic(clamp(time - delay, 0, duration) / duration)]; it is 0
    whenever [time <= delay], exactly 1 whenever
    [time >= delay + duration], and monotonic non-decreasing in [time]. *)
Theorem tProgress_contract (delay duration : Q) :
  0 < duration ->
  (forall time,
     tProgress time delay duration ==
     easeInOutCubic (MathUtils.glsl_clamp (time - delay) 0 duration / duration))
  /\ (forall time, time <= delay -> tProgress time delay duration == 0)
  /\ (forall time, delay + duration <= time ->
        tProgress time delay duration == 1)
  /\ (forall t1 t2, t1 <= t2 ->
        tProgress t1 delay duration <= tProgress t2 delay duration).
Proof.
  intros Hd. unfold tProgress. repeat split.
  - intros time. rewrite ease_easePiece.
    rewrite <- easePiece_easeInOutCubic.
    apply easePiece_compat.
    rewrite normalised_time by exact Hd.
    assert (E : MathUtils.glsl_clamp (time - delay) 0.0 duration
                == MathUtils.glsl_clamp (time - delay) 0 duration).
    { unfold MathUtils.glsl_clamp.
      assert (Z0 : 0.0 == 0) by reflexivity. rewrite Z0. reflexivity. }
    rewrite E. reflexivity.
  - intros time Ht. rewrite ease_easePiece. apply easePiece_0.
    rewrite (glsl_clamp_low (time - delay) 0.0 duration) by lra.
    field. lra.
  - intros time Ht. rewrite ease_easePiece. apply easePiece_2.
    rewrite (glsl_clamp_high (time - delay) 0.0 duration) by lra.
    field. lra.
  - intros t1 t2 Ht. rewrite !ease_easePiece. apply easePiece_mono.
    unfold Qdiv. apply Qmult_le_compat_r.
    + apply glsl_clamp_mono. lra.
    + apply Qinv_le_0_compat. apply Qlt_le_weak.
      apply Qlt_shift_div_l; lra.
Qed.

Lemma tProgress_contract_witness :
  0 < 1
  /\ (forall time, time <= 0.5 -> tProgress time 0.5 1 == 0)
  /\ (forall time, 0.5 + 1 <= time -> tProgress time 0.5 1 == 1).
Proof.
  split; [reflexivity |].
  split; apply (tProgress_contract 0.5 1); reflexivity.
Defined.

(** ** The slide constructor's timing data (C2, C3, C5) *)

Lemma mapLinear_fraction (x a1 a2 b1 b2 : Q) :
  a1 < a2 ->
  MathUtils.mapLinear x a1 a2 b1 b2
  == b1 + (x - a1) / (a2 - a1) * (b2 - b1).
Proof. intros H. unfold MathUtils.mapLinear. field. lra. Qed.

Lemma fraction_range (x a1 a2 : Q) :
  a1 < a2 -> a1 <= x -> x <= a2 ->
  0 <= (x - a1) / (a2 - a1) /\ (x - a1) / (a2 - a1) <= 1.
Proof.
  intros H H1 H2. split.
  - apply Qle_shift_div_l; lra.
  - apply Qle_shift_div_r; lra.
Qed.

Lemma mapLinear_up (x a1 a2 b1 b2 : Q) :
  a1 < a2 -> a1 <= x -> x <= a2 -> b1 <= b2 ->
  b1 <= MathUtils.mapLinear x a1 a2 b1 b2
  /\ MathUtils.mapLinear x a1 a2 b1 b2 <= b2.
Proof.
  intros H H1 H2 Hb. rewrite mapLinear_fraction by exact H.
  destruct (fraction_range x a1 a2 H H1 H2) as [F0 F1].
  set (t := (x - a1) / (a2 - a1)) in *. split; nra.
Qed.

Lemma mapLinear_down (x a1 a2 b1 b2 : Q) :
  a1 < a2 -> a1 <= x -> x <= a2 -> b2 <= b1 ->
  b2 <= MathUtils.mapLinear x a1 a2 b1 b2
  /\ MathUtils.mapLinear x a1 a2 b1 b2 <= b1.
Proof.
  intros H H1 H2 Hb. rewrite mapLinear_fraction by exact H.
  destruct (fraction_range x a1 a2 H H1 H2) as [F0 F1].
  set (t := (x - a1) / (a2 - a1)) in *. split; nra.
Qed.

Lemma half_is_div2 (w : Q) : w * 0.5 == w / 2.
Proof. field. Qed.

Lemma faceCentroid_inPlane (width height : Q) (v0 v1 v2 : Vector3) :
  inPlane width height v0 -> inPlane width height v1 ->
  inPlane width height v2 ->
  inPlane width height (faceCentroid v0 v1 v2).
Proof.
  unfold inPlane, faceCentroid. cbn [vx vy vadd divideScalar].
  intros (A1 & A2 & A3 & A4) (B1 & B2 & B3 & B4) (C1 & C2 & C3 & C4).
  set (hw := width / 2) in *. set (hh := height / 2) in *.
  assert (Ex : (0 + vx v0 + vx v1 + vx v2) / 3
               == (1 # 3) * (vx v0 + vx v1 + vx v2)) by field.
  assert (Ey : (0 + vy v0 + vy v1 + vy v2) / 3
               == (1 # 3) * (vy v0 + vy v1 + vy v2)) by field.
  rewrite Ex, Ey. repeat split; lra.
Qed.

Section BuilderProperties.

Variable Math_random : nat -> Q.

Lemma faceDuration_range (n : nat) :
  0 <= Math_random n -> Math_random n < 1 ->
  minDuration <= faceDuration Math_random n
  /\ faceDuration Math_random n < maxDuration.
Proof.
  intros H0 H1. unfold faceDuration, MathUtils.randFloat.
  unfold minDuration, maxDuration. split; lra.
Qed.

Lemma faceDelayX_range (width : Q) (c : Vector3) :
  0 < width -> - (width / 2) <= vx c -> vx c <= width / 2 ->
  0 <= faceDelayX width c /\ faceDelayX width c <= maxDelayX.
Proof.
  intros Hw H1 H2. unfold faceDelayX.
  pose proof (half_is_div2 width) as Eh.
  assert (Z0 : 0.0 == 0) by reflexivity.
  destruct (mapLinear_up (vx c) (- width * 0.5) (width * 0.5) 0.0 maxDelayX)
    as [L U]; unfold maxDelayX in *; try lra.
Qed.

Lemma faceDelayY_range (height : Q) (phase : Phase) (c : Vector3) :
  0 < height -> - (height / 2) <= vy c -> vy c <= height / 2 ->
  0 <= faceDelayY height phase c /\ faceDelayY height phase c <= maxDelayY.
Proof.
  intros Hh H1 H2. unfold faceDelayY.
  pose proof (half_is_div2 height) as Eh.
  pose proof (Qabs_nonneg (vy c)) as Ha.
  assert (Hb : Qabs (vy c) <= height / 2).
  { apply Qabs_Qle_condition. split; lra. }
  destruct phase.
  - destruct (mapLinear_up (Qabs (vy c)) 0 (height * 0.5) 0.0 maxDelayY)
      as [L U]; unfold maxDelayY in *; try lra.
  - destruct (mapLinear_down (Qabs (vy c)) 0 (height * 0.5) maxDelayY 0.0)
      as [L U]; unfold maxDelayY in *; try lra.
Qed.

(** What holds of every vertex of every face of a plane, for draws in
    [0, 1): the delay is not negative, the duration lies in
    [minDuration, maxDuration), and the vertex finishes before
    [latestFinish]. *)
Lemma faceVertex_timing (width height : Q) (phase : Phase)
    (v0 v1 v2 : Vector3) (n v : nat) (p : Vector3) :
  0 < width -> 0 < height ->
  inPlane width height v0 -> inPlane width height v1 ->
  inPlane width height v2 ->
  0 <= Math_random n -> Math_random n < 1 ->
  0 <= Math_random (n + 1 + v) -> Math_random (n + 1 + v) < 1 ->
  let d := faceVertex Math_random width height phase v0 v1 v2 n v p in
  0 <= tDelay d /\ 0 < tDuration d
  /\ minDuration <= tDuration d /\ tDuration d < maxDuration
  /\ tDelay d + tDuration d < latestFinish.
Proof.
  intros Hw Hh P0 P1 P2 R0 R1 J0 J1 d.
  destruct (faceCentroid_inPlane width height v0 v1 v2 P0 P1 P2)
    as (Cx1 & Cx2 & Cy1 & Cy2).
  destruct (faceDuration_range n R0 R1) as [D0 D1].
  destruct (faceDelayX_range width (faceCentroid v0 v1 v2) Hw Cx1 Cx2)
    as [X0 X1].
  destruct (faceDelayY_range height phase (faceCentroid v0 v1 v2) Hh Cy1 Cy2)
    as [Y0 Y1].
  unfold d, tDelay, tDuration, faceVertex. cbn [aAnimation fst snd].
  set (dur := faceDuration Math_random n) in *.
  set (dx := faceDelayX width (faceCentroid v0 v1 v2)) in *.
  set (dy := faceDelayY height phase (faceCentroid v0 v1 v2)) in *.
  set (r := Math_random (n + 1 + v)) in *.
  unfold latestFinish, minDuration, maxDuration, maxDelayX, maxDelayY,
    stretch in *.
  assert (Hj0 : 0 <= r * 0.11 * dur) by nra.
  assert (Hj1 : r * 0.11 * dur < 0.11 * 1.2) by nra.
  repeat split; lra.
Qed.

End BuilderProperties.

Lemma processFaces_face (rnd : nat -> Q) (width height : Q) (phase : Phase)
    (k : nat) :
  forall (positions : list Vector3) (n : nat) (v0 v1 v2 : Vector3),
    planeFace k positions = [v0; v1; v2] ->
    firstn 3 (skipn (3 * k) (processFaces rnd width height phase positions n))
    = processFace rnd width height phase v0 v1 v2 (n + k * drawsPerFace).
Proof.
  unfold planeFace. induction k as [| k IH]; intros positions n v0 v1 v2 Hf.
  - destruct positions as [| a [| b [| c rest]]]; try discriminate.
    cbn in Hf. injection Hf as -> -> ->.
    cbn [Nat.mul skipn processFaces]. replace (n + 0)%nat with n by lia.
    reflexivity.
  - replace (3 * S k)%nat with (S (S (S (3 * k)))) in * by lia.
    destruct positions as [| a [| b [| c rest]]];
      try (cbn in Hf; destruct (3 * k)%nat; discriminate).
    cbn [skipn] in Hf. cbn [processFaces processFace app skipn].
    rewrite (IH rest (n + drawsPerFace)%nat v0 v1 v2 Hf).
    replace (n + drawsPerFace + k * drawsPerFace)%nat
      with (n + S k * drawsPerFace)%nat by lia.
    reflexivity.
Qed.

(** C3 (as amended).  [totalDuration] is
    [maxDuration + maxDelayX + maxDelayY + stretch]; it is the same for
    every slide, whatever the draws of [Math.random], the geometry and the
    phase; with the constants of the code its value is 2.335. *)
Theorem totalDuration_constant :
  totalDuration = maxDuration + maxDelayX + maxDelayY + stretch
  /\ totalDuration == 2.335
  /\ forall (rnd : nat -> Q) (plane : Q -> Q -> Q -> Q -> list Vector3)
            (id : nat) (width height : Q) (phase : Phase) (n : nat),
       slide_totalDuration (Slide_new rnd plane id width height phase n)
       = totalDuration.
Proof.
  split; [reflexivity |]. split; [reflexivity |]. intros. reflexivity.
Qed.

(** In binary64 too the sum is the double written 2.335, and not the
    double written 2.135. *)
#[warnings="-inexact-float"]
Lemma totalDuration_binary64_value :
  PrimFloat.eqb totalDuration_binary64 2.335%float = true
  /\ PrimFloat.eqb totalDuration_binary64 2.135%float = false.
Proof. split; reflexivity. Qed.

(** C3 as stated fails: the sum of the four constants is not 2.135. *)
Lemma totalDuration_is_not_2135 : ~ totalDuration == 2.135.
Proof. intros H. vm_compute in H. discriminate H. Qed.

(** C5 (as amended).  For face [k] of a slide, whose first draw is number
    [m = n + 10 k]: the duration is drawn once (draw [m]) and all three
    vertices carry it; the delay of vertex [v] is
    [delayX + delayY + r * stretch * duration] with a draw [r] of its own
    (draw [m + 1 + v]), so the jitter is drawn three times per face. *)
Theorem slide_face_animation (rnd : nat -> Q)
    (plane : Q -> Q -> Q -> Q -> list Vector3) (id : nat) (width height : Q)
    (phase : Phase) (n k : nat) (v0 v1 v2 : Vector3) :
  planeFace k (plane width height (width * 2) (height * 2)) = [v0; v1; v2] ->
  let m := (n + k * drawsPerFace)%nat in
  let centroid := faceCentroid v0 v1 v2 in
  let duration := faceDuration rnd m in
  let base := faceDelayX width centroid + faceDelayY height phase centroid in
  map aAnimation (slideFace k (Slide_new rnd plane id width height phase n))
  = [ (base + rnd (m + 1 + 0)%nat * stretch * duration, duration);
      (base + rnd (m + 1 + 1)%nat * stretch * duration, duration);
      (base + rnd (m + 1 + 2)%nat * stretch * duration, duration) ].
Proof.
  intros Hf m centroid duration base. unfold slideFace, Slide_new.
  cbn [geometry]. rewrite (processFaces_face _ _ _ _ _ _ _ v0 v1 v2 Hf).
  reflexivity.
Qed.

Lemma slide_face_animation_witness :
  exists v0 v1 v2 : Vector3,
    planeFace 0 (PlaneGeometry.positions 100 50 (100 * 2) (50 * 2))
    = [v0; v1; v2]
    /\ map aAnimation
         (slideFace 0
            (Slide_new drawsCycle PlaneGeometry.positions 0 100 50 PhaseIn 0))
       = map aAnimation
           (processFace drawsCycle 100 50 PhaseIn v0 v1 v2 0).
Proof.
  do 3 eexists. split.
  - lazy. reflexivity.
  - apply (slide_face_animation drawsCycle PlaneGeometry.positions 0 100 50
             PhaseIn 0 0).
    lazy. reflexivity.
Defined.

(** C5 as stated fails: with the draws 0.0, 0.1, 0.2, ... the vertices of
    the first face of [new Slide(100, 50, 'in')] carry three different
    delays. *)
Lemma jitter_differs_within_face :
  ~ sharedAnimation (slideFace 0 (Slide_100x50 drawsCycle)).
Proof.
  intros H. unfold sharedAnimation in H.
  remember (slideFace 0 (Slide_100x50 drawsCycle)) as face eqn:E.
  lazy in E. subst face.
  destruct (H _ _ (or_introl eq_refl) (or_intror (or_introl eq_refl)))
    as [Hd _].
  vm_compute in Hd. discriminate Hd.
Qed.

(** C2, at the failing input.  [new Slide(100, 50, 'in')] with every draw
    equal to 0.99: the first vertex of face 398 (the upper triangle of the
    top right cell) has [delay >= 0] and [duration > 0], but
    [delay + duration] exceeds [totalDuration], so at
    [time = totalDuration] its progress is still below 1. *)
Theorem face_finishes_after_totalDuration :
  (forall k, 0 <= draws99 k /\ draws99 k < 1)
  /\ exists d : VertexData,
       slideFace 398 (Slide_100x50 draws99) !! 0%nat = Some d
       /\ 0 <= tDelay d /\ 0 < tDuration d
       /\ totalDuration < tDelay d + tDuration d
       /\ tProgress totalDuration (tDelay d) (tDuration d) < 1.
Proof.
  split.
  - intros k. unfold draws99. split; [discriminate | reflexivity].
  - eexists. split; [lazy; reflexivity |].
    repeat split; try (vm_compute; reflexivity); vm_compute; discriminate.
Qed.

(** ** The gallery and the scrubber *)

Section GalleryProperties.

Variable rnd : nat -> Q.
Variable plane : Q -> Q -> Q -> Q -> list Vector3.

Lemma next_guard (w : World) :
  isTransitioning (gallery w) || (imagePaths_length (gallery w) <? 2)%Z = true ->
  next rnd plane w = (w, None).
Proof. intros G. unfold next. rewrite G. reflexivity. Qed.

Lemma previous_guard (w : World) :
  isTransitioning (gallery w) || (imagePaths_length (gallery w) <? 2)%Z = true ->
  previous rnd plane w = (w, None).
Proof. intros G. unfold previous. rewrite G. reflexivity. Qed.

(** C1.  In every state with [isTransitioning] set, and in every state of a
    gallery of fewer than 2 images, [next()] and [previous()] return at
    their guard: the whole state (index, slides, timeline, tasks, loads,
    allocations) is what it was, and no task goes on. *)
Theorem navigation_dropped (w : World) :
  isTransitioning (gallery w) = true
  \/ (imagePaths_length (gallery w) < 2)%Z ->
  next rnd plane w = (w, None) /\ previous rnd plane w = (w, None).
Proof.
  intros H.
  assert (G : isTransitioning (gallery w)
              || (imagePaths_length (gallery w) <? 2)%Z = true).
  { destruct H as [H | H].
    - rewrite H. reflexivity.
    - apply orb_true_iff. right. apply Z.ltb_lt. exact H. }
  split; [apply next_guard | apply previous_guard]; exact G.
Qed.

End GalleryProperties.

Lemma navigation_dropped_witness :
  (isTransitioning (gallery (World_new 1)) = true
   \/ (imagePaths_length (gallery (World_new 1)) < 2)%Z)
  /\ next draws99 PlaneGeometry.positions (World_new 1) = (World_new 1, None)
  /\ previous draws99 PlaneGeometry.positions (World_new 1)
     = (World_new 1, None).
Proof.
  assert (H : isTransitioning (gallery (World_new 1)) = true
              \/ (imagePaths_length (gallery (World_new 1)) < 2)%Z)
    by (right; reflexivity).
  split; [exact H |].
  exact (navigation_dropped draws99 PlaneGeometry.positions (World_new 1) H).
Defined.

Lemma progressInRange_evolves (t t' : option Timeline) :
  tlEvolves t t' -> progressInRange t -> progressInRange t'.
Proof.
  induction 1 as [t | tl b | tl p H0 H1 | t tl Hp Hq | t1 t2 t3 _ IH1 _ IH2];
    intros Hr; cbn in *; auto.
  rewrite Hp. split; discriminate.
Qed.


Section Invariants.

Variable rnd : nat -> Q.
Variable plane : Q -> Q -> Q -> Q -> list Vector3.

Lemma pauseIfHeld_frame (w : World) :
  scrubber (pauseIfHeld w) = scrubber w
  /\ tlEvolves (timeline (gallery w)) (timeline (gallery (pauseIfHeld w)))
  /\ isTransitioning (gallery (pauseIfHeld w)) = isTransitioning (gallery w).
Proof.
  unfold pauseIfHeld. destruct (timeline (gallery w)) as [tl |] eqn:E.
  - destruct (mouseDown (scrubber w)); cbn; rewrite ?E;
      repeat split; constructor.
  - rewrite E. repeat split; constructor.
Qed.

Lemma fulfil_frame (task : nat) (w : World) :
  scrubber (fulfil task w) = scrubber w
  /\ tlEvolves (timeline (gallery w)) (timeline (gallery (fulfil task w)))
  /\ isTransitioning (gallery (fulfil task w)) = isTransitioning (gallery w).
Proof.
  unfold fulfil.
  destruct (tasks w !! task) as [[[|] | |] |];
    try (repeat split; constructor).
  apply (pauseIfHeld_frame (set_tasks _ w)).
Qed.

Lemma resumeAfterTransition_frame (task : nat) (w : World) :
  scrubber (resumeAfterTransition task w) = scrubber w
  /\ tlEvolves (timeline (gallery w))
       (timeline (gallery (resumeAfterTransition task w)))
  /\ isTransitioning (gallery (resumeAfterTransition task w))
     = isTransitioning (gallery w).
Proof.
  unfold resumeAfterTransition. cbv [GALLERY_CONFIG.autoAdvance].
  apply (fulfil_frame task (preloadAround _ w)).
Qed.

Lemma resume_all_frame (l : list (nat * nat)) :
  forall w : World,
    let w' := fold_left (fun w p => resumeAfterTransition (snd p) w) l w in
    scrubber w' = scrubber w
    /\ tlEvolves (timeline (gallery w)) (timeline (gallery w'))
    /\ isTransitioning (gallery w') = isTransitioning (gallery w).
Proof.
  induction l as [| p l IH]; intros w; cbn.
  - repeat split; constructor.
  - destruct (IH (resumeAfterTransition (snd p) w)) as (S1 & T1 & I1).
    destruct (resumeAfterTransition_frame (snd p) w) as (S2 & T2 & I2).
    split; [congruence |]. split; [| congruence].
    eapply tlTrans; eassumption.
Qed.

Lemma onComplete_frame (tl : Timeline) (w : World) :
  scrubber (onComplete tl w) = scrubber w
  /\ tlEvolves (timeline (gallery w)) (timeline (gallery (onComplete tl w))).
Proof.
  unfold onComplete.
  match goal with
  | |- context [fold_left ?f ?l ?w0] =>
      destruct (resume_all_frame l w0) as (S1 & T1 & _)
  end.
  cbv zeta in S1, T1. split.
  - rewrite S1. destruct (currentSlide (gallery w)); reflexivity.
  - destruct (currentSlide (gallery w)); exact T1.
Qed.

Lemma transitionTo_frame (targetIndex : Z) (w w' : World) (tid : nat) :
  transitionTo rnd plane targetIndex w = Some (w', tid) ->
  scrubber w' = scrubber w
  /\ tasks w' = tasks w
  /\ awaiting w' = awaiting w
  /\ loads w' = loads w
  /\ tid = S (allocated w)
  /\ is_Some (nextSlide (gallery w'))
  /\ currentIndex (gallery w') = currentIndex (gallery w)
  /\ isTransitioning (gallery w') = isTransitioning (gallery w)
  /\ imagePaths_length (gallery w') = imagePaths_length (gallery w)
  /\ textures (gallery w') = textures (gallery w)
  /\ exists tl, timeline (gallery w') = Some tl
                /\ tl_id tl = tid /\ tl_progress tl = 0
                /\ tl_paused tl = false /\ tl_targetIndex tl = targetIndex.
Proof.
  unfold transitionTo. destruct (textures (gallery w) !! targetIndex);
    [| discriminate].
  intros H. injection H as <- <-. cbn.
  repeat split; eauto. eexists. repeat split.
Qed.

Lemma awaitTransition_frame (task : nat) (targetIndex : Z) (w : World) :
  scrubber (awaitTransition rnd plane task targetIndex w) = scrubber w
  /\ tlEvolves (timeline (gallery w))
       (timeline (gallery (awaitTransition rnd plane task targetIndex w)))
  /\ isTransitioning (gallery (awaitTransition rnd plane task targetIndex w))
     = isTransitioning (gallery w).
Proof.
  unfold awaitTransition.
  destruct (transitionTo rnd plane targetIndex w) as [[w' tid] |] eqn:E.
  - destruct (transitionTo_frame _ _ _ _ E)
      as (S1 & _ & _ & _ & _ & _ & _ & I1 & _ & _ & tl & T1 & _ & P1 & Q1 & _).
    cbn. rewrite T1. repeat split; try assumption.
    apply tlNew; assumption.
  - repeat split; constructor.
Qed.

Lemma next_frame (w : World) :
  scrubber (fst (next rnd plane w)) = scrubber w
  /\ tlEvolves (timeline (gallery w))
       (timeline (gallery (fst (next rnd plane w)))).
Proof.
  unfold next.
  destruct (isTransitioning (gallery w) || (imagePaths_length (gallery w) <? 2)%Z).
  - split; constructor.
  - cbn [newTask]. cbv zeta.
    destruct (cached (gallery w) _).
    + cbn [fst].
      match goal with
      | |- context [awaitTransition rnd plane ?t ?i ?w0] =>
          destruct (awaitTransition_frame t i w0) as (S1 & T1 & _);
          assert (E : timeline (gallery w0) = timeline (gallery w))
            by (cbn; unfold stopAutoAdvance;
                destruct (autoAdvanceTimer (gallery w)); reflexivity)
      end.
      rewrite E in T1. split; [rewrite S1; reflexivity | exact T1].
    + split; [reflexivity |]. cbn. unfold stopAutoAdvance.
      destruct (autoAdvanceTimer (gallery w)); constructor.
Qed.

Lemma previous_frame (w : World) :
  scrubber (fst (previous rnd plane w)) = scrubber w
  /\ tlEvolves (timeline (gallery w))
       (timeline (gallery (fst (previous rnd plane w)))).
Proof.
  unfold previous.
  destruct (isTransitioning (gallery w) || (imagePaths_length (gallery w) <? 2)%Z).
  - split; constructor.
  - cbn [newTask]. cbv zeta.
    destruct (cached (gallery w) _).
    + cbn [fst].
      match goal with
      | |- context [awaitTransition rnd plane ?t ?i ?w0] =>
          destruct (awaitTransition_frame t i w0) as (S1 & T1 & _);
          assert (E : timeline (gallery w0) = timeline (gallery w))
            by (cbn; unfold stopAutoAdvance;
                destruct (autoAdvanceTimer (gallery w)); reflexivity)
      end.
      rewrite E in T1. split; [rewrite S1; reflexivity | exact T1].
    + split; [reflexivity |]. cbn. unfold stopAutoAdvance.
      destruct (autoAdvanceTimer (gallery w)); constructor.
Qed.

End Invariants.

Section Handlers.

Variable rnd : nat -> Q.
Variable plane : Q -> Q -> Q -> Q -> list Vector3.

Lemma settleLoad_frame (k : nat) (r : Texture + Error) (w : World) :
  scrubber (settleLoad rnd plane k r w) = scrubber w
  /\ tlEvolves (timeline (gallery w))
       (timeline (gallery (settleLoad rnd plane k r w))).
Proof.
  unfold settleLoad. destruct (loads w !! k) as [ld |];
    [| split; constructor].
  destruct (ld_cont ld) as [task |], r as [texture | e];
    try (split; constructor).
  match goal with
  | |- context [awaitTransition rnd plane ?t ?i ?w0] =>
      destruct (awaitTransition_frame rnd plane t i w0) as (S1 & T1 & _)
  end.
  split; [rewrite S1; reflexivity | exact T1].
Qed.

Lemma togglePause_frame (w : World) :
  scrubber (togglePause w) = scrubber w
  /\ tlEvolves (timeline (gallery w)) (timeline (gallery (togglePause w))).
Proof.
  unfold togglePause. destruct (timeline (gallery w)) as [tl |] eqn:E.
  - cbn. split; [reflexivity | constructor].
  - rewrite E. split; constructor.
Qed.

Lemma reset_frame (w : World) :
  scrubber (reset rnd plane w) = scrubber w
  /\ tlEvolves (timeline (gallery w))
       (timeline (gallery (reset rnd plane w))).
Proof.
  unfold reset.
  set (w0 := upd_gallery stopAutoAdvance w).
  assert (E0 : scrubber w0 = scrubber w) by reflexivity.
  assert (E1 : timeline (gallery w0) = timeline (gallery w)).
  { unfold w0. cbn. unfold stopAutoAdvance.
    destruct (autoAdvanceTimer (gallery w)); reflexivity. }
  destruct (negb (currentIndex (gallery w0) =? 0)%Z).
  - match goal with
    | |- context [next rnd plane ?w1] =>
        destruct (next_frame rnd plane w1) as [S1 T1]
    end.
    split; [rewrite S1; exact E0 |].
    change (timeline (gallery (upd_gallery
              (set_currentIndex (imagePaths_length (gallery w0) - 1)) w0)))
      with (timeline (gallery w0)) in T1.
    rewrite E1 in T1. exact T1.
  - rewrite E1. split; [exact E0 | constructor].
Qed.

Lemma Timeline_progress_frame (p : Q) (w : World) :
  0 <= p -> p <= 1 ->
  scrubber (Timeline_progress p w) = scrubber w
  /\ tlEvolves (timeline (gallery w))
       (timeline (gallery (Timeline_progress p w))).
Proof.
  intros H0 H1. unfold Timeline_progress.
  destruct (timeline (gallery w)) as [tl |] eqn:E.
  - cbn. split; [reflexivity | constructor; assumption].
  - rewrite E. split; constructor.
Qed.

Lemma Timeline_progress_handle (p : Q) (w : World) (tl : Timeline) :
  timeline (gallery w) = Some tl ->
  timeline (gallery (Timeline_progress p w))
  = Some (Timeline_set_progress p tl).
Proof. intros E. unfold Timeline_progress. rewrite E. reflexivity. Qed.

Lemma Timeline_tick_frame (d : Q) (w : World) :
  scrubber (Timeline_tick d w) = scrubber w
  /\ tlEvolves (timeline (gallery w))
       (timeline (gallery (Timeline_tick d w))).
Proof.
  unfold Timeline_tick. destruct (timeline (gallery w)) as [tl |] eqn:E.
  - destruct (tl_paused tl).
    + rewrite E. split; constructor.
    + rewrite <- E.
      destruct (clamp_range (tl_progress tl + d) 0 1) as [C0 C1];
        [discriminate |].
      apply Timeline_progress_frame; assumption.
  - rewrite E. split; constructor.
Qed.

Lemma scrub_frame (dx : Q) (w : World) :
  scrubber (scrub dx w) = scrubber w
  /\ tlEvolves (timeline (gallery w)) (timeline (gallery (scrub dx w))).
Proof.
  unfold scrub. destruct (timeline (gallery w)) as [tl |] eqn:E.
  - destruct (transitionInitiated (scrubber w)).
    + rewrite <- E.
      match goal with
      | |- context [MathUtils.clamp ?v 0 1] =>
          destruct (clamp_range v 0 1) as [C0 C1]; [discriminate |]
      end.
      apply Timeline_progress_frame; assumption.
    + rewrite E. split; constructor.
  - rewrite E. split; constructor.
Qed.

Lemma stop_frame (w : World) :
  scrubber (stop w) = scrubber w
  /\ tlEvolves (timeline (gallery w)) (timeline (gallery (stop w))).
Proof.
  unfold stop. destruct (timeline (gallery w)) as [tl |] eqn:E.
  - cbn. split; [reflexivity | constructor].
  - rewrite E. split; constructor.
Qed.

Lemma resume_frame (w : World) :
  scrubber (resume w) = scrubber w
  /\ tlEvolves (timeline (gallery w)) (timeline (gallery (resume w))).
Proof.
  unfold resume. destruct (timeline (gallery w)) as [tl |] eqn:E.
  - cbn. split; [reflexivity | constructor].
  - rewrite E. split; constructor.
Qed.

Lemma thenPause_evolves (r : World * option nat) :
  scrubber (thenPause r) = scrubber (fst r)
  /\ tlEvolves (timeline (gallery (fst r))) (timeline (gallery (thenPause r))).
Proof.
  destruct r as [w [id |]]; cbn [thenPause fst].
  - destruct (tasks w !! id) as [[b | | e] |]; try (split; constructor).
    destruct (pauseIfHeld_frame w) as (S1 & T1 & _). split; assumption.
  - destruct (pauseIfHeld_frame w) as (S1 & T1 & _). split; assumption.
Qed.

Lemma seek_evolves (dx totalDx : Q) (w : World) :
  tlEvolves (timeline (gallery w))
    (timeline (gallery (seek rnd plane dx totalDx w))).
Proof.
  unfold seek.
  destruct (_ && negb (isTransitioning (gallery w)));
    [| apply scrub_frame].
  destruct (Qlt_le_dec threshold (Qabs totalDx)); [| apply scrub_frame].
  destruct (Qlt_le_dec 0 totalDx).
  - match goal with
    | |- context [next rnd plane ?w0] =>
        destruct (thenPause_evolves (next rnd plane w0)) as [_ T1];
        destruct (next_frame rnd plane w0) as [_ T2]
    end.
    eapply tlTrans; [exact T2 | exact T1].
  - match goal with
    | |- context [previous rnd plane ?w0] =>
        destruct (thenPause_evolves (previous rnd plane w0)) as [_ T1];
        destruct (previous_frame rnd plane w0) as [_ T2]
    end.
    eapply tlTrans; [exact T2 | exact T1].
Qed.

(** A move of a gesture that is already bound goes straight to the
    scrubbing half of [seek]. *)
Lemma seek_bound (dx totalDx : Q) (w : World) :
  transitionInitiated (scrubber w) = true ->
  seek rnd plane dx totalDx w = scrub dx w.
Proof.
  intros H. unfold seek. rewrite H. cbn [negb]. rewrite andb_false_r.
  reflexivity.
Qed.

Lemma mousedown_evolves (x : Q) (w : World) :
  tlEvolves (timeline (gallery w)) (timeline (gallery (mousedown x w))).
Proof.
  unfold mousedown. set (w0 := set_scrubber _ w).
  destruct (stop_frame w0) as [_ T].
  change (timeline (gallery w0)) with (timeline (gallery w)) in *.
  destruct (timeline (gallery w)) as [tl |] eqn:E.
  - destruct (Qlt_le_dec (tl_progress tl) 1); [exact T |].
    change (timeline (gallery w0)) with (timeline (gallery w)).
    rewrite E. constructor.
  - change (timeline (gallery w0)) with (timeline (gallery w)).
    rewrite E. constructor.
Qed.

Lemma touchstart_evolves (x : Q) (w : World) :
  tlEvolves (timeline (gallery w)) (timeline (gallery (touchstart x w))).
Proof.
  unfold touchstart. set (w0 := set_scrubber _ w).
  destruct (stop_frame w0) as [_ T].
  change (timeline (gallery w0)) with (timeline (gallery w)) in *.
  destruct (timeline (gallery w)) as [tl |] eqn:E.
  - destruct (Qlt_le_dec (tl_progress tl) 1); [exact T |].
    change (timeline (gallery w0)) with (timeline (gallery w)).
    rewrite E. constructor.
  - change (timeline (gallery w0)) with (timeline (gallery w)).
    rewrite E. constructor.
Qed.

(** Every handler moves the timeline handle only in the ways of
    [tlEvolves]. *)
Lemma handle_evolves (e : Event) (w : World) :
  tlEvolves (timeline (gallery w)) (timeline (gallery (handle rnd plane e w))).
Proof.
  destruct e; cbn [handle].
  - apply next_frame.
  - apply previous_frame.
  - apply togglePause_frame.
  - apply reset_frame.
  - apply mousedown_evolves.
  - unfold mouseup. apply (resume_frame (set_scrubber _ w)).
  - unfold mousemove. destruct (mouseDown (scrubber w)); [| constructor].
    apply (seek_evolves _ _ (set_scrubber _ w)).
  - apply touchstart_evolves.
  - unfold touchend. apply (resume_frame (set_scrubber _ w)).
  - unfold touchmove. apply (seek_evolves _ _ (set_scrubber _ w)).
  - apply settleLoad_frame.
  - apply Timeline_tick_frame.
  - destruct (timeline (gallery w)) as [tl |] eqn:E; [| rewrite E; constructor].
    rewrite <- E. apply onComplete_frame.
  - destruct (autoAdvanceTimer (gallery w)); [apply next_frame | constructor].
Qed.

Lemma run_evolves (es : list Event) :
  forall w : World,
    tlEvolves (timeline (gallery w)) (timeline (gallery (run rnd plane es w))).
Proof.
  induction es as [| e es IH]; intros w; cbn.
  - constructor.
  - eapply tlTrans; [apply handle_evolves | apply IH].
Qed.

(** Within a gesture that was bound at the press, the scrubber stays
    bound and its direction stays unresolved; the button stays down. *)
Lemma handle_keeps_binding (e : Event) (w : World) :
  withinGesture e ->
  transitionInitiated (scrubber w) = true ->
  transitionInitiated (scrubber (handle rnd plane e w)) = true
  /\ transitionDirection (scrubber (handle rnd plane e w))
     = transitionDirection (scrubber w)
  /\ mouseDown (scrubber (handle rnd plane e w)) = mouseDown (scrubber w).
Proof.
  intros He Hb. destruct e; cbn [handle]; try contradiction.
  - destruct (next_frame rnd plane w) as [-> _]. auto.
  - destruct (previous_frame rnd plane w) as [-> _]. auto.
  - destruct (togglePause_frame w) as [-> _]. auto.
  - destruct (reset_frame w) as [-> _]. auto.
  - unfold mousemove. destruct (mouseDown (scrubber w)) eqn:Em; [| auto].
    rewrite seek_bound by exact Hb.
    destruct (scrub_frame (x - _cx (scrubber w)) (set_scrubber
      (mkScrubber x (_startX (scrubber w)) true
         (transitionInitiated (scrubber w))
         (transitionDirection (scrubber w))) w)) as [-> _].
    cbn. auto.
  - unfold touchmove. rewrite seek_bound by exact Hb.
    destruct (scrub_frame (x - _cx (scrubber w)) (set_scrubber
      (mkScrubber x (_startX (scrubber w)) (mouseDown (scrubber w))
         (transitionInitiated (scrubber w))
         (transitionDirection (scrubber w))) w)) as [-> _].
    cbn. auto.
  - destruct (settleLoad_frame k r w) as [-> _]. auto.
  - destruct (Timeline_tick_frame d w) as [-> _]. auto.
  - destruct (timeline (gallery w)) as [tl |]; [| auto].
    destruct (onComplete_frame tl w) as [-> _]. auto.
  - destruct (autoAdvanceTimer (gallery w)); [| auto].
    destruct (next_frame rnd plane w) as [-> _]. auto.
Qed.


End Handlers.


Lemma scrub_handle (dx : Q) (w : World) (tl : Timeline) :
  timeline (gallery w) = Some tl ->
  transitionInitiated (scrubber w) = true ->
  timeline (gallery (scrub dx w))
  = Some
      (Timeline_set_progress
         (MathUtils.clamp
            (tl_progress tl
             + match transitionDirection (scrubber w) with
               | Some DirPrevious => - dx
               | _ => dx
               end * seekSpeed) 0 1)
         tl).
Proof.
  intros E Hb. unfold scrub. rewrite E, Hb.
  apply Timeline_progress_handle. exact E.
Qed.

Section Scrubbing.

Variable rnd : nat -> Q.
Variable plane : Q -> Q -> Q -> Q -> list Vector3.

(** C8.  A move of a decided gesture (the gesture is bound to a transition
    and a handle exists) with incremental displacement [dx] sets the
    handle's progress to [clamp(oldProgress + effectiveDx * 0.001, 0, 1)],
    where [effectiveDx] is [-dx] when the direction is [previous] and [dx]
    otherwise; the value written lies in [0, 1] whatever [dx] is, and so
    does the handle's progress after any further events. *)
Theorem seek_sets_clamped_progress (dx totalDx : Q) (w : World)
    (tl : Timeline) :
  timeline (gallery w) = Some tl ->
  transitionInitiated (scrubber w) = true ->
  let effectiveDx :=
    match transitionDirection (scrubber w) with
    | Some DirPrevious => - dx
    | _ => dx
    end in
  let newProgress :=
    MathUtils.clamp (tl_progress tl + effectiveDx * 0.001) 0 1 in
  timeline (gallery (seek rnd plane dx totalDx w))
  = Some (Timeline_set_progress newProgress tl)
  /\ 0 <= newProgress /\ newProgress <= 1
  /\ forall es : list Event,
       progressInRange
         (timeline (gallery (run rnd plane es (seek rnd plane dx totalDx w)))).
Proof.
  intros E Hb effectiveDx newProgress.
  assert (Hs : timeline (gallery (seek rnd plane dx totalDx w))
               = Some (Timeline_set_progress newProgress tl)).
  { rewrite seek_bound by exact Hb. apply scrub_handle; assumption. }
  destruct (clamp_range (tl_progress tl + effectiveDx * 0.001) 0 1)
    as [C0 C1]; [discriminate |].
  repeat split; try assumption.
  intros es. eapply progressInRange_evolves; [apply run_evolves |].
  rewrite Hs. cbn. split; assumption.
Qed.


End Scrubbing.

(** ** Navigation, failure and reset (C4, C9) *)

Lemma stopAutoAdvance_fields (g : ImageGallery) :
  imagePaths_length (stopAutoAdvance g) = imagePaths_length g
  /\ currentIndex (stopAutoAdvance g) = currentIndex g
  /\ textures (stopAutoAdvance g) = textures g
  /\ currentSlide (stopAutoAdvance g) = currentSlide g
  /\ nextSlide (stopAutoAdvance g) = nextSlide g
  /\ isTransitioning (stopAutoAdvance g) = isTransitioning g
  /\ timeline (stopAutoAdvance g) = timeline g.
Proof.
  unfold stopAutoAdvance. destruct (autoAdvanceTimer g); repeat split.
Qed.

Lemma sameButTimeline_refl (g : ImageGallery) : sameButTimeline g g.
Proof. unfold sameButTimeline. destruct g; reflexivity. Qed.

Lemma sameButTimeline_set (t : option Timeline) (g : ImageGallery) :
  sameButTimeline g (set_timeline t g).
Proof. unfold sameButTimeline. destruct g; reflexivity. Qed.

Lemma sameButTimeline_trans (g1 g2 g3 : ImageGallery) :
  sameButTimeline g1 g2 -> sameButTimeline g2 g3 -> sameButTimeline g1 g3.
Proof.
  unfold sameButTimeline. intros H12 H23. rewrite <- H12 at 2.
  rewrite <- H23. destruct g3; reflexivity.
Qed.

Lemma sameButTimeline_fields (g g' : ImageGallery) :
  sameButTimeline g g' ->
  currentIndex g' = currentIndex g
  /\ isTransitioning g' = isTransitioning g
  /\ nextSlide g' = nextSlide g
  /\ currentSlide g' = currentSlide g.
Proof.
  unfold sameButTimeline. intros H. rewrite <- H. repeat split.
Qed.

Lemma pauseIfHeld_same (w : World) :
  sameButTimeline (gallery w) (gallery (pauseIfHeld w)).
Proof.
  unfold pauseIfHeld. destruct (timeline (gallery w)) as [tl |].
  - destruct (mouseDown (scrubber w)).
    + apply sameButTimeline_set.
    + apply sameButTimeline_refl.
  - apply sameButTimeline_refl.
Qed.

Lemma resumeAfterTransition_same (task : nat) (w : World) :
  sameButTimeline (gallery w) (gallery (resumeAfterTransition task w)).
Proof.
  unfold resumeAfterTransition. cbv [GALLERY_CONFIG.autoAdvance].
  unfold fulfil.
  destruct (tasks (preloadAround _ w) !! task) as [[[|] | |] |];
    try apply sameButTimeline_refl.
  apply (pauseIfHeld_same (set_tasks _ (preloadAround _ w))).
Qed.

Lemma resume_all_same (l : list (nat * nat)) :
  forall w : World,
    sameButTimeline (gallery w)
      (gallery (fold_left (fun w p => resumeAfterTransition (snd p) w) l w)).
Proof.
  induction l as [| p l IH]; intros w; cbn.
  - apply sameButTimeline_refl.
  - eapply sameButTimeline_trans;
      [apply resumeAfterTransition_same | apply IH].
Qed.

(** What the completion of a timeline leaves behind. *)
Lemma onComplete_result (tl : Timeline) (w : World) :
  currentIndex (gallery (onComplete tl w)) = tl_targetIndex tl
  /\ isTransitioning (gallery (onComplete tl w)) = false
  /\ nextSlide (gallery (onComplete tl w)) = None
  /\ currentSlide (gallery (onComplete tl w)) = nextSlide (gallery w).
Proof.
  unfold onComplete.
  match goal with
  | |- context [fold_left ?f ?l ?w0] =>
      destruct (sameButTimeline_fields _ _ (resume_all_same l w0))
        as (H1 & H2 & H3 & H4)
  end.
  rewrite H1, H2, H3, H4.
  destruct (currentSlide (gallery w)); repeat split.
Qed.

Section Navigation.

Variable rnd : nat -> Q.
Variable plane : Q -> Q -> Q -> Q -> list Vector3.

(** [next()] past its guard with the target texture in the cache: the
    transition starts within the call. *)
Lemma next_cached_starts (w : World) (texture : Texture) :
  isTransitioning (gallery w) = false ->
  (2 <= imagePaths_length (gallery w))%Z ->
  textures (gallery w)
    !! Z.rem (currentIndex (gallery w) + 1) (imagePaths_length (gallery w))
  = Some texture ->
  let w' := fst (next rnd plane w) in
  snd (next rnd plane w) = Some (allocated w)
  /\ currentIndex (gallery w') = currentIndex (gallery w)
  /\ isTransitioning (gallery w') = true
  /\ is_Some (nextSlide (gallery w'))
  /\ allocated w' = S (S (S (allocated w)))
  /\ awaiting w' = awaiting w ++ [(S (S (allocated w)), allocated w)]
  /\ timeline (gallery w')
     = Some {| tl_id := S (S (allocated w)); tl_progress := 0;
               tl_paused := false;
               tl_tweens :=
                 match currentSlide (gallery w) with
                 | Some s => [slide_id s]
                 | None => []
                 end ++ [S (allocated w)];
               tl_targetIndex :=
                 Z.rem (currentIndex (gallery w) + 1)
                       (imagePaths_length (gallery w)) |}.
Proof.
  intros Ht Hn Hc.
  assert (G : isTransitioning (gallery w)
              || (imagePaths_length (gallery w) <? 2)%Z = false).
  { rewrite Ht. cbn. apply Z.ltb_ge. exact Hn. }
  unfold next. rewrite G. cbn [newTask]. cbv zeta.
  unfold cached. rewrite Hc. unfold awaitTransition, transitionTo.
  destruct w as [g sc dis s l a t r al].
  destruct g as [n ci tx cs ns it ip tl at_].
  cbn in *. unfold stopAutoAdvance. cbn.
  destruct at_; cbn; rewrite Hc; cbn; destruct cs; cbn; repeat split; eauto.
Qed.

(** While [isTransitioning] is set, navigation commands change nothing. *)
Lemma navigation_locked (es : list Event) :
  forall w : World,
    isTransitioning (gallery w) = true ->
    Forall isNavigation es ->
    run rnd plane es w = w.
Proof.
  induction es as [| e es IH]; intros w Ht Hes; [reflexivity |].
  inversion Hes as [| e' es' He Hes' E]; subst.
  change (run rnd plane (e :: es) w)
    with (run rnd plane es (handle rnd plane e w)).
  assert (Hw : handle rnd plane e w = w).
  { destruct e; try contradiction; cbn [handle].
    - rewrite next_guard by (rewrite Ht; reflexivity). reflexivity.
    - rewrite previous_guard by (rewrite Ht; reflexivity). reflexivity. }
  rewrite Hw. apply IH; assumption.
Qed.

(** A failed load of [next()] / [previous()] rejects the task and touches
    nothing of the gallery: the flag stays as the call set it. *)
Lemma failed_navigation_load (k : nat) (target : Z) (task : nat) (e : Error)
    (w : World) :
  loads w !! k = Some (mkLoad target (NavLoad task)) ->
  gallery (settleLoad rnd plane k (inr e) w) = gallery w
  /\ tasks (settleLoad rnd plane k (inr e) w)
     = <[task := Rejected e]> (tasks w).
Proof.
  intros H. unfold settleLoad. rewrite H. cbn. split; reflexivity.
Qed.

(** C9 (as amended).  At index 0, [reset()] only cancels an armed
    auto-advance timer, and changes nothing when none is armed.  At an
    index other than 0, while no transition is in flight (two images or
    more, the first image in the cache, as [init()] leaves it), [reset()]
    sets the index to the last one and calls [next()], which starts one
    transition - one new timeline, at progress 0, towards index 0 - and
    the completion of that timeline leaves the gallery at index 0 with no
    transition in flight. *)
Theorem reset_forward_wraparound (w : World) :
  (currentIndex (gallery w) = 0%Z ->
     reset rnd plane w = upd_gallery stopAutoAdvance w
     /\ (autoAdvanceTimer (gallery w) = false -> reset rnd plane w = w))
  /\ (currentIndex (gallery w) <> 0%Z ->
      isTransitioning (gallery w) = false ->
      (2 <= imagePaths_length (gallery w))%Z ->
      is_Some (textures (gallery w) !! 0%Z) ->
      let w' := reset rnd plane w in
      currentIndex (gallery w') = (imagePaths_length (gallery w) - 1)%Z
      /\ isTransitioning (gallery w') = true
      /\ is_Some (nextSlide (gallery w'))
      /\ allocated w' = S (S (S (allocated w)))
      /\ (exists tl : Timeline,
            timeline (gallery w') = Some tl
            /\ tl_id tl = S (S (allocated w))
            /\ tl_progress tl = 0 /\ tl_paused tl = false
            /\ tl_targetIndex tl = 0%Z
            /\ let w'' := handle rnd plane Complete w' in
               currentIndex (gallery w'') = 0%Z
               /\ isTransitioning (gallery w'') = false
               /\ nextSlide (gallery w'') = None)).
Proof.
  destruct (stopAutoAdvance_fields (gallery w))
    as (F1 & F2 & F3 & F4 & F5 & F6 & F7).
  split.
  - intros H0. unfold reset. cbn [gallery upd_gallery set_gallery].
    rewrite F2, H0. cbn [Z.eqb negb]. split; [reflexivity |].
    intros Ha. unfold upd_gallery, stopAutoAdvance. rewrite Ha.
    destruct w; reflexivity.
  - intros Hk Ht Hn [texture Hc] w'.
    assert (Hn0 : imagePaths_length (gallery w) <> 0%Z) by lia.
    set (w1 := upd_gallery
                 (set_currentIndex (imagePaths_length (gallery w) - 1))
                 (upd_gallery stopAutoAdvance w)).
    assert (E : w' = fst (next rnd plane w1)).
    { unfold w', reset. cbn [gallery upd_gallery set_gallery].
      rewrite F1, F2. apply Z.eqb_neq in Hk. rewrite Hk. reflexivity. }
    assert (I1 : imagePaths_length (gallery w1) = imagePaths_length (gallery w))
      by (cbn; exact F1).
    assert (I2 : currentIndex (gallery w1)
                 = (imagePaths_length (gallery w) - 1)%Z) by reflexivity.
    assert (I3 : Z.rem (currentIndex (gallery w1) + 1)
                   (imagePaths_length (gallery w1)) = 0%Z).
    { rewrite I1, I2.
      replace (imagePaths_length (gallery w) - 1 + 1)%Z
        with (imagePaths_length (gallery w)) by lia.
      apply Z.rem_same. exact Hn0. }
    destruct (next_cached_starts w1 texture) as (_ & N2 & N3 & N4 & N5 & _ & N7).
    + cbn. rewrite F6. exact Ht.
    + rewrite I1. exact Hn.
    + rewrite I3. cbn. rewrite F3. exact Hc.
    + rewrite <- E in *. rewrite I3 in N7.
      repeat split; try assumption.
      eexists. split; [exact N7 |]. cbn [tl_id tl_progress tl_paused tl_targetIndex].
      repeat split.
      all: cbn [handle]; rewrite N7; apply onComplete_result.
Qed.

End Navigation.

Lemma reset_forward_wraparound_witness :
  currentIndex (gallery atSecondOf4) = 1%Z
  /\ currentIndex (gallery (reset draws99 PlaneGeometry.positions atSecondOf4))
     = 3%Z
  /\ exists tl : Timeline,
       timeline (gallery (reset draws99 PlaneGeometry.positions atSecondOf4))
       = Some tl
       /\ tl_targetIndex tl = 0%Z
       /\ currentIndex
            (gallery
               (handle draws99 PlaneGeometry.positions Complete
                  (reset draws99 PlaneGeometry.positions atSecondOf4)))
          = 0%Z.
Proof.
  split; [evaluate; reflexivity |].
  destruct (proj2 (reset_forward_wraparound draws99 PlaneGeometry.positions
                     atSecondOf4))
    as (H1 & _ & _ & _ & tl & H5 & _ & _ & _ & H9 & H10 & _).
  - evaluate. discriminate.
  - evaluate. reflexivity.
  - evaluate. discriminate.
  - evaluate. eexists. reflexivity.
  - split; [exact H1 |]. exists tl. repeat split; assumption.
Defined.

(** C9 as stated fails.  Four images, the gallery at index 1 and in the
    middle of its transition to index 2: [reset()] moves the index to 3 at
    once, its [next()] is dropped at the guard - no timeline of its own,
    nothing allocated - and when the transition in flight completes the
    index is 2, not 0. *)
Lemma reset_during_transition_jumps :
  currentIndex (gallery midTransition4) = 1%Z
  /\ isTransitioning (gallery midTransition4) = true
  /\ currentIndex (gallery (reset draws99 PlaneGeometry.positions midTransition4))
     = 3%Z
  /\ timeline (gallery (reset draws99 PlaneGeometry.positions midTransition4))
     = timeline (gallery midTransition4)
  /\ allocated (reset draws99 PlaneGeometry.positions midTransition4)
     = allocated midTransition4
  /\ currentIndex
       (gallery
          (handle99 Complete
             (reset draws99 PlaneGeometry.positions midTransition4)))
     = 2%Z
  /\ ~ resetTransitionsToFirst draws99 PlaneGeometry.positions midTransition4.
Proof.
  do 6 (split; [evaluate; reflexivity |]).
  unfold resetTransitionsToFirst. intros [_ H].
  revert H. evaluate. discriminate.
Qed.

Section Stuck.

Variable rnd : nat -> Q.
Variable plane : Q -> Q -> Q -> Q -> list Vector3.

Lemma stuck_seek (dx totalDx : Q) (w : World) :
  isTransitioning (gallery w) = true -> timeline (gallery w) = None ->
  seek rnd plane dx totalDx w = w.
Proof.
  intros Ht Hn. unfold seek. rewrite Ht. cbn [negb]. rewrite andb_false_r.
  unfold scrub. rewrite Hn. reflexivity.
Qed.

Lemma stuck_upd (f : ImageGallery -> ImageGallery) (w : World) :
  isTransitioning (f (gallery w)) = isTransitioning (gallery w) ->
  timeline (f (gallery w)) = timeline (gallery w) ->
  stuck w -> stuck (upd_gallery f w).
Proof.
  intros H1 H2 (Ht & Hn & Hl). unfold stuck.
  cbn [upd_gallery set_gallery gallery loads]. rewrite H1, H2.
  repeat split; assumption.
Qed.

(** No event takes the program out of a stuck state. *)
Lemma stuck_handle (e : Event) (w : World) :
  stuck w -> stuck (handle rnd plane e w).
Proof.
  intros (Ht & Hn & Hl).
  assert (G : isTransitioning (gallery w)
              || (imagePaths_length (gallery w) <? 2)%Z = true)
    by (rewrite Ht; reflexivity).
  destruct e; cbn [handle].
  - rewrite next_guard by exact G. repeat split; assumption.
  - rewrite previous_guard by exact G. repeat split; assumption.
  - unfold togglePause. rewrite Hn. repeat split; assumption.
  - destruct (stopAutoAdvance_fields (gallery w))
      as (_ & _ & _ & _ & _ & F6 & F7).
    pose proof (stuck_upd stopAutoAdvance w F6 F7
                  (conj Ht (conj Hn Hl))) as S0.
    unfold reset. destruct (negb _); [| exact S0].
    match goal with
    | |- context [next rnd plane ?w1] =>
        assert (S1 : stuck w1)
          by (apply stuck_upd; [reflexivity | reflexivity | exact S0]);
        rewrite (next_guard rnd plane w1)
          by (destruct S1 as [H1 _]; rewrite H1; reflexivity);
        exact S1
    end.
  - unfold mousedown. cbn [gallery set_scrubber]. rewrite Hn.
    repeat split; assumption.
  - unfold mouseup, resume. cbn [gallery set_scrubber]. rewrite Hn.
    repeat split; assumption.
  - unfold mousemove. destruct (mouseDown (scrubber w));
      [| repeat split; assumption].
    rewrite stuck_seek by assumption. repeat split; assumption.
  - unfold touchstart. cbn [gallery set_scrubber]. rewrite Hn.
    repeat split; assumption.
  - unfold touchend, resume. cbn [gallery set_scrubber]. rewrite Hn.
    repeat split; assumption.
  - unfold touchmove. rewrite stuck_seek by assumption.
    repeat split; assumption.
  - unfold settleLoad. destruct (loads w !! k) as [ld |] eqn:E;
      [| repeat split; assumption].
    assert (Hc : ld_cont ld = PreloadLoad).
    { rewrite List.Forall_forall in Hl. apply Hl.
      apply list_elem_of_In. eapply list_elem_of_lookup_2. exact E. }
    assert (Hd : Forall (fun ld => ld_cont ld = PreloadLoad)
                   (delete k (loads w))).
    { apply Forall_delete. exact Hl. }
    rewrite Hc. destruct r; repeat split; assumption.
  - unfold Timeline_tick. rewrite Hn. repeat split; assumption.
  - rewrite Hn. repeat split; assumption.
  - destruct (autoAdvanceTimer (gallery w)); [| repeat split; assumption].
    rewrite next_guard by exact G. repeat split; assumption.
Qed.

Lemma stuck_run (es : list Event) :
  forall w : World, stuck w -> stuck (run rnd plane es w).
Proof.
  induction es as [| e es IH]; intros w Hs; [exact Hs |].
  change (run rnd plane (e :: es) w)
    with (run rnd plane es (handle rnd plane e w)).
  apply IH. apply stuck_handle. exact Hs.
Qed.

End Stuck.

(** C4, at the failing input.  Two images, the second not yet in the
    cache; ArrowRight calls [next()], whose load of the second image (load
    number 4 in flight) fails.  The task is rejected with the loader's
    error, but [isTransitioning] is still set, and from then on every
    [next()] and [previous()] returns at the guard: no list of navigation
    commands changes the state, and no list of events of any kind clears
    the flag. *)
Theorem failed_load_locks_gallery :
  let w1 := handle99 KeyNext (started 2) in
  let w2 := handle99 (LoadSettled 4 (inr (LoadError 404))) w1 in
  isTransitioning (gallery (started 2)) = false
  /\ snd (next draws99 PlaneGeometry.positions (started 2)) = Some 1%nat
  /\ loads w1 !! 4%nat = Some (mkLoad 1 (NavLoad 1))
  /\ tasks w2 !! 1%nat = Some (Rejected (LoadError 404))
  /\ isTransitioning (gallery w2) = true
  /\ (forall es : list Event, Forall isNavigation es -> run99 es w2 = w2)
  /\ (forall es : list Event,
        isTransitioning (gallery (run99 es w2)) = true).
Proof.
  intros w1 w2.
  assert (L : loads w1 !! 4%nat = Some (mkLoad 1 (NavLoad 1)))
    by (evaluate; reflexivity).
  destruct (failed_navigation_load draws99 PlaneGeometry.positions 4 1 1
              (LoadError 404) w1 L) as [G T].
  fold handle99 in G, T.
  assert (I : isTransitioning (gallery w2) = true).
  { unfold w2. cbn [handle99 handle]. rewrite G. evaluate. reflexivity. }
  split; [evaluate; reflexivity |].
  split; [evaluate; reflexivity |].
  split; [exact L |].
  split.
  - unfold w2. cbn [handle99 handle]. rewrite T. apply lookup_insert_eq.
  - split; [exact I |]. split.
    + intros es Hes. apply navigation_locked; assumption.
    + intros es.
      assert (S2 : stuck w2).
      { split; [exact I |]. split.
        - unfold w2. cbn [handle99 handle]. rewrite G. evaluate. reflexivity.
        - unfold w2. evaluate. repeat constructor. }
      apply (stuck_run draws99 PlaneGeometry.positions es w2 S2).
Qed.

(** ** The start of a drag (C7) *)

Section Dragging.

Variable rnd : nat -> Q.
Variable plane : Q -> Q -> Q -> Q -> list Vector3.

(** While the button is down and the gesture is bound, moves of the
    pointer and ticks of the timeline leave a playing handle playing. *)
Lemma held_keeps_playing (e : Event) (w : World) (tl : Timeline) :
  whileHeld e ->
  transitionInitiated (scrubber w) = true ->
  timeline (gallery w) = Some tl -> tl_paused tl = false ->
  transitionInitiated (scrubber (handle rnd plane e w)) = true
  /\ exists tl' : Timeline,
       timeline (gallery (handle rnd plane e w)) = Some tl'
       /\ tl_paused tl' = false.
Proof.
  intros He Hb E Hp.
  assert (Hg : withinGesture e) by (destruct e; try contradiction; exact I).
  destruct (handle_keeps_binding rnd plane e w Hg Hb) as (B & _ & _).
  split; [exact B |].
  destruct e; try contradiction; cbn [handle].
  - unfold mousemove. destruct (mouseDown (scrubber w)); [| eauto].
    rewrite seek_bound by exact Hb.
    rewrite (scrub_handle _ _ tl); [eauto | exact E | exact Hb].
  - unfold Timeline_tick. rewrite E, Hp.
    rewrite (Timeline_progress_handle _ _ tl E). eauto.
Qed.

Lemma held_run_keeps_playing (es : list Event) :
  forall (w : World) (tl : Timeline),
    Forall whileHeld es ->
    transitionInitiated (scrubber w) = true ->
    timeline (gallery w) = Some tl -> tl_paused tl = false ->
    exists tl' : Timeline,
      timeline (gallery (run rnd plane es w)) = Some tl'
      /\ tl_paused tl' = false.
Proof.
  induction es as [| e es IH]; intros w tl Hes Hb E Hp.
  - cbn. eauto.
  - inversion Hes as [| e' es' He Hes' Eq]; subst.
    change (run rnd plane (e :: es) w)
      with (run rnd plane es (handle rnd plane e w)).
    destruct (held_keeps_playing e w tl He Hb E Hp) as (B & tl' & E' & Hp').
    apply (IH _ tl'); assumption.
Qed.

End Dragging.

(** C7, at the failing input.  Two images, both in the cache, nothing in
    motion; press at x = 0, move to x = 40.  The displacement exceeds the
    threshold, the direction is resolved to next, and [next()] starts a
    transition to index 1: the handle exists as soon as the move returns.
    It is not paused: the pause is a [.then] callback of the task, still
    pending, and however the pointer moves and the timeline ticks while the
    button is down, the handle keeps playing.  The callback runs when the
    task is fulfilled, which is when the timeline has completed. *)
Theorem drag_start_leaves_timeline_playing :
  let w := run99 [MouseDown 0; MouseMove 40] idle2 in
  mouseDown (scrubber w) = true
  /\ transitionDirection (scrubber w) = Some DirNext
  /\ isTransitioning (gallery w) = true
  /\ tasks w !! 1%nat = Some (Pending true)
  /\ (exists tl : Timeline,
        timeline (gallery w) = Some tl
        /\ tl_targetIndex tl = 1%Z /\ tl_paused tl = false)
  /\ (forall es : list Event,
        Forall whileHeld es ->
        exists tl : Timeline,
          timeline (gallery (run99 es w)) = Some tl /\ tl_paused tl = false)
  /\ (exists tl : Timeline,
        timeline (gallery (run99 [Tick 1; Complete] w)) = Some tl
        /\ tl_progress tl == 1 /\ tl_paused tl = true)
  /\ tasks (run99 [Tick 1; Complete] w) !! 1%nat = Some Fulfilled.
Proof.
  intros w.
  assert (E : timeline (gallery w)
              = Some (mkTimeline 3 0 false [0%nat; 2%nat] 1))
    by (evaluate; reflexivity).
  split; [evaluate; reflexivity |].
  split; [evaluate; reflexivity |].
  split; [evaluate; reflexivity |].
  split; [evaluate; reflexivity |].
  split; [eexists; split; [exact E |]; split; reflexivity |].
  split.
  - intros es Hes.
    apply (held_run_keeps_playing draws99 PlaneGeometry.positions es w
             (mkTimeline 3 0 false [0%nat; 2%nat] 1) Hes);
      [evaluate; reflexivity | exact E | reflexivity].
  - split; [| evaluate; reflexivity].
    assert (E2 : timeline (gallery (run99 [Tick 1; Complete] w))
                 = Some (mkTimeline 3 1 true [0%nat; 2%nat] 1))
      by (evaluate; reflexivity).
    eexists. split; [exact E2 |]. split; reflexivity.
Qed.

(** ** Concrete gestures *)

Lemma seek_sets_clamped_progress_witness :
  exists tl : Timeline,
    timeline (gallery dragStarted) = Some tl
    /\ transitionInitiated (scrubber dragStarted) = true
    /\ timeline
         (gallery (seek draws99 PlaneGeometry.positions 10 50 dragStarted))
       = Some
           (Timeline_set_progress
              (MathUtils.clamp
                 (tl_progress tl
                  + match transitionDirection (scrubber dragStarted) with
                    | Some DirPrevious => - (10)
                    | _ => 10
                    end * 0.001) 0 1)
              tl).
Proof.
  assert (E : timeline (gallery dragStarted)
              = Some (mkTimeline 3 0 false [0%nat; 2%nat] 1))
    by (evaluate; reflexivity).
  assert (Hb : transitionInitiated (scrubber dragStarted) = true)
    by (evaluate; reflexivity).
  eexists. split; [exact E |]. split; [exact Hb |].
  exact (proj1 (seek_sets_clamped_progress draws99 PlaneGeometry.positions
                  10 50 dragStarted _ E Hb)).
Defined.



(** ** Every face of a plane slide *)

Lemma grid_coordinate (size : Q) (grid : Z) (i : nat) :
  0 < size -> (0 < grid)%Z -> (Z.of_nat i <= grid)%Z ->
  - (size / 2) <= inject_Z (Z.of_nat i) * (size / inject_Z grid) - size / 2
  /\ inject_Z (Z.of_nat i) * (size / inject_Z grid) - size / 2 <= size / 2.
Proof.
  intros Hs Hg Hi.
  assert (G : 0 < inject_Z grid).
  { change 0 with (inject_Z 0). rewrite <- Zlt_Qlt. exact Hg. }
  assert (A0 : 0 <= inject_Z (Z.of_nat i)).
  { change 0 with (inject_Z 0). rewrite <- Zle_Qle. lia. }
  assert (A1 : inject_Z (Z.of_nat i) <= inject_Z grid)
    by (rewrite <- Zle_Qle; exact Hi).
  set (a := inject_Z (Z.of_nat i)) in *. set (g := inject_Z grid) in *.
  assert (E : a * (size / g) == a / g * size) by (field; lra).
  assert (T0 : 0 <= a / g) by (apply Qle_shift_div_l; lra).
  assert (T1 : a / g <= 1) by (apply Qle_shift_div_r; lra).
  assert (H2 : size / 2 == (1 # 2) * size) by field.
  rewrite E, H2. set (t := a / g) in *. split; nra.
Qed.

Lemma vertex_inPlane (width height : Q) (gridX gridY : Z) (ix iy : nat) :
  0 < width -> 0 < height -> (0 < gridX)%Z -> (0 < gridY)%Z ->
  (Z.of_nat ix <= gridX)%Z -> (Z.of_nat iy <= gridY)%Z ->
  inPlane width height (PlaneGeometry.vertex width height gridX gridY ix iy).
Proof.
  intros Hw Hh Hgx Hgy Hix Hiy. unfold inPlane, PlaneGeometry.vertex.
  cbn [vx vy].
  destruct (grid_coordinate width gridX ix Hw Hgx Hix) as [X0 X1].
  destruct (grid_coordinate height gridY iy Hh Hgy Hiy) as [Y0 Y1].
  repeat split; lra.
Qed.

(** All vertices of the plane geometry lie within the plane. *)
Lemma positions_inPlane (width height widthSegments heightSegments : Q) :
  0 < width -> 0 < height ->
  (0 < Qfloor widthSegments)%Z -> (0 < Qfloor heightSegments)%Z ->
  Forall (inPlane width height)
    (PlaneGeometry.positions width height widthSegments heightSegments).
Proof.
  intros Hw Hh Hgx Hgy. unfold PlaneGeometry.positions.
  apply List.Forall_forall. intros v Hv.
  apply in_flat_map in Hv. destruct Hv as (iy & Hiy & Hv).
  apply in_flat_map in Hv. destruct Hv as (ix & Hix & Hv).
  apply in_seq in Hiy. apply in_seq in Hix.
  unfold PlaneGeometry.cell in Hv. cbn [In] in Hv.
  destruct Hv as [<- | [<- | [<- | [<- | [<- | [<- | []]]]]]];
    apply vertex_inPlane; trivial; lia.
Qed.

(** For draws in [0, 1), every vertex the loop over faces writes, for
    vertices within the plane, has [delay >= 0], [duration > 0] and
    finishes before [latestFinish]. *)
Lemma processFaces_timing (rnd : nat -> Q) (width height : Q) (phase : Phase) :
  0 < width -> 0 < height ->
  (forall k, 0 <= rnd k /\ rnd k < 1) ->
  forall (m : nat) (positions : list Vector3) (n : nat),
    (length positions <= m)%nat ->
    Forall (inPlane width height) positions ->
    Forall (fun d => 0 <= tDelay d /\ 0 < tDuration d
                     /\ tDelay d + tDuration d < latestFinish)
      (processFaces rnd width height phase positions n).
Proof.
  intros Hw Hh Hr. induction m as [| m IH]; intros positions n Hl Hp.
  - destruct positions; [constructor | cbn in Hl; lia].
  - destruct positions as [| v0 [| v1 [| v2 rest]]];
      try apply List.Forall_nil.
    inversion Hp as [| ? ? P0 Hp1]; subst.
    inversion Hp1 as [| ? ? P1 Hp2]; subst.
    inversion Hp2 as [| ? ? P2 Hp3]; subst.
    cbn [processFaces processFace app].
    assert (V : forall v p,
              let d := faceVertex rnd width height phase v0 v1 v2 n v p in
              0 <= tDelay d /\ 0 < tDuration d
              /\ tDelay d + tDuration d < latestFinish).
    { intros v p.
      destruct (faceVertex_timing rnd width height phase v0 v1 v2 n v p
                  Hw Hh P0 P1 P2 (proj1 (Hr n)) (proj2 (Hr n))
                  (proj1 (Hr _)) (proj2 (Hr _)))
        as (A & B & _ & _ & C).
      repeat split; assumption. }
    do 3 (apply List.Forall_cons; [exact (V _ _) |]).
    apply IH; [cbn in Hl; lia | exact Hp3].
Qed.

(** The same for the geometry of a slide built over the three.js plane. *)
Lemma plane_slide_timing (rnd : nat -> Q) (id : nat) (width height : Q)
    (phase : Phase) (n : nat) :
  0 < width -> 0 < height ->
  (0 < Qfloor (width * 2))%Z -> (0 < Qfloor (height * 2))%Z ->
  (forall k, 0 <= rnd k /\ rnd k < 1) ->
  Forall (fun d => 0 <= tDelay d /\ 0 < tDuration d
                   /\ tDelay d + tDuration d < latestFinish)
    (geometry (Slide_new rnd PlaneGeometry.positions id width height phase n)).
Proof.
  intros Hw Hh Hgx Hgy Hr. unfold Slide_new. cbn [geometry].
  apply (processFaces_timing rnd width height phase Hw Hh Hr
           (length (PlaneGeometry.positions width height (width * 2)
                      (height * 2)))).
  - apply Nat.le_refl.
  - apply positions_inPlane; assumption.
Qed.

Lemma latestFinish_exceeds_totalDuration :
  latestFinish == 2.357 /\ totalDuration < latestFinish.
Proof. split; reflexivity. Qed.

(** ** States the program reaches *)

Lemma init_no_timeline (rnd : nat -> Q)
    (plane : Q -> Q -> Q -> Q -> list Vector3) (texture1 : Texture) (n : Z) :
  timeline (gallery (init rnd plane texture1 (World_new n))) = None.
Proof.
  unfold init. cbv [GALLERY_CONFIG.autoAdvance].
  cbn [World_new gallery allocated randomCalls scene disposed upd_gallery
       set_gallery set_scene set_counters].
  destruct (1 <? _)%Z; reflexivity.
Qed.

(** From [init()] on, whatever happens, the handle's progress is within
    [0, 1]. *)
Lemma reachable_progressInRange (rnd : nat -> Q)
    (plane : Q -> Q -> Q -> Q -> list Vector3) (texture1 : Texture) (n : Z)
    (es : list Event) :
  progressInRange
    (timeline
       (gallery (run rnd plane es (init rnd plane texture1 (World_new n))))).
Proof.
  eapply progressInRange_evolves; [apply run_evolves |].
  rewrite init_no_timeline. exact I.
Qed.


(** * More of the script *)

(** ** Plane dimensions *)

Lemma maxAspect_value : MAX_WIDTH / MAX_HEIGHT == 5 # 3.
Proof. reflexivity. Qed.

(** X1.  For an image of positive width and height, the plane fits the
    bounds (width at most 100, height at most 60, both positive) and
    touches one of them. *)
Theorem calculatePlaneDimensions_fits (imageWidth imageHeight : Q) :
  0 < imageWidth -> 0 < imageHeight ->
  let dims := calculatePlaneDimensions imageWidth imageHeight in
  0 < fst dims /\ fst dims <= MAX_WIDTH
  /\ 0 < snd dims /\ snd dims <= MAX_HEIGHT
  /\ (fst dims = MAX_WIDTH \/ snd dims = MAX_HEIGHT).
Proof.
  intros Hw Hh dims. unfold dims, calculatePlaneDimensions.
  pose proof maxAspect_value as Em.
  assert (Ha : 0 < imageWidth / imageHeight)
    by (apply Qlt_shift_div_l; lra).
  set (a := imageWidth / imageHeight) in *.
  unfold MAX_WIDTH, MAX_HEIGHT in *.
  destruct (Qlt_le_dec (100 / 60) a) as [Hgt | Hle]; cbn [fst snd].
  - assert (P : 0 < 100 / a) by (apply Qlt_shift_div_l; lra).
    assert (B : 100 / a <= 60) by (apply Qle_shift_div_r; lra).
    repeat split; try lra. left. reflexivity.
  - repeat split; try lra. right. reflexivity.
Qed.

Lemma calculatePlaneDimensions_fits_witness :
  0 < 200 /\ 0 < 100
  /\ fst (calculatePlaneDimensions 200 100) <= MAX_WIDTH
  /\ snd (calculatePlaneDimensions 200 100) <= MAX_HEIGHT.
Proof.
  assert (Hw : 0 < 200) by reflexivity.
  assert (Hh : 0 < 100) by reflexivity.
  destruct (calculatePlaneDimensions_fits 200 100 Hw Hh)
    as (_ & A & _ & B & _).
  repeat split; assumption.
Defined.

(** ** Shuffling *)

Section ShuffleProperties.

Context {A : Type}.

Variable rnd : nat -> Q.

Hypothesis rnd_range : forall k, 0 <= rnd k /\ rnd k < 1.

Lemma drawn_index (i k : nat) :
  (Z.to_nat (Qfloor (rnd k * inject_Z (Z.of_nat (i + 1)))) <= i)%nat.
Proof using rnd_range.
  destruct (rnd_range k) as [R0 R1].
  remember (inject_Z (Z.of_nat (i + 1))) as m eqn:Em.
  assert (M : 0 < m).
  { subst m. change 0 with (inject_Z 0). rewrite <- Zlt_Qlt. lia. }
  assert (U : rnd k * m < m).
  { assert (H : 0 < (1 - rnd k) * m) by (apply Qmult_lt_0_compat; lra).
    assert (E : (1 - rnd k) * m == m - rnd k * m) by ring.
    rewrite E in H. set (p := rnd k * m) in *. lra. }
  pose proof (Qfloor_le (rnd k * m)) as F.
  assert (L : inject_Z (Qfloor (rnd k * m)) < m).
  { set (p := rnd k * m) in *. set (f := inject_Z (Qfloor p)) in *. lra. }
  subst m. rewrite <- Zlt_Qlt in L. lia.
Qed.

Lemma shuffleFrom_permutes (i : nat) :
  forall (k : nat) (l : list A),
    (i < length l)%nat ->
    exists l', shuffleFrom rnd i k l = Some l' /\ l' ≡ₚ l.
Proof using rnd_range.
  induction i as [| i IH]; intros k l Hi.
  - exists l. split; reflexivity.
  - cbn [shuffleFrom].
    pose proof (drawn_index (S i) k) as Hj.
    set (j := Z.to_nat (Qfloor (rnd k * inject_Z (Z.of_nat (S i + 1))))) in *.
    destruct (lookup_lt_is_Some_2 l (S i) Hi) as [ai Ei].
    destruct (lookup_lt_is_Some_2 l j) as [aj Ej]; [lia |].
    unfold swapAt. rewrite Ei, Ej.
    destruct (IH (S k) (<[j:=ai]> (<[S i:=aj]> l))) as (l' & E & P).
    + rewrite !length_insert. lia.
    + exists l'. split; [exact E |].
      rewrite P. apply Permutation_insert_swap; assumption.
Qed.

(** X2.  With draws in [0, 1), [shuffleArray] never reaches outside the
    array, and what it returns is a permutation of what it was given: the
    same elements, each as often, in some order. *)
Theorem shuffleArray_permutes (k : nat) (array : list A) :
  exists shuffled,
    shuffleArray rnd k array = Some shuffled
    /\ shuffled ≡ₚ array /\ length shuffled = length array.
Proof using rnd_range.
  unfold shuffleArray. destruct array as [| a array].
  - exists []. repeat split; reflexivity.
  - destruct (shuffleFrom_permutes (length (a :: array) - 1) k (a :: array))
      as (l' & E & P); [cbn; lia |].
    exists l'. split; [exact E |]. split; [exact P |].
    apply Permutation_length. exact P.
Qed.

End ShuffleProperties.

Lemma shuffleArray_permutes_witness :
  (forall k, 0 <= drawsCycle k /\ drawsCycle k < 1)
  /\ exists shuffled,
       shuffleArray drawsCycle 1 [1%nat; 2%nat; 3%nat; 4%nat] = Some shuffled
       /\ shuffled ≡ₚ [1%nat; 2%nat; 3%nat; 4%nat]
       /\ length shuffled = 4%nat.
Proof.
  assert (R : forall k, 0 <= drawsCycle k /\ drawsCycle k < 1).
  { intros k. unfold drawsCycle.
    assert (B : (k mod 10 < 10)%nat) by (apply Nat.mod_upper_bound; lia).
    assert (L : 0 <= inject_Z (Z.of_nat (k mod 10))).
    { change 0 with (inject_Z 0). rewrite <- Zle_Qle. lia. }
    assert (U : inject_Z (Z.of_nat (k mod 10)) < 10).
    { change 10 with (inject_Z 10). rewrite <- Zlt_Qlt. lia. }
    split; [apply Qle_shift_div_l; lra | apply Qlt_shift_div_r; lra]. }
  split; [exact R |].
  exact (shuffleArray_permutes drawsCycle R 1 [1%nat; 2%nat; 3%nat; 4%nat]).
Defined.


(** ** Control points *)

Lemma sign_cases (x : Q) :
  (MathUtils.sign x == -(1) /\ x < 0)
  \/ (MathUtils.sign x == 0 /\ x == 0)
  \/ (MathUtils.sign x == 1 /\ 0 < x).
Proof.
  unfold MathUtils.sign. destruct (Qcompare x 0) eqn:E.
  - right. left. split; [reflexivity | apply Qeq_alt; exact E].
  - left. split; [reflexivity | apply Qlt_alt; exact E].
  - right. right. split; [reflexivity | apply Qgt_alt; exact E].
Qed.

(** X4.  With draws in [0, 1): both control points lie on the same side of
    the centroid in x - to its left for a slide coming in, to its right
    for one going out - the first by 5 to 15 units and the second by 15 to
    30; in y they lie on opposite sides of it, within 21 and 42 units; in
    z within 10 units. *)
Theorem control_points_placement (rnd : nat -> Q) (c : Vector3)
    (phase : Phase) (n m : nat) :
  (forall k, 0 <= rnd k /\ rnd k < 1) ->
  let p0 := getControlPoint0 rnd c phase n in
  let p1 := getControlPoint1 rnd c phase m in
  let side := match phase with PhaseIn => -(1) | PhaseOut => 1 end in
  5 <= side * (vx p0 - vx c) /\ side * (vx p0 - vx c) < 15
  /\ 15 <= side * (vx p1 - vx c) /\ side * (vx p1 - vx c) < 30
  /\ (vy p0 - vy c) * (vy p1 - vy c) <= 0
  /\ Qabs (vy p0 - vy c) < 21 /\ Qabs (vy p1 - vy c) < 42
  /\ Qabs (vz p0 - vz c) <= 10 /\ Qabs (vz p1 - vz c) <= 10.
Proof.
  intros R p0 p1 side.
  destruct (R n) as [A0 A1]. destruct (R (n + 1)%nat) as [B0 B1].
  destruct (R (n + 2)%nat) as [C0 C1].
  destruct (R m) as [D0 D1]. destruct (R (m + 1)%nat) as [E0 E1].
  destruct (R (m + 2)%nat) as [F0 F1].
  unfold p0, p1, side, getControlPoint0, getControlPoint1,
    MathUtils.randFloat, MathUtils.randFloatSpread.
  set (a := rnd n) in *. set (b := rnd (n + 1)%nat) in *.
  set (z0 := rnd (n + 2)%nat) in *.
  set (d := rnd m) in *. set (e := rnd (m + 1)%nat) in *.
  set (z1 := rnd (m + 2)%nat) in *.
  set (s := MathUtils.sign (vy c)).
  assert (S2 : s * s == 0 \/ s * s == 1).
  { destruct (sign_cases (vy c)) as [[H _] | [[H _] | [H _]]];
      fold s in H; rewrite H; [right | left | right]; reflexivity. }
  assert (Y0 : 0 <= (0.1 + b * (0.3 - 0.1)) * 70
               /\ (0.1 + b * (0.3 - 0.1)) * 70 < 21) by (split; lra).
  assert (Y1 : 0 <= (0.3 + e * (0.6 - 0.3)) * 70
               /\ (0.3 + e * (0.6 - 0.3)) * 70 < 42) by (split; lra).
  set (y0 := (0.1 + b * (0.3 - 0.1)) * 70) in *.
  set (y1 := (0.3 + e * (0.6 - 0.3)) * 70) in *.
  assert (P : 0 <= y0 * y1) by (apply Qmult_le_0_compat; lra).
  assert (Ab : forall y lim, 0 <= y -> y < lim -> Qabs (s * y) < lim
                             /\ Qabs (- (s * y)) < lim).
  { intros y lim Hy Hl.
    destruct (sign_cases (vy c)) as [[H _] | [[H _] | [H _]]];
      fold s in H; rewrite H; split; apply Qabs_Qlt_condition; split; lra. }
  destruct (Ab y0 21 (proj1 Y0) (proj2 Y0)) as [Ab0 Ab0'].
  destruct (Ab y1 42 (proj1 Y1) (proj2 Y1)) as [Ab1 Ab1'].
  assert (Pr : - (s * s) * (y0 * y1) <= 0).
  { destruct S2 as [H | H]; rewrite H; lra. }
  destruct phase; cbn [vx vy vz vsub vadd].
  - repeat split; try lra.
    + assert (E : vy c - s * (0.1 + b * (0.3 - 0.1)) * 70 - vy c
                  == - (s * y0)) by (unfold y0; ring).
      assert (E' : vy c - - s * (0.3 + e * (0.6 - 0.3)) * 70 - vy c
                   == s * y1) by (unfold y1; ring).
      rewrite E, E'.
      assert (E2 : - (s * y0) * (s * y1) == - (s * s) * (y0 * y1)) by ring.
      rewrite E2. exact Pr.
    + assert (E : vy c - s * (0.1 + b * (0.3 - 0.1)) * 70 - vy c
                  == - (s * y0)) by (unfold y0; ring).
      rewrite E. exact Ab0'.
    + assert (E' : vy c - - s * (0.3 + e * (0.6 - 0.3)) * 70 - vy c
                   == s * y1) by (unfold y1; ring).
      rewrite E'. exact Ab1.
    + apply Qabs_Qle_condition. split; lra.
    + apply Qabs_Qle_condition. split; lra.
  - repeat split; try lra.
    + assert (E : vy c + s * (0.1 + b * (0.3 - 0.1)) * 70 - vy c
                  == s * y0) by (unfold y0; ring).
      assert (E' : vy c + - s * (0.3 + e * (0.6 - 0.3)) * 70 - vy c
                   == - (s * y1)) by (unfold y1; ring).
      rewrite E, E'.
      assert (E2 : s * y0 * - (s * y1) == - (s * s) * (y0 * y1)) by ring.
      rewrite E2. exact Pr.
    + assert (E : vy c + s * (0.1 + b * (0.3 - 0.1)) * 70 - vy c
                  == s * y0) by (unfold y0; ring).
      rewrite E. exact Ab0.
    + assert (E' : vy c + - s * (0.3 + e * (0.6 - 0.3)) * 70 - vy c
                   == - (s * y1)) by (unfold y1; ring).
      rewrite E'. exact Ab1'.
    + apply Qabs_Qle_condition. split; lra.
    + apply Qabs_Qle_condition. split; lra.
Qed.

Lemma control_points_placement_witness :
  (forall k, 0 <= draws99 k /\ draws99 k < 1)
  /\ 5 <= -(1) * (vx (getControlPoint0 draws99 (mkVector3 1 2 0) PhaseIn 4)
                   - 1)
  /\ (vy (getControlPoint0 draws99 (mkVector3 1 2 0) PhaseIn 4) - 2)
     * (vy (getControlPoint1 draws99 (mkVector3 1 2 0) PhaseIn 7) - 2) <= 0.
Proof.
  assert (R : forall k, 0 <= draws99 k /\ draws99 k < 1)
    by (intros k; split; [discriminate | reflexivity]).
  split; [exact R |].
  destruct (control_points_placement draws99 (mkVector3 1 2 0) PhaseIn 4 7 R)
    as (H1 & _ & _ & _ & H5 & _).
  split; [exact H1 | exact H5].
Defined.

(** ** The vertex shader's position *)

Lemma tProgress_before (delay duration time : Q) :
  0 < duration -> time <= delay -> tProgress time delay duration == 0.
Proof.
  intros Hd Ht. unfold tProgress. rewrite ease_easePiece. apply easePiece_0.
  rewrite (glsl_clamp_low (time - delay) 0.0 duration) by lra.
  field. lra.
Qed.

Lemma tProgress_after (delay duration time : Q) :
  0 < duration -> delay + duration <= time ->
  tProgress time delay duration == 1.
Proof.
  intros Hd Ht. unfold tProgress. rewrite ease_easePiece. apply easePiece_2.
  rewrite (glsl_clamp_high (time - delay) 0.0 duration) by lra.
  field. lra.
Qed.






(** ** What every state of a started gallery satisfies *)

Lemma galleryOK_timeline (n : Z) (C : Z -> Prop) (g : ImageGallery)
    (t : option Timeline) :
  galleryOK n C g ->
  (forall tl, t = Some tl ->
     indexOK n (tl_targetIndex tl)
     /\ 0 <= tl_progress tl /\ tl_progress tl <= 1) ->
  galleryOK n C (set_timeline t g).
Proof.
  intros (G1 & G2 & G3 & G4 & G5 & G6 & G7) Ht. destruct g.
  exact (conj G1 (conj G2 (conj G3 (conj G4 (conj G5 (conj Ht G7)))))).
Qed.

Lemma galleryOK_slides (n : Z) (C : Z -> Prop) (g : ImageGallery)
    (cur nxt : option Slide) :
  galleryOK n C g ->
  (forall s, cur = Some s -> slideOK s) ->
  (forall s, nxt = Some s -> slideOK s) ->
  galleryOK n C (set_slides cur nxt g).
Proof.
  intros (G1 & G2 & G3 & G4 & G5 & G6 & G7) Hc Hn. destruct g.
  exact (conj G1 (conj G2 (conj G3 (conj Hc (conj Hn (conj G6 G7)))))).
Qed.

Lemma galleryOK_textures (n : Z) (C : Z -> Prop) (g : ImageGallery)
    (t : gmap Z Texture) :
  galleryOK n C g ->
  (forall i, C i -> is_Some (t !! i)) ->
  galleryOK n C (set_textures t g).
Proof.
  intros (G1 & G2 & G3 & G4 & G5 & G6 & G7) Ht. destruct g.
  exact (conj G1 (conj G2 (conj Ht (conj G4 (conj G5 (conj G6 G7)))))).
Qed.

Lemma galleryOK_index (n : Z) (C : Z -> Prop) (g : ImageGallery) (i : Z) :
  galleryOK n C g -> indexOK n i -> galleryOK n C (set_currentIndex i g).
Proof.
  intros (G1 & G2 & G3 & G4 & G5 & G6 & G7) Hi. destruct g.
  exact (conj G1 (conj Hi (conj G3 (conj G4 (conj G5 (conj G6 G7)))))).
Qed.

Lemma galleryOK_isTransitioning (n : Z) (C : Z -> Prop) (g : ImageGallery)
    (b : bool) :
  galleryOK n C g -> galleryOK n C (set_isTransitioning b g).
Proof. intros G. exact G. Qed.

Lemma galleryOK_isPaused (n : Z) (C : Z -> Prop) (g : ImageGallery)
    (b : bool) :
  galleryOK n C g -> galleryOK n C (set_isPaused b g).
Proof. intros G. exact G. Qed.

Lemma galleryOK_stopAutoAdvance (n : Z) (C : Z -> Prop) (g : ImageGallery) :
  galleryOK n C g -> stopAutoAdvance g = g.
Proof.
  intros (_ & _ & _ & _ & _ & _ & G7). unfold stopAutoAdvance.
  rewrite G7. reflexivity.
Qed.

Lemma galleryOK_handle (n : Z) (C : Z -> Prop) (g : ImageGallery)
    (tl : Timeline) :
  galleryOK n C g -> timeline g = Some tl ->
  indexOK n (tl_targetIndex tl) /\ 0 <= tl_progress tl /\ tl_progress tl <= 1.
Proof. intros (_ & _ & _ & _ & _ & G6 & _) E. apply G6. exact E. Qed.

Lemma galleryOK_paused (n : Z) (C : Z -> Prop) (g : ImageGallery)
    (tl : Timeline) (b : bool) :
  galleryOK n C g -> timeline g = Some tl ->
  galleryOK n C (set_timeline (Some (Timeline_set_paused b tl)) g).
Proof.
  intros G E. apply galleryOK_timeline; [exact G |].
  intros tl' [= <-]. exact (galleryOK_handle n C g tl G E).
Qed.

Lemma slideOK_out (s : Slide) :
  slideOK s -> slideOK (Slide_set_time 0 (Slide_set_phase PhaseOut s)).
Proof.
  intros (S1 & S2 & S3 & S4 & S5). unfold slideOK. cbn.
  repeat split; try assumption; discriminate.
Qed.

Lemma slideOK_render (tl : Timeline) (s : Slide) :
  0 <= tl_progress tl -> tl_progress tl <= 1 ->
  slideOK s -> slideOK (renderSlide tl s).
Proof.
  intros P0 P1 (S1 & S2 & S3 & S4 & S5). unfold renderSlide.
  destruct (existsb _ _); [| repeat split; assumption].
  unfold slideOK. cbn. rewrite S3.
  assert (T : 0 <= totalDuration) by discriminate.
  set (p := tl_progress tl) in *. set (t := totalDuration) in *.
  repeat split; try assumption; nra.
Qed.

Section WellFormed.

Variable rnd : nat -> Q.
Variable plane : Q -> Q -> Q -> Q -> list Vector3.
Variable n : Z.
Variable C : Z -> Prop.

Lemma wf_pauseIfHeld (w : World) :
  wellFormed n C w -> wellFormed n C (pauseIfHeld w).
Proof.
  intros [G L]. unfold pauseIfHeld.
  destruct (timeline (gallery w)) as [tl |] eqn:E; [| split; assumption].
  destruct (mouseDown (scrubber w)); [| split; assumption].
  split; [| exact L]. apply galleryOK_paused; assumption.
Qed.

Lemma wf_fulfil (task : nat) (w : World) :
  wellFormed n C w -> wellFormed n C (fulfil task w).
Proof.
  intros H. unfold fulfil.
  destruct (tasks w !! task) as [[[|] | |] |]; try exact H.
  apply (wf_pauseIfHeld (set_tasks _ w)). exact H.
Qed.

Lemma wf_preloadAround (centerIndex : Z) (w : World) :
  wellFormed n C w -> wellFormed n C (preloadAround centerIndex w).
Proof.
  intros [G L]. unfold preloadAround. split; [exact G |].
  cbn [loads set_loads]. apply Forall_app. split; [exact L |].
  apply Forall_forall. intros ld Hld. apply list_elem_of_In in Hld.
  apply in_map_iff in Hld. destruct Hld as (t & <- & _). exact I.
Qed.

Lemma wf_resumeAfterTransition (task : nat) (w : World) :
  wellFormed n C w -> wellFormed n C (resumeAfterTransition task w).
Proof.
  intros H. unfold resumeAfterTransition. cbv [GALLERY_CONFIG.autoAdvance].
  apply wf_fulfil. apply wf_preloadAround. exact H.
Qed.

Lemma wf_resume_all (l : list (nat * nat)) :
  forall w : World,
    wellFormed n C w ->
    wellFormed n C
      (fold_left (fun w p => resumeAfterTransition (snd p) w) l w).
Proof.
  induction l as [| p l IH]; intros w H; cbn; [exact H |].
  apply IH. apply wf_resumeAfterTransition. exact H.
Qed.

Lemma wf_transitionTo (targetIndex : Z) (w w' : World) (tid : nat) :
  indexOK n targetIndex ->
  wellFormed n C w ->
  transitionTo rnd plane targetIndex w = Some (w', tid) ->
  wellFormed n C w'.
Proof.
  intros Hi [G L]. unfold transitionTo.
  destruct (textures (gallery w) !! targetIndex) as [texture |];
    [| discriminate].
  intros H. injection H as <- <-. split; [| exact L].
  cbn [gallery set_counters set_scene set_gallery].
  apply galleryOK_timeline.
  - apply galleryOK_slides; [exact G | |].
    + intros s Hs. destruct (currentSlide (gallery w)) as [s0 |] eqn:E;
        [| discriminate].
      cbn in Hs. injection Hs as <-. apply slideOK_out.
      destruct G as (_ & _ & _ & G4 & _). apply G4. exact E.
    + intros s [= <-]. unfold slideOK. cbn.
      repeat split; try discriminate; eauto.
  - intros tl [= <-]. cbn. repeat split; try apply Hi; discriminate.
Qed.

Lemma wf_awaitTransition (task : nat) (targetIndex : Z) (w : World) :
  indexOK n targetIndex ->
  wellFormed n C w ->
  wellFormed n C (awaitTransition rnd plane task targetIndex w).
Proof.
  intros Hi H. unfold awaitTransition.
  destruct (transitionTo rnd plane targetIndex w) as [[w' tid] |] eqn:E.
  - exact (wf_transitionTo targetIndex w w' tid Hi H E).
  - exact H.
Qed.

Lemma guard_passed (g : ImageGallery) :
  isTransitioning g || (imagePaths_length g <? 2)%Z = false ->
  (2 <= imagePaths_length g)%Z.
Proof.
  intros H. apply orb_false_iff in H. destruct H as [_ H].
  apply Z.ltb_ge in H. exact H.
Qed.

Lemma wf_next (w : World) :
  wellFormed n C w -> wellFormed n C (fst (next rnd plane w)).
Proof.
  intros [G L]. unfold next.
  destruct (isTransitioning (gallery w) || _) eqn:Eg; [split; assumption |].
  pose proof (guard_passed _ Eg) as Hn.
  pose proof G as (G1 & G2 & _).
  assert (Hi : indexOK n (Z.rem (currentIndex (gallery w) + 1)
                            (imagePaths_length (gallery w)))).
  { rewrite G1 in *. unfold indexOK in *.
    apply Z.rem_bound_pos; lia. }
  cbn [newTask]. cbv zeta.
  assert (W1 : wellFormed n C
                 (upd_gallery
                    (fun g => set_isTransitioning true (stopAutoAdvance g))
                    (set_counters (randomCalls w) (S (allocated w))
                       (set_tasks (<[allocated w:=Pending false]> (tasks w))
                          w)))).
  { split; [| exact L]. cbn [gallery upd_gallery set_gallery set_counters
                              set_tasks].
    rewrite (galleryOK_stopAutoAdvance n C _ G). exact G. }
  destruct (cached (gallery w) _); cbn [fst].
  - apply wf_awaitTransition; assumption.
  - destruct W1 as [G1' L1]. split; [exact G1' |].
    cbn [loads set_loads]. apply Forall_app. split; [exact L1 |].
    constructor; [exact Hi | constructor].
Qed.

Lemma wf_previous (w : World) :
  wellFormed n C w -> wellFormed n C (fst (previous rnd plane w)).
Proof.
  intros [G L]. unfold previous.
  destruct (isTransitioning (gallery w) || _) eqn:Eg; [split; assumption |].
  pose proof (guard_passed _ Eg) as Hn.
  pose proof G as (G1 & G2 & _).
  assert (Hi : indexOK n (Z.rem (currentIndex (gallery w) - 1
                                 + imagePaths_length (gallery w))
                            (imagePaths_length (gallery w)))).
  { rewrite G1 in *. unfold indexOK in *.
    apply Z.rem_bound_pos; lia. }
  cbn [newTask]. cbv zeta.
  assert (W1 : wellFormed n C
                 (upd_gallery
                    (fun g => set_isTransitioning true (stopAutoAdvance g))
                    (set_counters (randomCalls w) (S (allocated w))
                       (set_tasks (<[allocated w:=Pending false]> (tasks w))
                          w)))).
  { split; [| exact L]. cbn [gallery upd_gallery set_gallery set_counters
                              set_tasks].
    rewrite (galleryOK_stopAutoAdvance n C _ G). exact G. }
  destruct (cached (gallery w) _); cbn [fst].
  - apply wf_awaitTransition; assumption.
  - destruct W1 as [G1' L1]. split; [exact G1' |].
    cbn [loads set_loads]. apply Forall_app. split; [exact L1 |].
    constructor; [exact Hi | constructor].
Qed.

Lemma wf_settleLoad (k : nat) (r : Texture + Error) (w : World) :
  wellFormed n C w -> wellFormed n C (settleLoad rnd plane k r w).
Proof.
  intros [G L]. unfold settleLoad.
  destruct (loads w !! k) as [ld |] eqn:E; [| split; assumption].
  assert (Hld : loadOK n ld).
  { rewrite Forall_forall in L. apply L.
    eapply list_elem_of_lookup_2. exact E. }
  assert (Ld : Forall (loadOK n) (delete k (loads w)))
    by (apply Forall_delete; exact L).
  assert (Gt : forall texture,
            galleryOK n C
              (set_textures (<[ld_target ld:=texture]> (textures (gallery w)))
                 (gallery w))).
  { intros texture. apply galleryOK_textures; [exact G |].
    intros i Hi. destruct G as (_ & _ & G3 & _).
    destruct (decide (ld_target ld = i)) as [-> | Hne].
    - rewrite lookup_insert_eq. eauto.
    - rewrite lookup_insert_ne by exact Hne. apply G3. exact Hi. }
  unfold loadOK in Hld.
  destruct (ld_cont ld) as [task |], r as [texture | e].
  - apply wf_awaitTransition; [exact Hld |]. split; [apply Gt | exact Ld].
  - split; assumption.
  - split; [apply Gt | exact Ld].
  - split; assumption.
Qed.

Lemma wf_onComplete (tl : Timeline) (w : World) :
  timeline (gallery w) = Some tl ->
  wellFormed n C w -> wellFormed n C (onComplete tl w).
Proof.
  intros E [G L]. unfold onComplete. apply wf_resume_all.
  destruct (galleryOK_handle n C _ tl G E) as (Hi & _).
  assert (G' : galleryOK n C
                 (set_isTransitioning false
                    (set_currentIndex (tl_targetIndex tl)
                       (set_slides (nextSlide (gallery w)) None (gallery w))))).
  { apply galleryOK_isTransitioning. apply galleryOK_index; [| exact Hi].
    apply galleryOK_slides; [exact G | | discriminate].
    destruct G as (_ & _ & _ & _ & G5 & _). exact G5. }
  destruct (currentSlide (gallery w)); split; assumption.
Qed.

Lemma wf_togglePause (w : World) :
  wellFormed n C w -> wellFormed n C (togglePause w).
Proof.
  intros [G L]. unfold togglePause.
  destruct (timeline (gallery w)) as [tl |] eqn:E; [| split; assumption].
  split; [| exact L]. cbn [gallery upd_gallery set_gallery].
  apply (galleryOK_paused n C (set_isPaused _ (gallery w))); assumption.
Qed.

Lemma wf_reset (w : World) :
  wellFormed n C w -> wellFormed n C (reset rnd plane w).
Proof.
  intros [G L]. unfold reset.
  assert (E0 : upd_gallery stopAutoAdvance w = w).
  { unfold upd_gallery. rewrite (galleryOK_stopAutoAdvance n C _ G).
    destruct w; reflexivity. }
  rewrite E0. destruct (negb _); [| split; assumption].
  apply wf_next. split; [| exact L].
  cbn [gallery upd_gallery set_gallery]. apply galleryOK_index; [exact G |].
  destruct G as (G1 & G2 & _). rewrite G1. unfold indexOK in *. lia.
Qed.

Lemma wf_Timeline_progress (p : Q) (w : World) :
  0 <= p -> p <= 1 ->
  wellFormed n C w -> wellFormed n C (Timeline_progress p w).
Proof.
  intros P0 P1 [G L]. unfold Timeline_progress.
  destruct (timeline (gallery w)) as [tl |] eqn:E; [| split; assumption].
  split; [| exact L]. cbn [gallery upd_gallery set_gallery].
  destruct (galleryOK_handle n C _ tl G E) as (Hi & _).
  apply galleryOK_timeline.
  - apply galleryOK_slides; [exact G | |].
    + intros s Hs. destruct (currentSlide (gallery w)) as [s0 |] eqn:Es;
        [| discriminate].
      cbn in Hs. injection Hs as <-. apply slideOK_render; try assumption.
      destruct G as (_ & _ & _ & G4 & _). apply G4. exact Es.
    + intros s Hs. destruct (nextSlide (gallery w)) as [s0 |] eqn:Es;
        [| discriminate].
      cbn in Hs. injection Hs as <-. apply slideOK_render; try assumption.
      destruct G as (_ & _ & _ & _ & G5 & _). apply G5. exact Es.
  - intros tl' [= <-]. cbn. repeat split; try apply Hi; assumption.
Qed.

Lemma wf_Timeline_tick (d : Q) (w : World) :
  wellFormed n C w -> wellFormed n C (Timeline_tick d w).
Proof.
  intros H. unfold Timeline_tick.
  destruct (timeline (gallery w)) as [tl |]; [| exact H].
  destruct (tl_paused tl); [exact H |].
  destruct (clamp_range (tl_progress tl + d) 0 1) as [C0 C1];
    [discriminate |].
  apply wf_Timeline_progress; assumption.
Qed.

Lemma wf_scrub (dx : Q) (w : World) :
  wellFormed n C w -> wellFormed n C (scrub dx w).
Proof.
  intros H. unfold scrub.
  destruct (timeline (gallery w)) as [tl |]; [| exact H].
  destruct (transitionInitiated (scrubber w)); [| exact H].
  match goal with
  | |- context [MathUtils.clamp ?v 0 1] =>
      destruct (clamp_range v 0 1) as [C0 C1]; [discriminate |]
  end.
  apply wf_Timeline_progress; assumption.
Qed.

Lemma wf_stop (w : World) : wellFormed n C w -> wellFormed n C (stop w).
Proof.
  intros [G L]. unfold stop.
  destruct (timeline (gallery w)) as [tl |] eqn:E; [| split; assumption].
  split; [| exact L]. apply galleryOK_paused; assumption.
Qed.

Lemma wf_resume (w : World) : wellFormed n C w -> wellFormed n C (resume w).
Proof.
  intros [G L]. unfold resume.
  destruct (timeline (gallery w)) as [tl |] eqn:E; [| split; assumption].
  split; [| exact L]. apply galleryOK_paused; assumption.
Qed.

Lemma wf_thenPause (r : World * option nat) :
  wellFormed n C (fst r) -> wellFormed n C (thenPause r).
Proof.
  destruct r as [w [id |]]; cbn [fst thenPause]; intros H.
  - destruct (tasks w !! id) as [[b | | e] |]; try exact H.
    apply wf_pauseIfHeld. exact H.
  - apply wf_pauseIfHeld. exact H.
Qed.

Lemma wf_seek (dx totalDx : Q) (w : World) :
  wellFormed n C w -> wellFormed n C (seek rnd plane dx totalDx w).
Proof.
  intros H. unfold seek.
  destruct (_ && negb (isTransitioning (gallery w))); [| apply wf_scrub; exact H].
  destruct (Qlt_le_dec threshold (Qabs totalDx)); [| apply wf_scrub; exact H].
  destruct (Qlt_le_dec 0 totalDx); apply wf_thenPause;
    [apply wf_next | apply wf_previous]; exact H.
Qed.

Lemma wf_mousedown (x : Q) (w : World) :
  wellFormed n C w -> wellFormed n C (mousedown x w).
Proof.
  intros H. unfold mousedown. cbn [gallery set_scrubber].
  destruct (timeline (gallery w)) as [tl |] eqn:E; [| exact H].
  destruct (Qlt_le_dec (tl_progress tl) 1); [| exact H].
  apply (wf_stop (set_scrubber _ w)). exact H.
Qed.

Lemma wf_touchstart (x : Q) (w : World) :
  wellFormed n C w -> wellFormed n C (touchstart x w).
Proof.
  intros H. unfold touchstart. cbn [gallery set_scrubber].
  destruct (timeline (gallery w)) as [tl |] eqn:E; [| exact H].
  destruct (Qlt_le_dec (tl_progress tl) 1); [| exact H].
  apply (wf_stop (set_scrubber _ w)). exact H.
Qed.

(** No handler takes the program out of the well-formed states. *)
Lemma wf_handle (e : Event) (w : World) :
  wellFormed n C w -> wellFormed n C (handle rnd plane e w).
Proof.
  intros H. destruct e; cbn [handle].
  - apply wf_next. exact H.
  - apply wf_previous. exact H.
  - apply wf_togglePause. exact H.
  - apply wf_reset. exact H.
  - apply wf_mousedown. exact H.
  - unfold mouseup. apply (wf_resume (set_scrubber _ w)). exact H.
  - unfold mousemove. destruct (mouseDown (scrubber w)); [| exact H].
    apply (wf_seek _ _ (set_scrubber _ w)). exact H.
  - apply wf_touchstart. exact H.
  - unfold touchend. apply (wf_resume (set_scrubber _ w)). exact H.
  - unfold touchmove. apply (wf_seek _ _ (set_scrubber _ w)). exact H.
  - apply wf_settleLoad. exact H.
  - apply wf_Timeline_tick. exact H.
  - destruct (timeline (gallery w)) as [tl |] eqn:E; [| exact H].
    apply wf_onComplete; assumption.
  - destruct (autoAdvanceTimer (gallery w)); [apply wf_next |]; exact H.
Qed.

Lemma wf_run (es : list Event) :
  forall w : World,
    wellFormed n C w -> wellFormed n C (run rnd plane es w).
Proof.
  induction es as [| e es IH]; intros w H; [exact H |].
  change (run rnd plane (e :: es) w)
    with (run rnd plane es (handle rnd plane e w)).
  apply IH. apply wf_handle. exact H.
Qed.

End WellFormed.

Lemma wf_cache (n : Z) (C C' : Z -> Prop) (w : World) :
  (forall i, C' i -> is_Some (textures (gallery w) !! i)) ->
  wellFormed n C w -> wellFormed n C' w.
Proof.
  intros HC [(G1 & G2 & G3 & G4 & G5 & G6 & G7) L].
  split; [| exact L].
  exact (conj G1 (conj G2 (conj HC (conj G4 (conj G5 (conj G6 G7)))))).
Qed.

(** [init()] leaves a well-formed state, with the first image in the
    cache. *)
Lemma wf_init (rnd : nat -> Q) (plane : Q -> Q -> Q -> Q -> list Vector3)
    (texture1 : Texture) (n : Z) :
  (1 <= n)%Z ->
  wellFormed n (fun i => i = 0%Z) (init rnd plane texture1 (World_new n)).
Proof.
  intros Hn. unfold init. cbv [GALLERY_CONFIG.autoAdvance].
  match goal with
  | |- wellFormed _ _ (if _ then preloadAround ?c ?w else _) =>
      assert (W : wellFormed n (fun i => i = 0%Z) w)
  end.
  { split; [| constructor]. unfold galleryOK. cbn.
    refine (conj eq_refl (conj _ (conj _ (conj _ (conj _ (conj _ eq_refl)))))).
    - unfold indexOK. lia.
    - intros i ->. rewrite lookup_insert_eq. eauto.
    - intros s [= <-]. unfold slideOK. cbn.
      repeat split; try discriminate; eauto.
    - intros s [=].
    - intros tl [=]. }
  destruct (1 <? _)%Z; [apply wf_preloadAround |]; exact W.
Qed.


Lemma run_append (rnd : nat -> Q) (plane : Q -> Q -> Q -> Q -> list Vector3)
    (es1 es2 : list Event) (w : World) :
  run rnd plane (es1 ++ es2) w = run rnd plane es2 (run rnd plane es1 w).
Proof. unfold run. apply fold_left_app. Qed.

Section Reachable.

Variable rnd : nat -> Q.
Variable plane : Q -> Q -> Q -> Q -> list Vector3.
Variable texture1 : Texture.
Variable n : Z.

(** X6.  From [init()] on, whatever happens (keys, pointer, loads settling
    either way, ticks, completions), the number of images stays what it
    was and the current index names one of them; so does the target of the
    timeline, if there is one, and of every load that [next()] or
    [previous()] waits for. *)
Theorem index_stays_in_range (es : list Event) :
  (1 <= n)%Z ->
  let w := run rnd plane es (init rnd plane texture1 (World_new n)) in
  imagePaths_length (gallery w) = n
  /\ (0 <= currentIndex (gallery w) < n)%Z
  /\ (forall tl, timeline (gallery w) = Some tl ->
        (0 <= tl_targetIndex tl < n)%Z)
  /\ (forall k target task,
        loads w !! k = Some (mkLoad target (NavLoad task)) ->
        (0 <= target < n)%Z).
Proof.
  intros Hn w.
  destruct (wf_run rnd plane n _ es _ (wf_init rnd plane texture1 n Hn))
    as [(G1 & G2 & _ & _ & _ & G6 & _) L].
  fold w in G1, G2, G6, L.
  split; [exact G1 |]. split; [exact G2 |]. split.
  - intros tl E. apply (G6 tl E).
  - intros k target task E. rewrite Forall_forall in L.
    apply (L (mkLoad target (NavLoad task))).
    eapply list_elem_of_lookup_2. exact E.
Qed.

(** X7.  From [init()] on, the first image is always in the texture cache,
    and no event ever takes an entry out of the cache: an index that has a
    texture keeps having one. *)
Theorem cache_never_evicts (es1 es2 : list Event) (i : Z) :
  (1 <= n)%Z ->
  let w0 := init rnd plane texture1 (World_new n) in
  is_Some (textures (gallery (run rnd plane es1 w0)) !! 0%Z)
  /\ (is_Some (textures (gallery (run rnd plane es1 w0)) !! i) ->
      is_Some (textures (gallery (run rnd plane (es1 ++ es2) w0)) !! i)).
Proof.
  intros Hn w0.
  pose proof (wf_run rnd plane n _ es1 _ (wf_init rnd plane texture1 n Hn))
    as W1.
  fold w0 in W1. split.
  - destruct W1 as [(_ & _ & G3 & _) _]. apply G3. reflexivity.
  - intros Hi. rewrite run_append.
    assert (W1' : wellFormed n
                    (fun j => is_Some
                                (textures (gallery (run rnd plane es1 w0)) !! j))
                    (run rnd plane es1 w0)).
    { eapply wf_cache; [| exact W1]. intros j Hj. exact Hj. }
    destruct (wf_run rnd plane n _ es2 _ W1') as [(_ & _ & G3 & _) _].
    apply G3. exact Hi.
Qed.

(** X8.  From [init()] on, every slide the gallery holds (current or next)
    has its time uniform within [0, totalDuration], a texture bound, its
    [totalDuration] field equal to the constant, and its phase uniform
    (1 for in, -1 for out) in step with its phase; the progress of the
    timeline, if there is one, is within [0, 1]; and no auto-advance timer
    is ever armed. *)
Theorem slides_stay_in_order (es : list Event) :
  (1 <= n)%Z ->
  let w := run rnd plane es (init rnd plane texture1 (World_new n)) in
  (forall s,
     currentSlide (gallery w) = Some s \/ nextSlide (gallery w) = Some s ->
     0 <= uTime s /\ uTime s <= totalDuration
     /\ slide_totalDuration s = totalDuration
     /\ is_Some (uTexture s)
     /\ uPhase s = uPhaseOf (animationPhase s))
  /\ (forall tl, timeline (gallery w) = Some tl ->
        0 <= tl_progress tl /\ tl_progress tl <= 1)
  /\ autoAdvanceTimer (gallery w) = false.
Proof.
  intros Hn w.
  destruct (wf_run rnd plane n _ es _ (wf_init rnd plane texture1 n Hn))
    as [(_ & _ & _ & G4 & G5 & G6 & G7) _].
  fold w in G4, G5, G6, G7.
  split; [| split; [| exact G7]].
  - intros s [E | E]; [apply (G4 s E) | apply (G5 s E)].
  - intros tl E. apply (G6 tl E).
Qed.

End Reachable.

Lemma index_stays_in_range_witness :
  (1 <= 3)%Z
  /\ (0 <= currentIndex
             (gallery
                (run draws99 PlaneGeometry.positions
                   [KeyNext; Complete; KeyReset; MouseDown 0; MouseMove 50]
                   (init draws99 PlaneGeometry.positions image2x1
                      (World_new 3)))) < 3)%Z.
Proof.
  assert (H : (1 <= 3)%Z) by lia.
  split; [exact H |].
  exact (proj1 (proj2 (index_stays_in_range draws99 PlaneGeometry.positions
                         image2x1 3
                         [KeyNext; Complete; KeyReset; MouseDown 0;
                          MouseMove 50] H))).
Defined.

Lemma cache_never_evicts_witness :
  (1 <= 3)%Z
  /\ is_Some
       (textures
          (gallery
             (run draws99 PlaneGeometry.positions
                [LoadSettled 0 (inr (LoadError 404)); KeyPrevious]
                (init draws99 PlaneGeometry.positions image2x1 (World_new 3))))
        !! 0%Z).
Proof.
  assert (H : (1 <= 3)%Z) by lia.
  split; [exact H |].
  exact (proj1 (cache_never_evicts draws99 PlaneGeometry.positions image2x1 3
                  [LoadSettled 0 (inr (LoadError 404)); KeyPrevious] [] 0 H)).
Defined.

Lemma slides_stay_in_order_witness :
  (1 <= 3)%Z
  /\ autoAdvanceTimer
       (gallery
          (run draws99 PlaneGeometry.positions
             [LoadSettled 0 (inl image2x1); KeyNext; Tick 0.25; MouseDown 5]
             (init draws99 PlaneGeometry.positions image2x1 (World_new 3))))
     = false.
Proof.
  assert (H : (1 <= 3)%Z) by lia.
  split; [exact H |].
  exact (proj2 (proj2 (slides_stay_in_order draws99 PlaneGeometry.positions
                         image2x1 3
                         [LoadSettled 0 (inl image2x1); KeyNext; Tick 0.25;
                          MouseDown 5] H))).
Defined.


(** ** A transition from start to completion *)

Lemma resumeAfterTransition_scene (task : nat) (w : World) :
  scene (resumeAfterTransition task w) = scene w
  /\ disposed (resumeAfterTransition task w) = disposed w.
Proof.
  unfold resumeAfterTransition. cbv [GALLERY_CONFIG.autoAdvance].
  unfold fulfil, pauseIfHeld, preloadAround.
  cbn [gallery tasks scrubber set_loads set_tasks].
  destruct (tasks w !! task) as [[[|] | |] |]; try (split; reflexivity).
  destruct (timeline (gallery w)); [| split; reflexivity].
  destruct (mouseDown (scrubber w)); split; reflexivity.
Qed.

Lemma resume_all_scene (l : list (nat * nat)) :
  forall w : World,
    scene (fold_left (fun w p => resumeAfterTransition (snd p) w) l w)
    = scene w
    /\ disposed (fold_left (fun w p => resumeAfterTransition (snd p) w) l w)
       = disposed w.
Proof.
  induction l as [| p l IH]; intros w; cbn; [split; reflexivity |].
  destruct (IH (resumeAfterTransition (snd p) w)) as [-> ->].
  apply resumeAfterTransition_scene.
Qed.

(** What [onComplete] does to the scene: the current slide, if any, is
    taken out and disposed. *)
Lemma onComplete_scene (tl : Timeline) (w : World) :
  scene (onComplete tl w)
  = match currentSlide (gallery w) with
    | Some s => filter (fun i => negb (i =? slide_id s)%nat) (scene w)
    | None => scene w
    end
  /\ disposed (onComplete tl w)
     = match currentSlide (gallery w) with
       | Some s => disposed w ++ [slide_id s]
       | None => disposed w
       end.
Proof.
  unfold onComplete.
  match goal with
  | |- context [fold_left ?f ?l ?w0] =>
      destruct (resume_all_scene l w0) as [-> ->]
  end.
  destruct (currentSlide (gallery w)); split; reflexivity.
Qed.

Section Transition.

Variable rnd : nat -> Q.
Variable plane : Q -> Q -> Q -> Q -> list Vector3.

(** [await this.transitionTo(targetIndex)] with the texture in the cache:
    the state in which the call is suspended. *)
Lemma transition_started (task : nat) (targetIndex : Z) (w : World)
    (texture : Texture) :
  textures (gallery w) !! targetIndex = Some texture ->
  let w' := awaitTransition rnd plane task targetIndex w in
  let dims :=
    calculatePlaneDimensions (image_width texture) (image_height texture) in
  currentSlide (gallery w')
  = option_map (fun s => Slide_set_time 0 (Slide_set_phase PhaseOut s))
      (currentSlide (gallery w))
  /\ nextSlide (gallery w')
     = Some (Slide_setTexture texture
               (Slide_new rnd plane (allocated w) (fst dims) (snd dims)
                  PhaseIn (randomCalls w)))
  /\ timeline (gallery w')
     = Some {| tl_id := S (allocated w); tl_progress := 0;
               tl_paused := false;
               tl_tweens :=
                 match currentSlide (gallery w) with
                 | Some s => [slide_id s]
                 | None => []
                 end ++ [allocated w];
               tl_targetIndex := targetIndex |}
  /\ scene w' = scene w ++ [allocated w]
  /\ disposed w' = disposed w
  /\ currentIndex (gallery w') = currentIndex (gallery w)
  /\ isTransitioning (gallery w') = isTransitioning (gallery w).
Proof.
  intros E. unfold awaitTransition, transitionTo. rewrite E. cbn.
  destruct (currentSlide (gallery w)); repeat split.
Qed.

Lemma next_cached_eq (w : World) :
  isTransitioning (gallery w) = false ->
  (2 <= imagePaths_length (gallery w))%Z ->
  is_Some (textures (gallery w)
             !! Z.rem (currentIndex (gallery w) + 1)
                  (imagePaths_length (gallery w))) ->
  fst (next rnd plane w)
  = awaitTransition rnd plane (allocated w)
      (Z.rem (currentIndex (gallery w) + 1) (imagePaths_length (gallery w)))
      (upd_gallery (fun g => set_isTransitioning true (stopAutoAdvance g))
         (set_counters (randomCalls w) (S (allocated w))
            (set_tasks (<[allocated w:=Pending false]> (tasks w)) w))).
Proof.
  intros Ht Hn [texture Hc].
  assert (G : isTransitioning (gallery w)
              || (imagePaths_length (gallery w) <? 2)%Z = false).
  { rewrite Ht. cbn. apply Z.ltb_ge. exact Hn. }
  unfold next. rewrite G. cbn [newTask]. cbv zeta.
  unfold cached. rewrite Hc. reflexivity.
Qed.

Lemma previous_cached_eq (w : World) :
  isTransitioning (gallery w) = false ->
  (2 <= imagePaths_length (gallery w))%Z ->
  is_Some (textures (gallery w)
             !! Z.rem (currentIndex (gallery w) - 1
                       + imagePaths_length (gallery w))
                  (imagePaths_length (gallery w))) ->
  fst (previous rnd plane w)
  = awaitTransition rnd plane (allocated w)
      (Z.rem (currentIndex (gallery w) - 1 + imagePaths_length (gallery w))
         (imagePaths_length (gallery w)))
      (upd_gallery (fun g => set_isTransitioning true (stopAutoAdvance g))
         (set_counters (randomCalls w) (S (allocated w))
            (set_tasks (<[allocated w:=Pending false]> (tasks w)) w))).
Proof.
  intros Ht Hn [texture Hc].
  assert (G : isTransitioning (gallery w)
              || (imagePaths_length (gallery w) <? 2)%Z = false).
  { rewrite Ht. cbn. apply Z.ltb_ge. exact Hn. }
  unfold previous. rewrite G. cbn [newTask]. cbv zeta.
  unfold cached. rewrite Hc. reflexivity.
Qed.

Lemma started_textures (w : World) (i : Z) :
  textures
    (gallery
       (upd_gallery (fun g => set_isTransitioning true (stopAutoAdvance g))
          (set_counters (randomCalls w) (S (allocated w))
             (set_tasks (<[allocated w:=Pending false]> (tasks w)) w))))
    !! i
  = textures (gallery w) !! i.
Proof.
  cbn. destruct (stopAutoAdvance_fields (gallery w)) as (_ & _ & -> & _).
  reflexivity.
Qed.

Lemma complete_after_await (task : nat) (targetIndex : Z) (w : World)
    (texture : Texture) :
  textures (gallery w) !! targetIndex = Some texture ->
  currentIndex
    (gallery
       (handle rnd plane Complete
          (awaitTransition rnd plane task targetIndex w)))
  = targetIndex.
Proof.
  intros E. cbn [handle].
  destruct (transition_started task targetIndex w texture E)
    as (_ & _ & T & _).
  cbv zeta in T. rewrite T.
  match goal with
  | |- currentIndex (gallery (onComplete ?tl ?w0)) = _ =>
      destruct (onComplete_result tl w0) as (R & _); exact R
  end.
Qed.

(** X9.  Wraparound.  With no transition in flight, in a gallery of [N >= 2]
    images at an index within [0, N): [next()] followed by the completion
    of its transition leaves the index at [(index + 1) mod N], and
    [previous()] at [(index - 1) mod N] - so [next()] at the last image
    leads to the first, and [previous()] at the first to the last -
    provided the texture of the target is in the cache. *)
Theorem navigation_wraps_around (w : World) :
  isTransitioning (gallery w) = false ->
  (2 <= imagePaths_length (gallery w))%Z ->
  (0 <= currentIndex (gallery w) < imagePaths_length (gallery w))%Z ->
  let N := imagePaths_length (gallery w) in
  let i := currentIndex (gallery w) in
  (is_Some (textures (gallery w) !! ((i + 1) mod N)%Z) ->
   currentIndex
     (gallery (handle rnd plane Complete (handle rnd plane KeyNext w)))
   = ((i + 1) mod N)%Z)
  /\ (is_Some (textures (gallery w) !! ((i - 1) mod N)%Z) ->
      currentIndex
        (gallery (handle rnd plane Complete (handle rnd plane KeyPrevious w)))
      = ((i - 1) mod N)%Z)
  /\ (i = (N - 1)%Z -> ((i + 1) mod N = 0)%Z)
  /\ (i = 0%Z -> ((i - 1) mod N = N - 1)%Z).
Proof.
  intros Ht Hn Hi N i. fold N i in Hn, Hi.
  assert (E1 : Z.rem (i + 1) N = ((i + 1) mod N)%Z)
    by (apply Z.rem_mod_nonneg; lia).
  assert (E2 : Z.rem (i - 1 + N) N = ((i - 1) mod N)%Z).
  { rewrite Z.rem_mod_nonneg by lia.
    replace (i - 1 + N)%Z with (i - 1 + 1 * N)%Z by lia.
    apply Z_mod_plus_full. }
  split; [| split; [| split]].
  - intros Hc. change (handle rnd plane KeyNext w) with (fst (next rnd plane w)).
    rewrite <- E1 in *. rewrite (next_cached_eq w Ht Hn Hc).
    destruct Hc as [texture Hc].
    apply (complete_after_await _ _ _ texture).
    rewrite started_textures. exact Hc.
  - intros Hc.
    change (handle rnd plane KeyPrevious w) with (fst (previous rnd plane w)).
    rewrite <- E2 in *. rewrite (previous_cached_eq w Ht Hn Hc).
    destruct Hc as [texture Hc].
    apply (complete_after_await _ _ _ texture).
    rewrite started_textures. exact Hc.
  - intros E. rewrite E. replace (N - 1 + 1)%Z with N by lia.
    apply Z_mod_same_full.
  - intros E. rewrite E.
    replace (0 - 1)%Z with (N - 1 + -1 * N)%Z by lia.
    rewrite Z_mod_plus_full. apply Z.mod_small. lia.
Qed.

(** X10.  The life of one transition.  [next()] on a gallery at rest, the
    target texture in the cache, creates the incoming slide (phase in,
    time 0, bound to the target's texture), turns the current slide to
    phase out at time 0, puts both on one timeline starting together, and
    adds the incoming slide to the scene; nothing is disposed yet.  The
    completion of the timeline promotes the incoming slide, leaves no next
    slide, clears the flag, takes the old slide out of the scene and
    disposes it, once. *)
Theorem transition_lifecycle (w : World) (s : Slide) (texture : Texture) :
  isTransitioning (gallery w) = false ->
  (2 <= imagePaths_length (gallery w))%Z ->
  currentSlide (gallery w) = Some s ->
  textures (gallery w)
    !! Z.rem (currentIndex (gallery w) + 1) (imagePaths_length (gallery w))
  = Some texture ->
  let w1 := handle rnd plane KeyNext w in
  let w2 := handle rnd plane Complete w1 in
  let old := Slide_set_time 0 (Slide_set_phase PhaseOut s) in
  exists nxt : Slide,
    slide_id nxt = S (allocated w)
    /\ animationPhase nxt = PhaseIn /\ uTime nxt = 0
    /\ uTexture nxt = Some texture
    /\ currentSlide (gallery w1) = Some old
    /\ nextSlide (gallery w1) = Some nxt
    /\ isTransitioning (gallery w1) = true
    /\ (exists tl, timeline (gallery w1) = Some tl
                   /\ tl_tweens tl = [slide_id s; slide_id nxt]
                   /\ tl_progress tl = 0 /\ tl_paused tl = false)
    /\ scene w1 = scene w ++ [slide_id nxt]
    /\ disposed w1 = disposed w
    /\ currentSlide (gallery w2) = Some nxt
    /\ nextSlide (gallery w2) = None
    /\ isTransitioning (gallery w2) = false
    /\ scene w2
       = filter (fun i => negb (i =? slide_id s)%nat)
           (scene w ++ [slide_id nxt])
    /\ disposed w2 = disposed w ++ [slide_id s].
Proof.
  intros Ht Hn Hs Hc w1 w2 old.
  destruct (stopAutoAdvance_fields (gallery w))
    as (_ & _ & F3 & F4 & _ & _ & _).
  assert (E1 : w1 = fst (next rnd plane w)) by reflexivity.
  rewrite (next_cached_eq w Ht Hn (ex_intro _ texture Hc)) in E1.
  match type of E1 with
  | _ = awaitTransition _ _ ?t ?x ?w0 =>
      destruct (transition_started t x w0 texture)
        as (A & B & T & Sc & D & _ & I);
      [rewrite started_textures; exact Hc |]
  end.
  rewrite <- E1 in A, B, T, Sc, D, I. cbv zeta in A, B, T, Sc, D, I.
  cbn [gallery upd_gallery set_gallery set_counters set_tasks allocated
       randomCalls scene disposed currentSlide set_isTransitioning
       isTransitioning] in A, B, T, Sc, D, I.
  rewrite F4, Hs in A, T. cbn [option_map app] in A, T.
  eexists. split; [| split; [| split; [| split; [| split; [exact A |
    split; [exact B | split; [exact I | split; [| split; [exact Sc |
    split; [exact D |]]]]]]]]]].
  1-4: reflexivity.
  { eexists. split; [exact T |]. repeat split. }
  unfold w2. cbn [handle]. rewrite T.
  match goal with
  | |- context [onComplete ?tl w1] =>
      destruct (onComplete_result tl w1) as (_ & R2 & R3 & R4);
      destruct (onComplete_scene tl w1) as (S1 & S2)
  end.
  rewrite R2, R3, R4, S1, S2, A, B, Sc, D. repeat split.
Qed.

(** X11.  The completion callback is not idempotent.  Should the
    [onComplete] of a timeline run a second time with no new transition
    started in between, it treats the slide it has just promoted as the old
    one: that slide is taken out of the scene and disposed, and the gallery
    is left with no current slide and no next slide. *)
Theorem second_completion_empties_gallery (tl : Timeline) (w : World)
    (s : Slide) :
  nextSlide (gallery w) = Some s ->
  let w1 := onComplete tl w in
  let w2 := onComplete tl w1 in
  currentSlide (gallery w1) = Some s
  /\ currentSlide (gallery w2) = None
  /\ nextSlide (gallery w2) = None
  /\ In (slide_id s) (disposed w2)
  /\ ~ In (slide_id s) (scene w2).
Proof.
  intros Hs w1 w2.
  destruct (onComplete_result tl w) as (_ & _ & N1 & C1).
  fold w1 in N1, C1. rewrite Hs in C1.
  destruct (onComplete_result tl w1) as (_ & _ & N2 & C2).
  destruct (onComplete_scene tl w1) as (S1 & S2).
  fold w2 in N2, C2, S1, S2. rewrite N1 in C2. rewrite C1 in S1, S2.
  split; [exact C1 |]. split; [exact C2 |]. split; [exact N2 |]. split.
  - rewrite S2. apply in_or_app. right. left. reflexivity.
  - rewrite S1. intros H. apply list_elem_of_In in H.
    apply list_elem_of_filter in H. destruct H as [H _].
    rewrite Nat.eqb_refl in H. exact H.
Qed.

End Transition.

Lemma navigation_wraps_around_witness :
  isTransitioning (gallery atSecondOf4) = false
  /\ (2 <= imagePaths_length (gallery atSecondOf4))%Z
  /\ currentIndex
       (gallery
          (handle draws99 PlaneGeometry.positions Complete
             (handle draws99 PlaneGeometry.positions KeyPrevious atSecondOf4)))
     = ((currentIndex (gallery atSecondOf4) - 1)
        mod imagePaths_length (gallery atSecondOf4))%Z.
Proof.
  assert (H1 : isTransitioning (gallery atSecondOf4) = false)
    by (evaluate; reflexivity).
  assert (H2 : (2 <= imagePaths_length (gallery atSecondOf4))%Z)
    by (evaluate; discriminate).
  assert (H3 : (0 <= currentIndex (gallery atSecondOf4)
                < imagePaths_length (gallery atSecondOf4))%Z)
    by (evaluate; split; [discriminate | reflexivity]).
  split; [exact H1 |]. split; [exact H2 |].
  apply (proj1 (proj2 (navigation_wraps_around draws99 PlaneGeometry.positions
                         atSecondOf4 H1 H2 H3))).
  evaluate. eexists. reflexivity.
Defined.

Lemma present_default {A : Type} (d : A) (o : option A) :
  match o with Some _ => true | None => false end = true ->
  o = Some (default d o).
Proof. destruct o; [reflexivity | discriminate]. Qed.

Lemma transition_lifecycle_witness :
  let s := default (Slide_100x50 draws99) (currentSlide (gallery idle2)) in
  isTransitioning (gallery idle2) = false
  /\ currentSlide (gallery idle2) = Some s
  /\ textures (gallery idle2)
       !! Z.rem (currentIndex (gallery idle2) + 1)
            (imagePaths_length (gallery idle2))
     = Some image2x1
  /\ disposed
       (handle draws99 PlaneGeometry.positions Complete
          (handle draws99 PlaneGeometry.positions KeyNext idle2))
     = disposed idle2 ++ [slide_id s].
Proof.
  intros s.
  assert (H1 : isTransitioning (gallery idle2) = false)
    by (evaluate; reflexivity).
  assert (H2 : (2 <= imagePaths_length (gallery idle2))%Z)
    by (evaluate; discriminate).
  assert (Hs : currentSlide (gallery idle2) = Some s)
    by (apply present_default; evaluate; reflexivity).
  assert (Hc : textures (gallery idle2)
                 !! Z.rem (currentIndex (gallery idle2) + 1)
                      (imagePaths_length (gallery idle2))
               = Some image2x1) by (evaluate; reflexivity).
  split; [exact H1 |]. split; [exact Hs |]. split; [exact Hc |].
  destruct (transition_lifecycle draws99 PlaneGeometry.positions idle2 s
              image2x1 H1 H2 Hs Hc)
    as (nxt & _ & _ & _ & _ & _ & _ & _ & _ & _ & _ & _ & _ & _ & _ & H).
  exact H.
Defined.

Lemma second_completion_empties_gallery_witness :
  let s := default (Slide_100x50 draws99) (nextSlide (gallery dragStarted)) in
  let tl := mkTimeline 3 0 false [0%nat; 2%nat] 1 in
  nextSlide (gallery dragStarted) = Some s
  /\ currentSlide (gallery (onComplete tl (onComplete tl dragStarted)))
     = None.
Proof.
  intros s tl.
  assert (Hs : nextSlide (gallery dragStarted) = Some s)
    by (apply present_default; evaluate; reflexivity).
  split; [exact Hs |].
  destruct (second_completion_empties_gallery tl dragStarted s Hs)
    as (_ & H & _).
  exact H.
Defined.

(** ** Preloading *)

Lemma uncached_None (g : ImageGallery) (i : Z) :
  negb (cached g i) -> textures g !! i = None.
Proof. unfold cached. destruct (textures g !! i); [intros [] | reflexivity]. Qed.

Lemma preloadOffsets_spec (offset : Z) :
  In offset (preloadOffsets GALLERY_CONFIG.preloadRadius)
  <-> offset <> 0%Z /\ (-3 <= offset <= 3)%Z.
Proof.
  change (preloadOffsets GALLERY_CONFIG.preloadRadius)
    with [-3; -2; -1; 1; 2; 3]%Z.
  cbn [In]. lia.
Qed.

(** X12.  [preloadAround(centerIndex)] touches nothing but the loader: it
    starts at most six loads, all of them preloads, one for each offset
    from -3 to 3 other than 0 whose image [(centerIndex + offset + N) % N]
    is not in the cache - and none for an image that is. *)
Theorem preloadAround_requests (centerIndex : Z) (w : World) :
  let N := imagePaths_length (gallery w) in
  let target offset := Z.rem (centerIndex + offset + N) N in
  exists targets : list Z,
    preloadAround centerIndex w
    = set_loads (loads w ++ map (fun t => mkLoad t PreloadLoad) targets) w
    /\ (length targets <= 6)%nat
    /\ (forall t, In t targets ->
          textures (gallery w) !! t = None
          /\ exists offset,
               offset <> 0%Z /\ (-3 <= offset <= 3)%Z /\ t = target offset)
    /\ (forall offset,
          offset <> 0%Z -> (-3 <= offset <= 3)%Z ->
          textures (gallery w) !! target offset = None ->
          In (target offset) targets).
Proof.
  intros N target. eexists. split; [reflexivity |]. split; [| split].
  - etransitivity; [apply length_filter |]. rewrite length_map. reflexivity.
  - intros t Ht. apply list_elem_of_In, list_elem_of_filter in Ht.
    destruct Ht as [Hc Ht]. split; [apply uncached_None; exact Hc |].
    apply list_elem_of_In, in_map_iff in Ht.
    destruct Ht as (offset & E & Ho). apply preloadOffsets_spec in Ho.
    exists offset. split; [apply Ho |]. split; [apply Ho |].
    symmetry. exact E.
  - intros offset H0 Hr Hc. apply list_elem_of_In, list_elem_of_filter. split.
    + unfold cached. fold N. fold (target offset). rewrite Hc. exact I.
    + apply list_elem_of_In, in_map_iff. exists offset.
      split; [reflexivity |]. apply preloadOffsets_spec. split; assumption.
Qed.

(** X13.  In a gallery of at least three images, with the centre a valid
    index, every load that [preloadAround] starts is for an image that
    exists. *)
Theorem preload_targets_exist (centerIndex : Z) (w : World) (ld : Load) :
  (3 <= imagePaths_length (gallery w))%Z ->
  (0 <= centerIndex < imagePaths_length (gallery w))%Z ->
  In ld (loads (preloadAround centerIndex w)) ->
  In ld (loads w)
  \/ (ld_cont ld = PreloadLoad
      /\ (0 <= ld_target ld < imagePaths_length (gallery w))%Z
      /\ textures (gallery w) !! ld_target ld = None).
Proof.
  intros Hn Hc H. unfold preloadAround in H. cbn [loads set_loads] in H.
  apply in_app_or in H. destruct H as [H | H]; [left; exact H | right].
  apply in_map_iff in H. destruct H as (t & <- & Ht). cbn [ld_cont ld_target].
  apply list_elem_of_In, list_elem_of_filter in Ht. destruct Ht as [Hu Ht].
  apply list_elem_of_In, in_map_iff in Ht. destruct Ht as (offset & <- & Ho).
  apply preloadOffsets_spec in Ho.
  split; [reflexivity |]. split; [| apply uncached_None; exact Hu].
  apply Z.rem_bound_pos; lia.
Qed.

Lemma preload_targets_exist_witness :
  (3 <= imagePaths_length (gallery atSecondOf4))%Z
  /\ (0 <= 1 < imagePaths_length (gallery atSecondOf4))%Z
  /\ (In (mkLoad 2 PreloadLoad) (loads atSecondOf4)
      \/ (ld_cont (mkLoad 2 PreloadLoad) = PreloadLoad
          /\ (0 <= ld_target (mkLoad 2 PreloadLoad)
              < imagePaths_length (gallery atSecondOf4))%Z
          /\ textures (gallery atSecondOf4)
               !! ld_target (mkLoad 2 PreloadLoad) = None)).
Proof.
  assert (H1 : (3 <= imagePaths_length (gallery atSecondOf4))%Z)
    by (evaluate; discriminate).
  assert (H2 : (0 <= 1 < imagePaths_length (gallery atSecondOf4))%Z)
    by (evaluate; split; [discriminate | reflexivity]).
  split; [exact H1 |]. split; [exact H2 |].
  apply (preload_targets_exist 1 atSecondOf4 (mkLoad 2 PreloadLoad) H1 H2).
  evaluate. tauto.
Defined.

(** X14.  With two images the gallery asks for an image that does not
    exist: [init()] preloads around index 0, and the offset -3 gives
    [(0 - 3 + 2) % 2 = -1].  That load is the first one in flight; when it
    fails, the failure is swallowed and the gallery is as before. *)
Theorem two_images_preload_outside (rnd : nat -> Q)
    (plane : Q -> Q -> Q -> Q -> list Vector3) (texture1 : Texture)
    (e : Error) :
  let w := init rnd plane texture1 (World_new 2) in
  loads w !! 0%nat = Some (mkLoad (-1) PreloadLoad)
  /\ gallery (handle rnd plane (LoadSettled 0 (inr e)) w) = gallery w
  /\ tasks (handle rnd plane (LoadSettled 0 (inr e)) w) = tasks w.
Proof.
  intros w.
  assert (E : loads w !! 0%nat = Some (mkLoad (-1) PreloadLoad))
    by (evaluate; reflexivity).
  split; [exact E |]. cbn [handle]. unfold settleLoad. rewrite E.
  split; reflexivity.
Qed.

Lemma awaitTransition_loads (rnd : nat -> Q)
    (plane : Q -> Q -> Q -> Q -> list Vector3) (task : nat) (i : Z)
    (w : World) :
  loads (awaitTransition rnd plane task i w) = loads w.
Proof.
  unfold awaitTransition, transitionTo.
  destruct (textures (gallery w) !! i); reflexivity.
Qed.

(** X15.  What a preload is for.  The gallery rests, the next image is not
    in the cache, and a preload of it is in flight.  If the preload
    delivers the texture, [next()] starts the transition at once and loads
    nothing; if it fails, the failure is not remembered: [next()] starts no
    timeline and loads the image again, now waiting for it. *)
Theorem preload_then_next (rnd : nat -> Q)
    (plane : Q -> Q -> Q -> Q -> list Vector3) (w : World) (k : nat)
    (texture : Texture) (e : Error) :
  let t :=
    Z.rem (currentIndex (gallery w) + 1) (imagePaths_length (gallery w)) in
  isTransitioning (gallery w) = false ->
  (2 <= imagePaths_length (gallery w))%Z ->
  loads w !! k = Some (mkLoad t PreloadLoad) ->
  textures (gallery w) !! t = None ->
  let arrived :=
    run rnd plane [LoadSettled k (inl texture); KeyNext] w in
  let failed := run rnd plane [LoadSettled k (inr e); KeyNext] w in
  (exists tl, timeline (gallery arrived) = Some tl
              /\ tl_targetIndex tl = t /\ tl_progress tl = 0)
  /\ loads arrived = delete k (loads w)
  /\ timeline (gallery failed) = timeline (gallery w)
  /\ loads failed
     = delete k (loads w) ++ [mkLoad t (NavLoad (allocated w))].
Proof.
  intros t Ht Hn Hk Hu arrived failed.
  assert (G : isTransitioning (gallery w)
              || (imagePaths_length (gallery w) <? 2)%Z = false).
  { rewrite Ht. cbn. apply Z.ltb_ge. exact Hn. }
  split; [| split; [| split]].
  - unfold arrived. cbn [run fold_left handle]. unfold settleLoad.
    rewrite Hk. cbn [ld_cont ld_target].
    match goal with
    | |- context [next rnd plane ?w1] =>
        rewrite (next_cached_eq rnd plane w1 Ht Hn);
        [| cbn [gallery upd_gallery set_gallery set_loads set_textures
                textures currentIndex imagePaths_length]; fold t;
           rewrite lookup_insert_eq; eexists; reflexivity]
    end.
    match goal with
    | |- context [awaitTransition rnd plane ?task ?x ?w0] =>
        destruct (transition_started rnd plane task x w0 texture)
          as (_ & _ & T & _);
        [rewrite started_textures;
         cbn [gallery upd_gallery set_gallery set_loads set_textures
              textures currentIndex imagePaths_length]; fold t;
         apply lookup_insert_eq |]
    end.
    eexists. split; [exact T |]. split; reflexivity.
  - unfold arrived. cbn [run fold_left handle]. unfold settleLoad.
    rewrite Hk. cbn [ld_cont ld_target].
    match goal with
    | |- context [next rnd plane ?w1] =>
        rewrite (next_cached_eq rnd plane w1 Ht Hn);
        [| cbn [gallery upd_gallery set_gallery set_loads set_textures
                textures currentIndex imagePaths_length]; fold t;
           rewrite lookup_insert_eq; eexists; reflexivity]
    end.
    rewrite awaitTransition_loads. reflexivity.
  - unfold failed. cbn [run fold_left handle]. unfold settleLoad.
    rewrite Hk. cbn [ld_cont ld_target]. unfold next.
    cbn [gallery set_loads]. rewrite G. cbn [newTask]. cbv zeta.
    unfold cached. fold t. rewrite Hu. cbn [fst].
    destruct (stopAutoAdvance_fields (gallery w))
      as (_ & _ & _ & _ & _ & _ & F).
    cbn [gallery upd_gallery set_gallery set_loads set_counters set_tasks
         timeline set_isTransitioning].
    exact F.
  - unfold failed. cbn [run fold_left handle]. unfold settleLoad.
    rewrite Hk. cbn [ld_cont ld_target]. unfold next.
    cbn [gallery set_loads]. rewrite G. cbn [newTask]. cbv zeta.
    unfold cached. fold t. rewrite Hu. reflexivity.
Qed.

Lemma preload_then_next_witness :
  isTransitioning (gallery (started 2)) = false
  /\ loads (started 2) !! 1%nat
     = Some (mkLoad (Z.rem (currentIndex (gallery (started 2)) + 1)
                       (imagePaths_length (gallery (started 2))))
               PreloadLoad)
  /\ loads (run draws99 PlaneGeometry.positions
              [LoadSettled 1 (inl image2x1); KeyNext] (started 2))
     = delete 1%nat (loads (started 2)).
Proof.
  assert (H1 : isTransitioning (gallery (started 2)) = false)
    by (evaluate; reflexivity).
  assert (H2 : (2 <= imagePaths_length (gallery (started 2)))%Z)
    by (evaluate; discriminate).
  assert (H3 : loads (started 2) !! 1%nat
               = Some (mkLoad (Z.rem (currentIndex (gallery (started 2)) + 1)
                                 (imagePaths_length (gallery (started 2))))
                         PreloadLoad))
    by (evaluate; reflexivity).
  assert (H4 : textures (gallery (started 2))
                 !! Z.rem (currentIndex (gallery (started 2)) + 1)
                      (imagePaths_length (gallery (started 2)))
               = None) by (evaluate; reflexivity).
  split; [exact H1 |]. split; [exact H3 |].
  destruct (preload_then_next draws99 PlaneGeometry.positions (started 2)
              1%nat image2x1 TypeError H1 H2 H3 H4) as (_ & H & _).
  exact H.
Defined.

(** ** Gestures that stay below the threshold *)

Lemma World_eta (w : World) : set_scrubber (scrubber w) w = w.
Proof. destruct w; reflexivity. Qed.

Section Gestures.

Variable rnd : nat -> Q.
Variable plane : Q -> Q -> Q -> Q -> list Vector3.

(** [seek] with no gesture decided and the pointer within the threshold of
    where it was pressed does nothing. *)
Lemma seek_idle (dx totalDx : Q) (w : World) :
  transitionInitiated (scrubber w) = false ->
  Qabs totalDx <= threshold ->
  seek rnd plane dx totalDx w = w.
Proof.
  intros Hi Ht.
  assert (Hs : scrub dx w = w).
  { unfold scrub. rewrite Hi. destruct (timeline (gallery w)); reflexivity. }
  unfold seek. rewrite Hi.
  destruct (_ && _ && _); [| exact Hs].
  destruct (Qlt_le_dec threshold (Qabs totalDx)) as [Hlt | _]; [| exact Hs].
  exfalso. apply (Qlt_not_le _ _ Hlt). exact Ht.
Qed.

Lemma mouse_moves_idle (xs : list Q) :
  forall w : World,
    mouseDown (scrubber w) = true ->
    transitionInitiated (scrubber w) = false ->
    Forall (fun x => Qabs (x - _startX (scrubber w)) <= threshold) xs ->
    exists s,
      run rnd plane (map MouseMove xs) w = set_scrubber s w
      /\ transitionInitiated s = false.
Proof.
  induction xs as [| x xs IH]; intros w Hd Hi Hx.
  - exists (scrubber w). split; [symmetry; apply World_eta | exact Hi].
  - apply Forall_cons in Hx. destruct Hx as [Hx Hxs].
    cbn [map run fold_left handle]. unfold mousemove. rewrite Hd, Hi.
    rewrite seek_idle; [| reflexivity | exact Hx].
    match goal with
    | |- context [fold_left _ _ ?w1] =>
        destruct (IH w1 eq_refl eq_refl Hxs) as (s & E & Hs)
    end.
    exists s. split; [| exact Hs]. unfold run in E. rewrite E. reflexivity.
Qed.

Lemma touch_moves_idle (xs : list Q) :
  forall w : World,
    transitionInitiated (scrubber w) = false ->
    Forall (fun x => Qabs (x - _startX (scrubber w)) <= threshold) xs ->
    exists s,
      run rnd plane (map TouchMove xs) w = set_scrubber s w
      /\ transitionInitiated s = false.
Proof.
  induction xs as [| x xs IH]; intros w Hi Hx.
  - exists (scrubber w). split; [symmetry; apply World_eta | exact Hi].
  - apply Forall_cons in Hx. destruct Hx as [Hx Hxs].
    cbn [map run fold_left handle]. unfold touchmove. rewrite Hi.
    rewrite seek_idle; [| reflexivity | exact Hx].
    match goal with
    | |- context [fold_left _ _ ?w1] =>
        destruct (IH w1 eq_refl Hxs) as (s & E & Hs)
    end.
    exists s. split; [| exact Hs]. unfold run in E. rewrite E. reflexivity.
Qed.

(** X16.  A press and a drag that stays within 30 pixels of where it began
    start nothing.  With no timeline short of its end, pressing at [x0]
    (mouse or touch) and then moving, any number of times, to positions no
    further than the threshold from [x0] changes only the scrubber's own
    variables: the gallery, its loads, tasks and scene are as before, and
    no gesture has been decided. *)
Theorem short_drag_starts_nothing (w : World) (x0 : Q) (xs : list Q) :
  match timeline (gallery w) with
  | Some tl => 1 <= tl_progress tl
  | None => True
  end ->
  Forall (fun x => Qabs (x - x0) <= threshold) xs ->
  (exists s,
     run rnd plane (MouseDown x0 :: map MouseMove xs) w = set_scrubber s w
     /\ transitionInitiated s = false)
  /\ (exists s,
        run rnd plane (TouchStart x0 :: map TouchMove xs) w = set_scrubber s w
        /\ transitionInitiated s = false).
Proof.
  intros Ht Hx. split.
  - assert (E : mousedown x0 w
                = set_scrubber (mkScrubber x0 x0 true false None) w).
    { unfold mousedown. cbn [gallery set_scrubber].
      destruct (timeline (gallery w)) as [tl |]; [| reflexivity].
      destruct (Qlt_le_dec (tl_progress tl) 1) as [Hlt | _]; [| reflexivity].
      exfalso. apply (Qlt_not_le _ _ Hlt). exact Ht. }
    change (run rnd plane (MouseDown x0 :: map MouseMove xs) w)
      with (run rnd plane (map MouseMove xs) (mousedown x0 w)).
    rewrite E.
    destruct (mouse_moves_idle xs
                (set_scrubber (mkScrubber x0 x0 true false None) w)
                eq_refl eq_refl Hx) as (s & Es & Hs).
    exists s. split; [rewrite Es; reflexivity | exact Hs].
  - assert (E : touchstart x0 w
                = set_scrubber
                    (mkScrubber x0 x0 (mouseDown (scrubber w)) false None) w).
    { unfold touchstart. cbn [gallery set_scrubber].
      destruct (timeline (gallery w)) as [tl |]; [| reflexivity].
      destruct (Qlt_le_dec (tl_progress tl) 1) as [Hlt | _]; [| reflexivity].
      exfalso. apply (Qlt_not_le _ _ Hlt). exact Ht. }
    change (run rnd plane (TouchStart x0 :: map TouchMove xs) w)
      with (run rnd plane (map TouchMove xs) (touchstart x0 w)).
    rewrite E.
    destruct (touch_moves_idle xs
                (set_scrubber
                   (mkScrubber x0 x0 (mouseDown (scrubber w)) false None) w)
                eq_refl Hx) as (s & Es & Hs).
    exists s. split; [rewrite Es; reflexivity | exact Hs].
Qed.

(** ** Pausing *)

(** X17.  With a timeline whose handle agrees with the gallery's
    [isPaused] flag, [togglePause()] flips both and leaves the progress
    alone, and toggling twice gives back the state it started from. *)
Theorem togglePause_twice (w : World) (tl : Timeline) :
  timeline (gallery w) = Some tl ->
  tl_paused tl = isPaused (gallery w) ->
  (exists tl',
     timeline (gallery (togglePause w)) = Some tl'
     /\ tl_paused tl' = negb (tl_paused tl)
     /\ tl_progress tl' = tl_progress tl
     /\ isPaused (gallery (togglePause w)) = negb (isPaused (gallery w)))
  /\ togglePause (togglePause w) = w.
Proof.
  intros Ht Hp. split.
  - unfold togglePause. rewrite Ht. eexists. split; [reflexivity |].
    cbn. rewrite Hp. repeat split.
  - destruct w as [g sc di sb lo aw ta rc al].
    destruct g as [n i tx cs ns it ip t at']. cbn in Ht, Hp. subst t ip.
    destruct tl as [id p pa tw ti]. unfold togglePause. cbn.
    rewrite negb_involutive. reflexivity.
Qed.

(** X18.  The flag and the handle can part.  A transition is paused with
    the 'p' key, which calls [togglePause()] (the flag was clear); a click
    - press and release, at any place - resumes the timeline, at the
    progress it had, while [isPaused] stays set.  The next press of 'p'
    then clears the flag and "resumes" a timeline that is already
    playing. *)
Theorem click_resumes_paused_transition (w : World) (tl : Timeline) (x : Q) :
  timeline (gallery w) = Some tl ->
  isPaused (gallery w) = false ->
  let w' := run rnd plane [KeyTogglePause; MouseDown x; MouseUp] w in
  let w'' := handle rnd plane KeyTogglePause w' in
  isPaused (gallery w') = true
  /\ (exists tl', timeline (gallery w') = Some tl'
                  /\ tl_paused tl' = false
                  /\ tl_progress tl' = tl_progress tl)
  /\ isPaused (gallery w'') = false
  /\ (exists tl'', timeline (gallery w'') = Some tl''
                   /\ tl_paused tl'' = false
                   /\ tl_progress tl'' = tl_progress tl).
Proof.
  intros Ht Hp w' w''. unfold w'', w'.
  assert (E : togglePause w
              = upd_gallery
                  (fun g => set_timeline (Some (Timeline_set_paused true tl))
                              (set_isPaused true g)) w).
  { unfold togglePause. rewrite Ht, Hp. reflexivity. }
  cbn [run fold_left handle]. rewrite E. unfold mousedown.
  cbn [gallery upd_gallery set_gallery set_scrubber timeline set_timeline
       set_isPaused tl_progress Timeline_set_paused].
  destruct (Qlt_le_dec (tl_progress tl) 1);
    unfold mouseup, resume, stop, togglePause; cbn;
    (split; [reflexivity |]); (split; [eexists; repeat split |]);
    (split; [reflexivity |]); eexists; repeat split.
Qed.

(** ** A gallery of one image *)

Lemma quiet_step (e : Event) (w : World) :
  (imagePaths_length (gallery w) < 2)%Z ->
  timeline (gallery w) = None ->
  loads w = [] ->
  currentIndex (gallery w) = 0%Z ->
  autoAdvanceTimer (gallery w) = false ->
  exists s, handle rnd plane e w = set_scrubber s w.
Proof.
  intros Hn Ht Hl Hi Ha.
  assert (G : forall b s,
            b || (imagePaths_length (gallery (set_scrubber s w)) <? 2)%Z
            = true).
  { intros b s. cbn [gallery set_scrubber].
    apply orb_true_iff. right. apply Z.ltb_lt. exact Hn. }
  assert (Gw : forall b, b || (imagePaths_length (gallery w) <? 2)%Z = true).
  { intros b. apply orb_true_iff. right. apply Z.ltb_lt. exact Hn. }
  assert (Nx : forall s,
            thenPause (next rnd plane (set_scrubber s w)) = set_scrubber s w).
  { intros s. unfold next. rewrite G. unfold thenPause, pauseIfHeld.
    cbn [gallery set_scrubber]. rewrite Ht. reflexivity. }
  assert (Pv : forall s,
            thenPause (previous rnd plane (set_scrubber s w))
            = set_scrubber s w).
  { intros s. unfold previous. rewrite G. unfold thenPause, pauseIfHeld.
    cbn [gallery set_scrubber]. rewrite Ht. reflexivity. }
  assert (Sk : forall dx totalDx s,
            exists s',
              seek rnd plane dx totalDx (set_scrubber s w)
              = set_scrubber s' w).
  { intros dx totalDx s. unfold seek, scrub.
    cbn [gallery set_scrubber scrubber]. rewrite Ht.
    destruct (_ && _ && _); [| exists s; reflexivity].
    destruct (Qlt_le_dec threshold (Qabs totalDx)); [| exists s; reflexivity].
    destruct (Qlt_le_dec 0 totalDx); eexists;
      [apply (Nx (mkScrubber _ _ _ _ _)) | apply (Pv (mkScrubber _ _ _ _ _))]. }
  destruct e; cbn [handle].
  - exists (scrubber w). unfold next. rewrite Gw, World_eta. reflexivity.
  - exists (scrubber w). unfold previous. rewrite Gw, World_eta. reflexivity.
  - exists (scrubber w). unfold togglePause. rewrite Ht, World_eta.
    reflexivity.
  - exists (scrubber w). unfold reset, upd_gallery, stopAutoAdvance.
    rewrite Ha. cbn [gallery set_gallery]. rewrite Hi, World_eta.
    destruct w; reflexivity.
  - eexists. unfold mousedown. cbn [gallery set_scrubber]. rewrite Ht.
    reflexivity.
  - eexists. unfold mouseup, resume. cbn [gallery set_scrubber]. rewrite Ht.
    reflexivity.
  - unfold mousemove. destruct (mouseDown (scrubber w)).
    + apply Sk.
    + exists (scrubber w). symmetry. apply World_eta.
  - eexists. unfold touchstart. cbn [gallery set_scrubber]. rewrite Ht.
    reflexivity.
  - eexists. unfold touchend, resume. cbn [gallery set_scrubber]. rewrite Ht.
    reflexivity.
  - unfold touchmove. apply Sk.
  - exists (scrubber w). unfold settleLoad. rewrite Hl, World_eta.
    reflexivity.
  - exists (scrubber w). unfold Timeline_tick. rewrite Ht, World_eta.
    reflexivity.
  - exists (scrubber w). rewrite Ht, World_eta. reflexivity.
  - exists (scrubber w). rewrite Ha, World_eta. reflexivity.
Qed.

Lemma quiet_run (es : list Event) :
  forall w : World,
    (imagePaths_length (gallery w) < 2)%Z ->
    timeline (gallery w) = None ->
    loads w = [] ->
    currentIndex (gallery w) = 0%Z ->
    autoAdvanceTimer (gallery w) = false ->
    exists s, run rnd plane es w = set_scrubber s w.
Proof.
  induction es as [| e es IH]; intros w Hn Ht Hl Hi Ha.
  - exists (scrubber w). symmetry. apply World_eta.
  - destruct (quiet_step e w Hn Ht Hl Hi Ha) as (s & E).
    cbn [run fold_left]. rewrite E.
    destruct (IH (set_scrubber s w) Hn Ht Hl Hi Ha) as (s' & E').
    exists s'. unfold run in E'. rewrite E'. reflexivity.
Qed.

(** X19.  A gallery of one image never changes.  Once [init()] has shown
    the image, no key, pointer event, tick or timer - in any number and
    order - changes anything but the scrubber's own variables: no load is
    started, no slide is built, the index stays 0 and no transition ever
    begins. *)
Theorem single_image_is_static (texture1 : Texture) (es : list Event) :
  let w0 := init rnd plane texture1 (World_new 1) in
  loads w0 = []
  /\ exists s, run rnd plane es w0 = set_scrubber s w0.
Proof.
  intros w0. split; [reflexivity |].
  apply quiet_run; try reflexivity.
Qed.

End Gestures.

Lemma short_drag_starts_nothing_witness :
  timeline (gallery idle2) = None
  /\ Forall (fun x => Qabs (x - 0) <= threshold) [10; 30; -5]
  /\ exists s,
       run draws99 PlaneGeometry.positions
         (MouseDown 0 :: map MouseMove [10; 30; -5]) idle2
       = set_scrubber s idle2
       /\ transitionInitiated s = false.
Proof.
  assert (E : timeline (gallery idle2) = None) by (evaluate; reflexivity).
  assert (H1 : match timeline (gallery idle2) with
               | Some tl => 1 <= tl_progress tl
               | None => True
               end) by (rewrite E; exact I).
  assert (H2 : Forall (fun x => Qabs (x - 0) <= threshold) [10; 30; -5])
    by (repeat constructor; vm_compute; discriminate).
  split; [exact E |]. split; [exact H2 |].
  exact (proj1 (short_drag_starts_nothing draws99 PlaneGeometry.positions
                  idle2 0 [10; 30; -5] H1 H2)).
Defined.

Lemma togglePause_twice_witness :
  let tl :=
    default (mkTimeline 0 0 false [] 0) (timeline (gallery midTransition4)) in
  timeline (gallery midTransition4) = Some tl
  /\ tl_paused tl = isPaused (gallery midTransition4)
  /\ togglePause (togglePause midTransition4) = midTransition4.
Proof.
  intros tl.
  assert (H1 : timeline (gallery midTransition4) = Some tl)
    by (evaluate; reflexivity).
  assert (H2 : tl_paused tl = isPaused (gallery midTransition4))
    by (evaluate; reflexivity).
  split; [exact H1 |]. split; [exact H2 |].
  exact (proj2 (togglePause_twice midTransition4 tl H1 H2)).
Defined.

Lemma click_resumes_paused_transition_witness :
  let tl :=
    default (mkTimeline 0 0 false [] 0) (timeline (gallery midTransition4)) in
  timeline (gallery midTransition4) = Some tl
  /\ isPaused (gallery midTransition4) = false
  /\ isPaused
       (gallery
          (run draws99 PlaneGeometry.positions
             [KeyTogglePause; MouseDown 0; MouseUp] midTransition4))
     = true.
Proof.
  intros tl.
  assert (H1 : timeline (gallery midTransition4) = Some tl)
    by (evaluate; reflexivity).
  assert (H2 : isPaused (gallery midTransition4) = false)
    by (evaluate; reflexivity).
  split; [exact H1 |]. split; [exact H2 |].
  exact (proj1 (click_resumes_paused_transition draws99
                  PlaneGeometry.positions midTransition4 tl 0 H1 H2)).
Defined.

(** ** The slide of an image *)

Lemma imageAspect_bounds (imageWidth imageHeight : Q) :
  0 < imageHeight ->
  imageWidth / imageHeight * imageHeight == imageWidth.
Proof. intros Hh. field. lra. Qed.

Lemma Qfloor_positive (x : Q) : 1 <= x -> (0 < Qfloor x)%Z.
Proof.
  intros H. apply Qfloor_resp_le in H. change (Qfloor 1) with 1%Z in H. lia.
Qed.

Lemma Qfloor_fraction (x : Q) : 0 <= x -> x < 1 -> Qfloor x = 0%Z.
Proof.
  intros H0 H1. apply Qfloor_resp_le in H0. change (Qfloor 0) with 0%Z in H0.
  pose proof (Qfloor_le x) as L.
  assert (U : inject_Z (Qfloor x) < inject_Z 1) by (change (inject_Z 1) with 1; lra).
  rewrite <- Zlt_Qlt in U. lia.
Qed.

(** The plane of an image whose aspect ratio lies between 1:120 and 200:1
    is at least half a unit wide and high, so that it has at least one
    segment each way. *)
Lemma plane_sides (imageWidth imageHeight : Q) :
  0 < imageWidth -> 0 < imageHeight ->
  imageHeight <= 120 * imageWidth ->
  imageWidth <= 200 * imageHeight ->
  let dims := calculatePlaneDimensions imageWidth imageHeight in
  0 < fst dims /\ 0 < snd dims
  /\ 1 <= fst dims * 2 /\ 1 <= snd dims * 2.
Proof.
  intros Hw Hh Ht Hx dims. unfold dims, calculatePlaneDimensions.
  pose proof maxAspect_value as Em.
  pose proof (imageAspect_bounds imageWidth imageHeight Hh) as Ea.
  assert (Ha : 0 < imageWidth / imageHeight)
    by (apply Qlt_shift_div_l; lra).
  set (a := imageWidth / imageHeight) in *.
  assert (A1 : 1 <= 120 * a).
  { apply Qnot_lt_le. intros C.
    assert (120 * a * imageHeight < 1 * imageHeight)
      by (apply Qmult_lt_compat_r; assumption).
    set (p := a * imageHeight) in *.
    assert (120 * a * imageHeight == 120 * p) by (unfold p; ring). lra. }
  assert (A2 : a <= 200).
  { apply Qnot_lt_le. intros C.
    assert (200 * imageHeight < a * imageHeight)
      by (apply Qmult_lt_compat_r; assumption).
    lra. }
  unfold MAX_WIDTH, MAX_HEIGHT in *.
  destruct (Qlt_le_dec (100 / 60) a) as [Hgt | Hle]; cbn [fst snd].
  - assert (P : (1 # 2) <= 100 / a) by (apply Qle_shift_div_l; lra).
    repeat split; lra.
  - repeat split; lra.
Qed.

(** X20.  The slide built for an image (positive size, aspect ratio
    between 1:120 and 200:1), with draws in [0, 1): every vertex of it
    waits a delay that is not negative, moves for a positive duration and
    is done before 2.357; so at time 0 no vertex has begun to move, and at
    2.357 every one has arrived. *)
Theorem image_slide_window (rnd : nat -> Q) (id : nat) (texture : Texture)
    (phase : Phase) (n : nat) :
  0 < image_width texture -> 0 < image_height texture ->
  image_height texture <= 120 * image_width texture ->
  image_width texture <= 200 * image_height texture ->
  (forall k, 0 <= rnd k /\ rnd k < 1) ->
  let dims :=
    calculatePlaneDimensions (image_width texture) (image_height texture) in
  Forall (fun d => 0 <= tDelay d /\ 0 < tDuration d
                   /\ tDelay d + tDuration d < latestFinish
                   /\ tProgress 0 (tDelay d) (tDuration d) == 0
                   /\ tProgress latestFinish (tDelay d) (tDuration d) == 1)
    (geometry
       (Slide_new rnd PlaneGeometry.positions id (fst dims) (snd dims)
          phase n)).
Proof.
  intros Hw Hh Ht Hx Hr dims.
  destruct (plane_sides _ _ Hw Hh Ht Hx) as (P1 & P2 & F1 & F2).
  fold dims in P1, P2, F1, F2.
  eapply List.Forall_impl;
    [| apply (plane_slide_timing rnd id (fst dims) (snd dims) phase n P1 P2
                (Qfloor_positive _ F1) (Qfloor_positive _ F2) Hr)].
  intros d (A & B & C). split; [exact A |]. split; [exact B |].
  split; [exact C |]. split.
  - apply tProgress_before; assumption.
  - apply tProgress_after; [exact B | apply Qlt_le_weak; exact C].
Qed.

Lemma image_slide_window_witness :
  0 < image_width image2x1 /\ 0 < image_height image2x1
  /\ image_height image2x1 <= 120 * image_width image2x1
  /\ image_width image2x1 <= 200 * image_height image2x1
  /\ (forall k, 0 <= draws99 k /\ draws99 k < 1)
  /\ let dims :=
       calculatePlaneDimensions (image_width image2x1)
         (image_height image2x1) in
     Forall (fun d => 0 <= tDelay d /\ 0 < tDuration d
                      /\ tDelay d + tDuration d < latestFinish
                      /\ tProgress 0 (tDelay d) (tDuration d) == 0
                      /\ tProgress latestFinish (tDelay d) (tDuration d) == 1)
       (geometry
          (Slide_new draws99 PlaneGeometry.positions 0 (fst dims) (snd dims)
             PhaseIn 0)).
Proof.
  assert (H1 : 0 < image_width image2x1) by reflexivity.
  assert (H2 : 0 < image_height image2x1) by reflexivity.
  assert (H3 : image_height image2x1 <= 120 * image_width image2x1)
    by (vm_compute; discriminate).
  assert (H4 : image_width image2x1 <= 200 * image_height image2x1)
    by (vm_compute; discriminate).
  assert (H5 : forall k, 0 <= draws99 k /\ draws99 k < 1)
    by (intros k; split; [vm_compute; discriminate | reflexivity]).
  split; [exact H1 |]. split; [exact H2 |]. split; [exact H3 |].
  split; [exact H4 |]. split; [exact H5 |].
  exact (image_slide_window draws99 0 image2x1 PhaseIn 0 H1 H2 H3 H4 H5).
Defined.

Lemma flat_map_empty {A B : Type} (l : list A) :
  flat_map (fun _ : A => @nil B) l = [].
Proof. induction l as [| a l IH]; [reflexivity | exact IH]. Qed.

(** X21.  An image more than 200 times as wide as high, or more than 120
    times as high as wide, gets a plane less than half a unit across, hence
    with no segment that way: its slide has no face at all and draws
    nothing. *)
Theorem extreme_aspect_slide_is_empty (rnd : nat -> Q) (id : nat)
    (texture : Texture) (phase : Phase) (n : nat) :
  0 < image_width texture -> 0 < image_height texture ->
  200 * image_height texture < image_width texture
  \/ 120 * image_width texture < image_height texture ->
  let dims :=
    calculatePlaneDimensions (image_width texture) (image_height texture) in
  geometry
    (Slide_new rnd PlaneGeometry.positions id (fst dims) (snd dims) phase n)
  = [].
Proof.
  intros Hw Hh Hx dims.
  assert (P : PlaneGeometry.positions (fst dims) (snd dims) (fst dims * 2)
                (snd dims * 2) = []);
    [| unfold Slide_new; cbn [geometry]; rewrite P; reflexivity].
  unfold dims, calculatePlaneDimensions.
  pose proof maxAspect_value as Em.
  pose proof (imageAspect_bounds (image_width texture) (image_height texture)
                Hh) as Ea.
  assert (Ha : 0 < image_width texture / image_height texture)
    by (apply Qlt_shift_div_l; lra).
  set (a := image_width texture / image_height texture) in *.
  set (iw := image_width texture) in *. set (ih := image_height texture) in *.
  unfold MAX_WIDTH, MAX_HEIGHT in *. unfold PlaneGeometry.positions.
  destruct Hx as [Hwide | Htall].
  - assert (A : 200 < a).
    { apply Qnot_le_lt. intros C.
      assert (a * ih <= 200 * ih)
        by (apply Qmult_le_compat_r; [exact C | lra]).
      lra. }
    destruct (Qlt_le_dec (100 / 60) a) as [_ | Hle]; [| lra]. cbn [fst snd].
    assert (P0 : 0 < 100 / a) by (apply Qlt_shift_div_l; lra).
    assert (P1 : 100 / a < 1 # 2) by (apply Qlt_shift_div_r; lra).
    rewrite (Qfloor_fraction (100 / a * 2)) by lra. reflexivity.
  - assert (A : 120 * a < 1).
    { apply Qnot_le_lt. intros C.
      assert (1 * ih <= 120 * a * ih)
        by (apply Qmult_le_compat_r; [exact C | lra]).
      set (p := a * ih) in *.
      assert (120 * a * ih == 120 * p) by (unfold p; ring). lra. }
    destruct (Qlt_le_dec (100 / 60) a) as [Hgt | _]; [lra |]. cbn [fst snd].
    rewrite (Qfloor_fraction (60 * a * 2)) by lra. apply flat_map_empty.
Qed.

Lemma extreme_aspect_slide_is_empty_witness :
  0 < image_width (mkTexture 4000 10) /\ 0 < image_height (mkTexture 4000 10)
  /\ geometry
       (let dims :=
          calculatePlaneDimensions (image_width (mkTexture 4000 10))
            (image_height (mkTexture 4000 10)) in
        Slide_new draws99 PlaneGeometry.positions 0 (fst dims) (snd dims)
          PhaseIn 0)
     = [].
Proof.
  assert (H1 : 0 < image_width (mkTexture 4000 10)) by reflexivity.
  assert (H2 : 0 < image_height (mkTexture 4000 10)) by reflexivity.
  split; [exact H1 |]. split; [exact H2 |].
  apply (extreme_aspect_slide_is_empty draws99 0 (mkTexture 4000 10) PhaseIn 0
           H1 H2).
  left. reflexivity.
Defined.

(** ** A drag past the threshold *)

Section Drag.

Variable rnd : nat -> Q.
Variable plane : Q -> Q -> Q -> Q -> list Vector3.

Lemma awaitTransition_cached (task : nat) (i : Z) (w : World)
    (texture : Texture) :
  textures (gallery w) !! i = Some texture ->
  tasks (awaitTransition rnd plane task i w) = tasks w
  /\ scrubber (awaitTransition rnd plane task i w) = scrubber w.
Proof.
  intros E. unfold awaitTransition, transitionTo. rewrite E.
  split; reflexivity.
Qed.

(** [.then(pause)] attached to a call that got past its guard and found
    its texture in the cache: the new timeline, untouched. *)
Lemma thenPause_started (i : Z) (w : World) (texture : Texture) :
  textures (gallery w) !! i = Some texture ->
  let w0 :=
    upd_gallery (fun g => set_isTransitioning true (stopAutoAdvance g))
      (set_counters (randomCalls w) (S (allocated w))
         (set_tasks (<[allocated w := Pending false]> (tasks w)) w)) in
  let w' :=
    thenPause (awaitTransition rnd plane (allocated w) i w0,
               Some (allocated w)) in
  (exists tl, timeline (gallery w') = Some tl
              /\ tl_targetIndex tl = i /\ tl_progress tl = 0)
  /\ scrubber w' = scrubber w.
Proof.
  intros E w0 w'.
  assert (E0 : textures (gallery w0) !! i = Some texture)
    by (unfold w0; rewrite started_textures; exact E).
  destruct (awaitTransition_cached (allocated w) i w0 texture E0) as [T S].
  destruct (transition_started rnd plane (allocated w) i w0 texture E0)
    as (_ & _ & L & _).
  unfold w', thenPause. rewrite T.
  change (tasks w0) with (<[allocated w := Pending false]> (tasks w)).
  rewrite lookup_insert_eq. cbn [gallery set_tasks scrubber]. split.
  - eexists. split; [exact L |]. split; reflexivity.
  - rewrite S. reflexivity.
Qed.

(** X22.  The direction of a drag picks the image.  The gallery rests
    (no timeline, or one at its end).  A press at [x0] and a move to [x]
    more than 30 pixels away start a transition at progress 0: to the next
    image if [x] is to the right of [x0], to the previous one if it is to
    the left - provided that image is in the cache; and the scrubber
    remembers the direction. *)
Theorem drag_direction_picks_image (w : World) (x0 x : Q) :
  let N := imagePaths_length (gallery w) in
  let i := currentIndex (gallery w) in
  let target :=
    if Qlt_le_dec 0 (x - x0) then Z.rem (i + 1) N else Z.rem (i - 1 + N) N in
  let w' := run rnd plane [MouseDown x0; MouseMove x] w in
  match timeline (gallery w) with
  | Some tl => tl_progress tl == 1
  | None => True
  end ->
  isTransitioning (gallery w) = false ->
  (2 <= N)%Z ->
  threshold < Qabs (x - x0) ->
  is_Some (textures (gallery w) !! target) ->
  (exists tl, timeline (gallery w') = Some tl
              /\ tl_targetIndex tl = target /\ tl_progress tl = 0)
  /\ transitionInitiated (scrubber w') = true
  /\ transitionDirection (scrubber w')
     = Some (if Qlt_le_dec 0 (x - x0) then DirNext else DirPrevious).
Proof.
  intros N i target w' Hp Ht Hn Hx [texture Hc].
  assert (E : mousedown x0 w
              = set_scrubber (mkScrubber x0 x0 true false None) w).
  { unfold mousedown. cbn [gallery set_scrubber].
    destruct (timeline (gallery w)) as [tl |]; [| reflexivity].
    destruct (Qlt_le_dec (tl_progress tl) 1) as [Hlt | _]; [| reflexivity].
    exfalso. rewrite Hp in Hlt. revert Hlt. apply Qlt_irrefl. }
  assert (B : match timeline (gallery w) with
              | Some tl => Qeq_bool (tl_progress tl) 1
              | None => true
              end = true).
  { destruct (timeline (gallery w)); [| reflexivity].
    apply Qeq_bool_iff. exact Hp. }
  assert (G : isTransitioning (gallery w)
              || (imagePaths_length (gallery w) <? 2)%Z = false).
  { rewrite Ht. cbn. apply Z.ltb_ge. exact Hn. }
  unfold w'. cbn [run fold_left handle]. rewrite E.
  unfold mousemove. cbn [scrubber set_scrubber mouseDown _cx _startX
                         transitionInitiated transitionDirection].
  unfold seek. cbn [gallery scrubber set_scrubber transitionInitiated
                    mouseDown _cx _startX].
  rewrite B, Ht. cbn [negb andb].
  destruct (Qlt_le_dec threshold (Qabs (x - x0))) as [_ | Hle];
    [| exfalso; apply (Qlt_not_le _ _ Hx); exact Hle].
  unfold target in Hc |- *.
  destruct (Qlt_le_dec 0 (x - x0)) as [Hr | Hl].
  - unfold next. cbn [gallery set_scrubber]. rewrite G.
    cbn [newTask]. cbv zeta. unfold cached.
    cbn [gallery upd_gallery set_gallery set_tasks set_counters
         set_scrubber]. fold N i. rewrite Hc.
    match goal with
    | |- context [thenPause (awaitTransition rnd plane _ _ _, _)] =>
        destruct (thenPause_started (Z.rem (i + 1) N)
                    (set_scrubber
                       (mkScrubber x x0 true true (Some DirNext)) w)
                    texture Hc) as (T & S)
    end.
    split; [exact T |]. cbv zeta in S.
    split; [exact (f_equal transitionInitiated S)
           | exact (f_equal transitionDirection S)].
  - unfold previous. cbn [gallery set_scrubber]. rewrite G.
    cbn [newTask]. cbv zeta. unfold cached.
    cbn [gallery upd_gallery set_gallery set_tasks set_counters
         set_scrubber]. fold N i. rewrite Hc.
    match goal with
    | |- context [thenPause (awaitTransition rnd plane _ _ _, _)] =>
        destruct (thenPause_started (Z.rem (i - 1 + N) N)
                    (set_scrubber
                       (mkScrubber x x0 true true (Some DirPrevious)) w)
                    texture Hc) as (T & S)
    end.
    split; [exact T |]. cbv zeta in S.
    split; [exact (f_equal transitionInitiated S)
           | exact (f_equal transitionDirection S)].
Qed.

End Drag.

Lemma drag_direction_picks_image_witness :
  isTransitioning (gallery idle2) = false
  /\ (2 <= imagePaths_length (gallery idle2))%Z
  /\ threshold < Qabs (-40 - 0)
  /\ transitionDirection
       (scrubber
          (run draws99 PlaneGeometry.positions [MouseDown 0; MouseMove (-40)]
             idle2))
     = Some (if Qlt_le_dec 0 (-40 - 0) then DirNext else DirPrevious).
Proof.
  assert (E : timeline (gallery idle2) = None) by (evaluate; reflexivity).
  assert (H1 : match timeline (gallery idle2) with
               | Some tl => tl_progress tl == 1
               | None => True
               end) by (rewrite E; exact I).
  assert (H2 : isTransitioning (gallery idle2) = false)
    by (evaluate; reflexivity).
  assert (H3 : (2 <= imagePaths_length (gallery idle2))%Z)
    by (evaluate; discriminate).
  assert (H4 : threshold < Qabs (-40 - 0)) by reflexivity.
  assert (H5 : is_Some
                 (textures (gallery idle2)
                    !! (if Qlt_le_dec 0 (-40 - 0)
                        then Z.rem (currentIndex (gallery idle2) + 1)
                               (imagePaths_length (gallery idle2))
                        else Z.rem (currentIndex (gallery idle2) - 1
                                    + imagePaths_length (gallery idle2))
                               (imagePaths_length (gallery idle2)))))
    by (evaluate; eexists; reflexivity).
  split; [exact H2 |]. split; [exact H3 |]. split; [exact H4 |].
  destruct (drag_direction_picks_image draws99 PlaneGeometry.positions idle2
              0 (-40) H1 H2 H3 H4 H5) as (_ & _ & H).
  exact H.
Defined.
